(** * image-stamp: the browser client [static/app.js]

    A shallow embedding of the client script, and the properties of its
    request construction, its response handling and its status display.

    - A JavaScript string is the list of its UTF-16 code units.
    - The page is a record of what the script reads and writes on its
      elements, with a log of every effect in the order it happens.
    - Script code is a function from the page to an outcome and a page; an
      outcome is a value or a thrown error, and awaiting a rejected promise
      throws. A handler is run from its first statement to its last, no
      other handler in between; a timer is logged when it is set, and
      [fire] says what its callback does when it runs.
    - The server's answers, the URL the browser allots to a blob and the
      wording of the engine's own errors come from an environment. *)

From Stdlib Require Import List Arith NArith ZArith Bool String Ascii Lia.
From Stdlib Require DecimalString DecimalFacts DecimalPos DecimalN.
Import ListNotations.

Local Open Scope N_scope.

(** ** JavaScript strings *)

Module JsString.

(** A string value: its UTF-16 code units. *)
Definition jsstring : Type := list N.

(** An ASCII literal of the script. *)
Definition lit (s : string) : jsstring :=
  map N_of_ascii (list_ascii_of_string s).
Arguments lit s%_string.

(** [a === b] on strings. *)
Fixpoint eqb (a b : jsstring) : bool :=
  match a, b with
  | [], [] => true
  | x :: a', y :: b' => (x =? y) && eqb a' b'
  | _, _ => false
  end.

(** [s || d] on strings: the empty string is the only falsy string. *)
Definition or_else (s d : jsstring) : jsstring :=
  match s with
  | [] => d
  | _ :: _ => s
  end.

(** ECMAScript WhiteSpace and LineTerminator code points, the set
    [String.prototype.trim] strips. *)
Definition isWhiteSpace (c : N) : bool :=
  (c =? 0x09) || (c =? 0x0A) || (c =? 0x0B) || (c =? 0x0C) || (c =? 0x0D)
  || (c =? 0x20) || (c =? 0xA0) || (c =? 0x1680)
  || ((0x2000 <=? c) && (c <=? 0x200A))
  || (c =? 0x2028) || (c =? 0x2029) || (c =? 0x202F) || (c =? 0x205F)
  || (c =? 0x3000) || (c =? 0xFEFF).

Fixpoint trimStart (s : jsstring) : jsstring :=
  match s with
  | [] => []
  | c :: r => if isWhiteSpace c then trimStart r else s
  end.

Definition trimEnd (s : jsstring) : jsstring := rev (trimStart (rev s)).

(** [s.trim()] *)
Definition trim (s : jsstring) : jsstring := trimEnd (trimStart s).

Fixpoint isPrefix (p s : jsstring) : bool :=
  match p, s with
  | [], _ => true
  | _ :: _, [] => false
  | a :: p', b :: s' => (a =? b) && isPrefix p' s'
  end.

(** [s.includes(p)] *)
Fixpoint includes (s p : jsstring) : bool :=
  isPrefix p s ||
  match s with
  | [] => false
  | _ :: s' => includes s' p
  end.

(** [parts.join(sep)] on an array of strings. *)
Fixpoint join (sep : jsstring) (parts : list jsstring) : jsstring :=
  match parts with
  | [] => []
  | [p] => p
  | p :: rest => p ++ sep ++ join sep rest
  end.

(** Decimal rendering of a non-negative integer number (below 10^21, where
    Number::toString uses plain digits). *)
Definition ofNat (n : N) : jsstring :=
  lit (DecimalString.NilZero.string_of_uint (N.to_uint n)).

(** What trimming means: [t] is [v] without a run of white space at each
    end, and has none left at either end. *)
Definition startsWithWhiteSpace (t : jsstring) : bool :=
  match t with
  | [] => false
  | c :: _ => isWhiteSpace c
  end.

Definition is_trim_of (v t : jsstring) : Prop :=
  exists l r,
    v = l ++ t ++ r /\
    forallb isWhiteSpace l = true /\ forallb isWhiteSpace r = true /\
    startsWithWhiteSpace t = false /\ startsWithWhiteSpace (rev t) = false.

End JsString.
Import JsString.

(** ** JSON: [JSON.stringify] of string-valued objects, parsed values *)

Module Json.

Definition hexDigit (d : N) : N := if d <? 10 then 48 + d else 87 + d.

(** UnicodeEscape: backslash, u, four lowercase hexadecimal digits. *)
Definition UnicodeEscape (c : N) : jsstring :=
  [0x5C; 0x75; hexDigit (c / 4096 mod 16); hexDigit (c / 256 mod 16);
   hexDigit (c / 16 mod 16); hexDigit (c mod 16)].

Definition isLeadingSurrogate (c : N) : bool := (0xD800 <=? c) && (c <=? 0xDBFF).
Definition isTrailingSurrogate (c : N) : bool := (0xDC00 <=? c) && (c <=? 0xDFFF).

(** One code point that is a single code unit, as QuoteJSONString writes it. *)
Definition quoteUnit (c : N) : jsstring :=
  if c =? 0x08 then [0x5C; 0x62]
  else if c =? 0x09 then [0x5C; 0x74]
  else if c =? 0x0A then [0x5C; 0x6E]
  else if c =? 0x0C then [0x5C; 0x66]
  else if c =? 0x0D then [0x5C; 0x72]
  else if c =? 0x22 then [0x5C; 0x22]
  else if c =? 0x5C then [0x5C; 0x5C]
  else if (c <? 0x20) || isLeadingSurrogate c || isTrailingSurrogate c
       then UnicodeEscape c
  else [c].

(** The code points of the string in order: a leading surrogate followed by a
    trailing one is one code point and is copied, every other unit goes
    through [quoteUnit]. *)
Fixpoint quoteBody (s : jsstring) : jsstring :=
  match s with
  | [] => []
  | c :: r =>
      match r with
      | d :: r' =>
          if isLeadingSurrogate c && isTrailingSurrogate d
          then c :: d :: quoteBody r'
          else quoteUnit c ++ quoteBody r
      | [] => quoteUnit c ++ quoteBody r
      end
  end.

(** A reader for the output of [quoteBody], used to show that quoting loses
    nothing: a backslash opens an escape, any other unit stands for itself. *)
Definition hexValue (h : N) : N := if h <? 58 then h - 48 else h - 87.

Definition unescape (x : N) : N :=
  if x =? 0x62 then 0x08
  else if x =? 0x74 then 0x09
  else if x =? 0x6E then 0x0A
  else if x =? 0x66 then 0x0C
  else if x =? 0x72 then 0x0D
  else x.

Fixpoint unquoteBody (s : jsstring) : jsstring :=
  match s with
  | [] => []
  | c :: r =>
      if c =? 0x5C then
        match r with
        | [] => [c]
        | x :: r1 =>
            if x =? 0x75 then
              match r1 with
              | h3 :: h2 :: h1 :: h0 :: r2 =>
                  (hexValue h3 * 4096 + hexValue h2 * 256 + hexValue h1 * 16 + hexValue h0)
                    :: unquoteBody r2
              | _ => c :: x :: r1
              end
            else unescape x :: unquoteBody r1
        end
      else c :: unquoteBody r
  end.

Definition QuoteJSONString (s : jsstring) : jsstring :=
  [0x22] ++ quoteBody s ++ [0x22].

Definition property (kv : jsstring * jsstring) : jsstring :=
  QuoteJSONString (fst kv) ++ lit ":" ++ QuoteJSONString (snd kv).

(** [JSON.stringify(o)] for an object literal [o] whose properties, in
    creation order, are [props], all string-valued. *)
Definition stringify (props : list (jsstring * jsstring)) : jsstring :=
  lit "{" ++ join (lit ",") (map property props) ++ lit "}".

(** A parsed JSON value, as [res.json()] resolves to. Numbers are kept by
    the text Number::toString gives them, which is all the script does with
    one; an object is the list of its own properties. *)
#[warnings="-register-all"]
Inductive value : Type :=
| JNull
| JBool (b : bool)
| JNumber (text : jsstring)
| JString (s : jsstring)
| JArray (items : list value)
| JObject (props : list (jsstring * value)).

Fixpoint lookup (k : jsstring) (props : list (jsstring * value)) : option value :=
  match props with
  | [] => None
  | (k', v) :: rest => if eqb k k' then Some v else lookup k rest
  end.

(** ToString of a parsed value, [None] when the conversion throws a
    TypeError. An object that carries a property named toString has lost
    the inherited method and no parsed value is callable, so
    OrdinaryToPrimitive finds nothing to call; without it the inherited
    method answers [[object Object]]. An array is joined with commas, null
    items rendering empty. *)
Fixpoint toString (v : value) : option jsstring :=
  match v with
  | JNull => Some (lit "null")
  | JBool true => Some (lit "true")
  | JBool false => Some (lit "false")
  | JNumber t => Some t
  | JString s => Some s
  | JArray items =>
      option_map (join (lit ","))
        ((fix items_text (l : list value) : option (list jsstring) :=
            match l with
            | [] => Some []
            | x :: l' =>
                match (match x with JNull => Some [] | _ => toString x end),
                      items_text l' with
                | Some t, Some ts => Some (t :: ts)
                | _, _ => None
                end
            end) items)
  | JObject props =>
      match lookup (lit "toString") props with
      | Some _ => None
      | None => Some (lit "[object Object]")
      end
  end.

End Json.

(** ** The page, the browser and the server *)

Module Browser.

(** A [File] of a [FileList]: the script reads its name and its size in bytes. *)
Record File : Type := { file_name : jsstring; file_size : N }.

Record Blob : Type := { blob_bytes : list N; blob_type : jsstring }.

(** A thrown value; everything thrown here is an Error object. *)
Record exn : Type := { exn_name : jsstring; message : jsstring }.

(** [new Error(msg)] *)
Definition Error (msg : jsstring) : exn :=
  {| exn_name := lit "Error"; message := msg |}.

(** A settled promise. *)
Inductive outcome (A : Type) : Type :=
| Resolved (a : A)
| Rejected (e : exn).
Arguments Resolved {A} a.
Arguments Rejected {A} e.

(** One entry of a [FormData], by the arguments of the call of append that
    made it: the name, and the file with its file name or the string. *)
Inductive FormEntry : Type :=
| FileEntry (name : jsstring) (f : File) (filename : jsstring)
| FieldEntry (name : jsstring) (value : jsstring).

Definition FormData : Type := list FormEntry.

(** [fd.append(...)]: a new entry after those already there. *)
Definition FormData_append (fd : FormData) (e : FormEntry) : FormData := fd ++ [e].

Inductive Body : Type :=
| TextBody (s : jsstring)
| FormBody (fd : FormData).

(** The [opts] argument of [api]. *)
Record Opts : Type := {
  opt_method : option jsstring;
  opt_headers : list (jsstring * jsstring);
  opt_body : option Body
}.

Definition no_opts : Opts :=
  {| opt_method := None; opt_headers := []; opt_body := None |}.

(** What [fetch] is called with: the url and [{credentials:'include', ...opts}]. *)
Record Request : Type := {
  req_url : jsstring;
  req_credentials : jsstring;
  req_opts : Opts
}.

(** A [Response]: status line, declared content type ([None] when the header
    is absent) and what reading its body as text, JSON or blob settles to. *)
Record Response : Type := {
  status : N;
  statusText : jsstring;
  content_type : option jsstring;
  res_text : outcome jsstring;
  res_json : outcome Json.value;
  res_blob : outcome Blob
}.

(** [res.ok]: the status is in the range 200 to 299. *)
Definition ok (res : Response) : bool := (200 <=? status res) && (status res <=? 299).

(** The synthetic anchor of the download. *)
Record Anchor : Type := { href : jsstring; download : jsstring }.

Inductive Elem : Type :=
| toastEl | creditsEl | priceEl | progressBox | progressMsg | fileList.

(** The two timer callbacks of the script. *)
Inductive Callback : Type :=
| HideToast      (* ()=>t.classList.add('hidden') *)
| HideProgress.  (* ()=>progressBox.classList.add('hidden') *)

(** Effects on the page and the outside, in the order they happen. *)
Inductive Event : Type :=
| SetTextContent (el : Elem) (s : jsstring)
| RemoveHidden (el : Elem)
| AddHidden (el : Elem)
| SetBorderColor (el : Elem) (colour : jsstring)
| SetTimeout (cb : Callback) (ms : N)
| Fetch (r : Request)
| CreateObjectURL (b : Blob) (u : jsstring)
| AppendChild (a : Anchor)
| Click (a : Anchor)
| Remove (a : Anchor)
| RevokeObjectURL (u : jsstring)
| SetFiles (fs : list File)
| ClickFileInput.

(** The TypeErrors the engine itself raises in this script. *)
Inductive EngineError : Type :=
| PropertyOfNull        (* reading a property of null *)
| NotAFunction          (* calling a value that is not callable *)
| NoPrimitiveValue.     (* ToString of an object with nothing to call *)

(** The page: the elements the script holds and the log of its effects. *)
Record Page : Type := {
  toast_textContent : jsstring;
  toast_hidden : bool;
  toast_borderColor : jsstring;
  credits_textContent : jsstring;
  price_textContent : jsstring;
  progressBox_hidden : bool;
  progressMsg_textContent : jsstring;
  fileList_textContent : jsstring;
  fileInput_files : option (list File);
  email_value : jsstring;
  password_value : jsstring;
  date_value : jsstring;
  crop_value : jsstring;
  start_value : jsstring;
  end_value : jsstring;
  log : list Event
}.

(** What the script does not decide: the server's answers (given the
    requests made before), the URL the browser allots to a blob, and the
    wording of the engine's own errors. *)
Record Env : Type := {
  network : list Request -> Request -> outcome Response;
  objectURL : Blob -> jsstring;
  engine_message : EngineError -> jsstring
}.

Definition with_log (l : list Event) (p : Page) : Page :=
  {| toast_textContent := toast_textContent p; toast_hidden := toast_hidden p;
     toast_borderColor := toast_borderColor p;
     credits_textContent := credits_textContent p;
     price_textContent := price_textContent p;
     progressBox_hidden := progressBox_hidden p;
     progressMsg_textContent := progressMsg_textContent p;
     fileList_textContent := fileList_textContent p;
     fileInput_files := fileInput_files p;
     email_value := email_value p; password_value := password_value p;
     date_value := date_value p; crop_value := crop_value p;
     start_value := start_value p; end_value := end_value p;
     log := l |}.

Definition with_textContent (el : Elem) (s : jsstring) (p : Page) : Page :=
  {| toast_textContent := match el with toastEl => s | _ => toast_textContent p end;
     toast_hidden := toast_hidden p;
     toast_borderColor := toast_borderColor p;
     credits_textContent := match el with creditsEl => s | _ => credits_textContent p end;
     price_textContent := match el with priceEl => s | _ => price_textContent p end;
     progressBox_hidden := progressBox_hidden p;
     progressMsg_textContent :=
       match el with progressMsg => s | _ => progressMsg_textContent p end;
     fileList_textContent := match el with fileList => s | _ => fileList_textContent p end;
     fileInput_files := fileInput_files p;
     email_value := email_value p; password_value := password_value p;
     date_value := date_value p; crop_value := crop_value p;
     start_value := start_value p; end_value := end_value p;
     log := log p |}.

(** The class [hidden] of the two elements whose class list the script edits. *)
Definition with_hidden (el : Elem) (h : bool) (p : Page) : Page :=
  {| toast_textContent := toast_textContent p;
     toast_hidden := match el with toastEl => h | _ => toast_hidden p end;
     toast_borderColor := toast_borderColor p;
     credits_textContent := credits_textContent p;
     price_textContent := price_textContent p;
     progressBox_hidden := match el with progressBox => h | _ => progressBox_hidden p end;
     progressMsg_textContent := progressMsg_textContent p;
     fileList_textContent := fileList_textContent p;
     fileInput_files := fileInput_files p;
     email_value := email_value p; password_value := password_value p;
     date_value := date_value p; crop_value := crop_value p;
     start_value := start_value p; end_value := end_value p;
     log := log p |}.

Definition with_borderColor (c : jsstring) (p : Page) : Page :=
  {| toast_textContent := toast_textContent p; toast_hidden := toast_hidden p;
     toast_borderColor := c;
     credits_textContent := credits_textContent p;
     price_textContent := price_textContent p;
     progressBox_hidden := progressBox_hidden p;
     progressMsg_textContent := progressMsg_textContent p;
     fileList_textContent := fileList_textContent p;
     fileInput_files := fileInput_files p;
     email_value := email_value p; password_value := password_value p;
     date_value := date_value p; crop_value := crop_value p;
     start_value := start_value p; end_value := end_value p;
     log := log p |}.

Definition with_files (fs : option (list File)) (p : Page) : Page :=
  {| toast_textContent := toast_textContent p; toast_hidden := toast_hidden p;
     toast_borderColor := toast_borderColor p;
     credits_textContent := credits_textContent p;
     price_textContent := price_textContent p;
     progressBox_hidden := progressBox_hidden p;
     progressMsg_textContent := progressMsg_textContent p;
     fileList_textContent := fileList_textContent p;
     fileInput_files := fs;
     email_value := email_value p; password_value := password_value p;
     date_value := date_value p; crop_value := crop_value p;
     start_value := start_value p; end_value := end_value p;
     log := log p |}.

(** The requests already sent, oldest first. *)
Fixpoint requests (l : list Event) : list Request :=
  match l with
  | [] => []
  | Fetch r :: l' => r :: requests l'
  | _ :: l' => requests l'
  end.

End Browser.
Import Browser.

(** ** The script *)

Module Script.

(** A run of script code: it reads and changes the page, and either returns
    normally or throws. An [await] of a rejected promise throws. *)
Definition M (A : Type) : Type := Page -> outcome A * Page.

Definition ret {A} (a : A) : M A := fun p => (Resolved a, p).

Definition bind {A B} (m : M A) (k : A -> M B) : M B :=
  fun p =>
    match m p with
    | (Resolved a, p') => k a p'
    | (Rejected e, p') => (Rejected e, p')
    end.

Definition throw {A} (e : exn) : M A := fun p => (Rejected e, p).

Definition try_catch {A} (m : M A) (handler : exn -> M A) : M A :=
  fun p =>
    match m p with
    | (Resolved a, p') => (Resolved a, p')
    | (Rejected e, p') => handler e p'
    end.

Definition await {A} (o : outcome A) : M A := fun p => (o, p).

Definition read {A} (field : Page -> A) : M A := fun p => (Resolved (field p), p).

Definition modify (f : Page -> Page) : M unit := fun p => (Resolved tt, f p).

Definition emit (e : Event) : M unit := modify (fun p => with_log (log p ++ [e]) p).

(** A call of an async function whose promise is dropped: its effects
    happen, its result and any rejection reach nobody. *)
Definition detached (m : M unit) : M unit := fun p => (Resolved tt, snd (m p)).

Notation "x <- m ;; k" := (bind m (fun x => k))
  (at level 61, m at next level, right associativity).
Notation "m ;; k" := (bind m (fun _ => k))
  (at level 61, right associativity).

Definition setTextContent (el : Elem) (s : jsstring) : M unit :=
  modify (with_textContent el s) ;; emit (SetTextContent el s).

Definition classList_remove_hidden (el : Elem) : M unit :=
  modify (with_hidden el false) ;; emit (RemoveHidden el).

Definition classList_add_hidden (el : Elem) : M unit :=
  modify (with_hidden el true) ;; emit (AddHidden el).

Definition setTimeout (cb : Callback) (ms : N) : M unit := emit (SetTimeout cb ms).

(** What a timer callback does when it fires. *)
Definition fire (cb : Callback) : M unit :=
  match cb with
  | HideToast => classList_add_hidden toastEl
  | HideProgress => classList_add_hidden progressBox
  end.

(** function toast(msg, ok=true) *)
Definition toast (msg : jsstring) (ok : bool) : M unit :=
  setTextContent toastEl msg ;;
  classList_remove_hidden toastEl ;;
  (modify (with_borderColor (if ok then lit "#1f5ec3" else lit "#743232")) ;;
   emit (SetBorderColor toastEl (if ok then lit "#1f5ec3" else lit "#743232"))) ;;
  setTimeout HideToast 3000.

(** Math.round(size/1024) for a file size: the division by a power of two
    is exact on a Number holding a non-negative integer, and Math.round
    takes the nearest integer, a half going up. *)
Definition round_kb (size : N) : N := (size + 512) / 1024.

(** `${f.name} (${Math.round(f.size/1024)} KB)` *)
Definition file_label (f : File) : jsstring :=
  file_name f ++ lit " (" ++ ofNat (round_kb (file_size f)) ++ lit " KB)".

(** The separator of the summary: two spaces, U+2022, two spaces. *)
Definition bullet : jsstring := lit "  " ++ [0x2022] ++ lit "  ".

(** function renderFiles(list); [None] is a null or undefined list. *)
Definition renderFiles (list : option (list File)) : M unit :=
  match list with
  | None | Some [] => setTextContent fileList []
  | Some fs =>
      let names := map file_label fs in
      setTextContent fileList (join bullet names)
  end.

(** What [api] resolves to: the parsed JSON or the response itself. *)
Inductive ApiResult : Type :=
| Parsed (v : Json.value)
| Raw (res : Response).

(** The request [api] hands to fetch: the url and
    {credentials:'include', ...opts}. *)
Definition request (url : jsstring) (opts : Opts) : Request :=
  {| req_url := url; req_credentials := lit "include"; req_opts := opts |}.

Section WithEnv.

Variable env : Env.

Definition TypeError (k : EngineError) : exn :=
  {| exn_name := lit "TypeError"; message := engine_message env k |}.

(** fetch(url, {credentials:'include', ...opts}) *)
Definition fetch (url : jsstring) (opts : Opts) : M Response :=
  fun p =>
    let r := request url opts in
    (network env (requests (log p)) r, with_log (log p ++ [Fetch r]) p).

(** res.headers.get('content-type')||'' *)
Definition header_or_empty (h : option jsstring) : jsstring :=
  match h with
  | Some s => or_else s []
  | None => []
  end.

(** async function api(url, opts={}) *)
Definition api (url : jsstring) (opts : Opts) : M ApiResult :=
  res <- fetch url opts ;;
  if negb (ok res) then
    txt <- await (res_text res) ;;
    throw (Error (or_else txt (statusText res)))
  else
    let ct := header_or_empty (content_type res) in
    if includes ct (lit "application/json")
    then v <- await (res_json res) ;; ret (Parsed v)
    else ret (Raw res).

(** [data.k] on what [api] resolved to: a parsed object answers with its own
    property, null throws, anything else has no such property. *)
Definition get_property (data : ApiResult) (k : jsstring) : M (option Json.value) :=
  match data with
  | Parsed Json.JNull => throw (TypeError PropertyOfNull)
  | Parsed (Json.JObject props) => ret (Json.lookup k props)
  | Parsed _ => ret None
  | Raw _ => ret None
  end.

(** [el.textContent = v ?? d]: the default for undefined or null, else the
    value converted to a string. *)
Definition setTextContent_or (el : Elem) (v : option Json.value) (d : jsstring) : M unit :=
  match v with
  | None | Some Json.JNull => setTextContent el d
  | Some x =>
      match Json.toString x with
      | Some s => setTextContent el s
      | None => throw (TypeError NoPrimitiveValue)
      end
  end.

(** The try block of refreshStatus. *)
Definition refreshStatus_try : M unit :=
  data <- api (lit "/auth/status") no_opts ;;
  credits <- get_property data (lit "credits") ;;
  setTextContent_or creditsEl credits (lit "?") ;;
  cost <- get_property data (lit "credit_cost_gbp") ;;
  setTextContent_or priceEl cost (lit "20").

(** async function refreshStatus() *)
Definition refreshStatus : M unit :=
  try_catch refreshStatus_try (fun e => setTextContent creditsEl (lit "?")).

(** JSON.stringify({email: email.value.trim(), password: password.value}) *)
Definition credentials_body : M Body :=
  e <- read email_value ;;
  pw <- read password_value ;;
  ret (TextBody (Json.stringify [(lit "email", trim e); (lit "password", pw)])).

Definition json_post (b : Body) : Opts :=
  {| opt_method := Some (lit "POST");
     opt_headers := [(lit "content-type", lit "application/json")];
     opt_body := Some b |}.

Definition post : Opts :=
  {| opt_method := Some (lit "POST"); opt_headers := []; opt_body := None |}.

(** loginBtn.onclick *)
Definition loginBtn_onclick : M unit :=
  try_catch
    (b <- credentials_body ;;
     _ <- api (lit "/auth/login") (json_post b) ;;
     toast (lit "Logged in") true ;;
     detached refreshStatus)
    (fun e => toast (message e) false).

(** signupBtn.onclick *)
Definition signupBtn_onclick : M unit :=
  try_catch
    (b <- credentials_body ;;
     _ <- api (lit "/auth/signup") (json_post b) ;;
     toast (lit "Account created. You can login now.") true)
    (fun e => toast (message e) false).

(** logoutBtn.onclick *)
Definition logoutBtn_onclick : M unit :=
  try_catch
    (_ <- api (lit "/auth/logout") post ;;
     toast (lit "Logged out") true ;;
     detached refreshStatus)
    (fun e => toast (message e) false).

(** topupBtn.onclick *)
Definition topupBtn_onclick : M unit :=
  try_catch
    (_ <- api (lit "/auth/topup_demo") post ;;
     toast (lit "Added 5 demo credits") true ;;
     detached refreshStatus)
    (fun e => toast (lit "Demo top-up not enabled") false).

(** chooseBtn.onclick *)
Definition chooseBtn_onclick : M unit := emit ClickFileInput.

(** fileInput.onchange *)
Definition fileInput_onchange : M unit :=
  fs <- read fileInput_files ;; renderFiles fs.

(** The drop listener of the dropzone; [dt] is e.dataTransfer's file list,
    [None] when the event has no dataTransfer. *)
Definition dropzone_ondrop (dt : option (list File)) : M unit :=
  match dt with
  | None => ret tt
  | Some files =>
      (modify (with_files (Some files)) ;; emit (SetFiles files)) ;;
      renderFiles (Some files)
  end.

(** The form data of a submission: the files, then the four fields. *)
Definition stamp_form (files : list File) : M FormData :=
  let fd := [] in
  let fd := fold_left (fun fd f => FormData_append fd (FileEntry (lit "files") f (file_name f)))
              files fd in
  d <- read date_value ;;
  let fd := FormData_append fd (FieldEntry (lit "date") (trim d)) in
  s <- read start_value ;;
  let fd := FormData_append fd (FieldEntry (lit "start_time") (trim s)) in
  e <- read end_value ;;
  let fd := FormData_append fd (FieldEntry (lit "end_time") (trim e)) in
  c <- read crop_value ;;
  let fd := FormData_append fd (FieldEntry (lit "crop_height") (trim c)) in
  ret fd.

(** [await res.blob()] on what [api] resolved to: only a response has the
    method. *)
Definition call_blob (res : ApiResult) : M Blob :=
  match res with
  | Raw r => await (res_blob r)
  | Parsed Json.JNull => throw (TypeError PropertyOfNull)
  | Parsed _ => throw (TypeError NotAFunction)
  end.

(** The text of the progress message while the job runs: the word and U+2026. *)
Definition processing : jsstring := lit "Processing" ++ [0x2026].

(** The download of the blob through a synthetic anchor. *)
Definition save_blob (blob : Blob) : M unit :=
  let url := objectURL env blob in
  emit (CreateObjectURL blob url) ;;
  let a := {| href := url; download := lit "stamped_images.zip" |} in
  emit (AppendChild a) ;;
  emit (Click a) ;;
  emit (Remove a) ;;
  emit (RevokeObjectURL url).

(** {method:'POST', body: fd} *)
Definition form_post (fd : FormData) : Opts :=
  {| opt_method := Some (lit "POST"); opt_headers := []; opt_body := Some (FormBody fd) |}.

(** The try block of stampBtn.onclick from the response on: the download,
    the end of the progress display and the refresh of the status. *)
Definition stamp_download (res : ApiResult) : M unit :=
  blob <- call_blob res ;;
  save_blob blob ;;
  setTextContent progressMsg (lit "Done") ;;
  setTimeout HideProgress 500 ;;
  detached refreshStatus.

(** stampBtn.onclick *)
Definition stampBtn_onclick : M unit :=
  try_catch
    (files <- read fileInput_files ;;
     match files with
     | None | Some [] => throw (Error (lit "Please add images or a .zip"))
     | Some fs =>
         fd <- stamp_form fs ;;
         classList_remove_hidden progressBox ;;
         setTextContent progressMsg processing ;;
         res <- api (lit "/api/stamp") (form_post fd) ;;
         stamp_download res
     end)
    (fun e => classList_add_hidden progressBox ;; toast (message e) false).

End WithEnv.

(** *** Vocabulary of the properties *)

(** The page when the request of a submission goes out. *)
Definition processing_page (p : Page) : Page :=
  with_log (log p ++ [RemoveHidden progressBox; SetTextContent progressMsg processing])
    (with_textContent progressMsg processing (with_hidden progressBox false p)).

(** The page when the download is over and the status is about to be asked. *)
Definition downloaded_page (env : Env) (b : Blob) (p : Page) : Page :=
  let a := {| href := objectURL env b; download := lit "stamped_images.zip" |} in
  with_log (log p ++ [CreateObjectURL b (objectURL env b); AppendChild a; Click a; Remove a;
                      RevokeObjectURL (objectURL env b);
                      SetTextContent progressMsg (lit "Done");
                      SetTimeout HideProgress 500])
    (with_textContent progressMsg (lit "Done") p).

(** The page when a failed submission has been reported. *)
Definition failed_page (msg : jsstring) (p : Page) : Page :=
  with_log (log p ++ [AddHidden progressBox; SetTextContent toastEl msg;
                      RemoveHidden toastEl; SetBorderColor toastEl (lit "#743232");
                      SetTimeout HideToast 3000])
    (with_borderColor (lit "#743232")
       (with_hidden toastEl false
          (with_textContent toastEl msg (with_hidden progressBox true p)))).

(** The request a submission of the files [F] from the page [p] sends. *)
Definition submitted (p : Page) (F : list File) : Request :=
  {| req_url := lit "/api/stamp";
     req_credentials := lit "include";
     req_opts :=
       {| opt_method := Some (lit "POST");
          opt_headers := [];
          opt_body :=
            Some (FormBody
                    (map (fun f => FileEntry (lit "files") f (file_name f)) F ++
                     [FieldEntry (lit "date") (trim (date_value p));
                      FieldEntry (lit "start_time") (trim (start_value p));
                      FieldEntry (lit "end_time") (trim (end_value p));
                      FieldEntry (lit "crop_height") (trim (crop_value p))])) |} |}.

(** What [call_blob] throws on a parsed value. *)
Definition no_blob (env : Env) (v : Json.value) : exn :=
  match v with
  | Json.JNull => TypeError env PropertyOfNull
  | _ => TypeError env NotAFunction
  end.

(** The body the login and the signup handler post from the page [p]. *)
Definition posted (p : Page) : Body :=
  TextBody (Json.stringify [(lit "email", trim (email_value p));
                            (lit "password", password_value p)]).

(** The request of the status query. *)
Definition status_query : Request := request (lit "/auth/status") no_opts.

(** The response declares JSON, as [api] tests it. *)
Definition declares_json (res : Response) : bool :=
  includes (header_or_empty (content_type res)) (lit "application/json").

(** Effects that hand a blob to the user. *)
Definition is_download (ev : Event) : bool :=
  match ev with
  | CreateObjectURL _ _ | Click _ => true
  | _ => false
  end.

(** Effects that raise a notice. *)
Definition is_notice (ev : Event) : bool :=
  match ev with
  | SetTextContent toastEl _ | RemoveHidden toastEl | SetBorderColor _ _ => true
  | _ => false
  end.

(** Writes to the two status displays. *)
Definition is_status_text (ev : Event) : bool :=
  match ev with
  | SetTextContent creditsEl _ | SetTextContent priceEl _ => true
  | _ => false
  end.

(** The number a text of decimal digits stands for, read from the left with
    [acc] for the digits already read; [None] when a unit is not a digit. *)
Fixpoint digits_value (acc : N) (ds : jsstring) : option N :=
  match ds with
  | [] => Some acc
  | c :: r =>
      if (48 <=? c) && (c <=? 57) then digits_value (10 * acc + (c - 48)) r else None
  end.

(** [ds] is the number [n] written in decimal: digits, at least one, that
    stand for [n], with no zero in front unless [ds] is the single zero. *)
Definition is_decimal_of (n : N) (ds : jsstring) : Prop :=
  ds <> [] /\ digits_value 0 ds = Some n /\ (forall r, ds = 48 :: r -> r = []).

(** [t] is the entry of the file [f] in the summary: the name, a space, and
    in round brackets the size in KB in decimal, a space and the letters
    KB, the size in KB being the whole number nearest to the size in bytes
    over 1024, the upper one of two that are as near. *)
Definition is_label (f : File) (t : jsstring) : Prop :=
  exists k ds,
    t = file_name f ++ [32; 40] ++ ds ++ [32; 75; 66; 41]
    /\ is_decimal_of k ds
    /\ 1024 * k <= file_size f + 512 /\ file_size f < 1024 * k + 512.

(** [t] is the summary of the list [l]: empty for no list or an empty one,
    else the entries of the files in order, two spaces, U+2022 and two
    spaces between one entry and the next. *)
Definition is_summary (l : option (list File)) (t : jsstring) : Prop :=
  match l with
  | None | Some [] => t = []
  | Some (f :: fs) =>
      exists first rest,
        is_label f first /\ Forall2 is_label fs rest
        /\ t = first ++ List.concat (map (fun x => [32; 32; 0x2022; 32; 32] ++ x) rest)
  end.

(** The requests a run from the page [p] sends, oldest first. *)
Definition sent {A} (m : M A) (p : Page) : list Request :=
  skipn (List.length (requests (log p))) (requests (log (snd (m p)))).

(** The effects a run from the page [p] adds to the log. *)
Definition effects {A} (m : M A) (p : Page) : list Event :=
  skipn (List.length (log p)) (log (snd (m p))).

(** The server cannot be reached, or answers the request [r] outside 2xx. *)
Definition query_fails (env : Env) (p : Page) (r : Request) : Prop :=
  (exists e, network env (requests (log p)) r = Rejected e) \/
  (exists res, network env (requests (log p)) r = Resolved res /\ ok res = false).

(** A computation that only ever adds to the log of effects. *)
Definition grows {A} (m : M A) : Prop :=
  forall p, exists evs, log (snd (m p)) = log p ++ evs.

End Script.
Import Script.

(** ** The start of the script and the events of the page *)

Module Session.

(** What the script asks of [new Date()]: the day of the month, the month
    counted from zero and the year. *)
Record Date : Type := { getDate : N; getMonth : N; getFullYear : Z }.

(** Decimal rendering of an integer number, a minus sign before a negative
    one. *)
Definition ofInt (z : Z) : jsstring :=
  lit (DecimalString.NilZero.string_of_int (Z.to_int z)).

(** The first [n] units of [fill] repeated without end, [rest] being what
    is left of the copy in hand. *)
Fixpoint filler (n : nat) (fill rest : jsstring) : jsstring :=
  match n with
  | O => []
  | S n' =>
      match rest with
      | c :: r => c :: filler n' fill r
      | [] =>
          match fill with
          | c :: r => c :: filler n' fill r
          | [] => []
          end
      end
  end.

(** [s.padStart(n, fill)]: [s] itself when it is long enough or [fill] is
    empty, else [s] after as much of the repeated [fill] as makes [n] units. *)
Definition padStart (n : nat) (fill s : jsstring) : jsstring :=
  if (n <=? List.length s)%nat then s
  else match fill with
       | [] => s
       | _ :: _ => filler (n - List.length s) fill fill ++ s
       end.

Definition with_date_value (v : jsstring) (p : Page) : Page :=
  {| toast_textContent := toast_textContent p; toast_hidden := toast_hidden p;
     toast_borderColor := toast_borderColor p;
     credits_textContent := credits_textContent p;
     price_textContent := price_textContent p;
     progressBox_hidden := progressBox_hidden p;
     progressMsg_textContent := progressMsg_textContent p;
     fileList_textContent := fileList_textContent p;
     fileInput_files := fileInput_files p;
     email_value := email_value p; password_value := password_value p;
     date_value := v; crop_value := crop_value p;
     start_value := start_value p; end_value := end_value p;
     log := log p |}.

Definition with_start_value (v : jsstring) (p : Page) : Page :=
  {| toast_textContent := toast_textContent p; toast_hidden := toast_hidden p;
     toast_borderColor := toast_borderColor p;
     credits_textContent := credits_textContent p;
     price_textContent := price_textContent p;
     progressBox_hidden := progressBox_hidden p;
     progressMsg_textContent := progressMsg_textContent p;
     fileList_textContent := fileList_textContent p;
     fileInput_files := fileInput_files p;
     email_value := email_value p; password_value := password_value p;
     date_value := date_value p; crop_value := crop_value p;
     start_value := v; end_value := end_value p;
     log := log p |}.

Definition with_end_value (v : jsstring) (p : Page) : Page :=
  {| toast_textContent := toast_textContent p; toast_hidden := toast_hidden p;
     toast_borderColor := toast_borderColor p;
     credits_textContent := credits_textContent p;
     price_textContent := price_textContent p;
     progressBox_hidden := progressBox_hidden p;
     progressMsg_textContent := progressMsg_textContent p;
     fileList_textContent := fileList_textContent p;
     fileInput_files := fileInput_files p;
     email_value := email_value p; password_value := password_value p;
     date_value := date_value p; crop_value := crop_value p;
     start_value := start_value p; end_value := v;
     log := log p |}.

(** (function setDefaults(){...})() with [d] for new Date(): the three
    form fields get their values; nothing else happens. *)
Definition setDefaults (d : Date) : M unit :=
  let dd := padStart 2 (lit "0") (ofNat (getDate d)) in
  let mm := padStart 2 (lit "0") (ofNat (getMonth d + 1)) in
  let yyyy := getFullYear d in
  modify (with_date_value (dd ++ lit "/" ++ mm ++ lit "/" ++ ofInt yyyy)) ;;
  modify (with_start_value (lit "09:00:00")) ;;
  modify (with_end_value (lit "09:05:00")).

(** The statements the script runs when it is loaded: the defaults, then,
    the handlers being in place, the first status query. *)
Definition main (env : Env) (now : Date) : M unit :=
  setDefaults now ;; detached (refreshStatus env).

(** What can happen to the page once the script is loaded. A change event
    of the file input comes with the files the browser has just put in it;
    a drop comes with the file list of its dataTransfer, if it has one. *)
Inductive Action : Type :=
| ClickLogin
| ClickSignup
| ClickLogout
| ClickTopup
| ClickChoose
| ChangeFiles (picked : list File)
| DropFiles (dt : option (list File))
| ClickStamp
| TimerFires (cb : Callback).

(** The listener the script has put on each of them. *)
Definition handle (env : Env) (a : Action) : M unit :=
  match a with
  | ClickLogin => loginBtn_onclick env
  | ClickSignup => signupBtn_onclick env
  | ClickLogout => logoutBtn_onclick env
  | ClickTopup => topupBtn_onclick env
  | ClickChoose => chooseBtn_onclick
  | ChangeFiles picked => modify (with_files (Some picked)) ;; fileInput_onchange
  | DropFiles dt => dropzone_ondrop dt
  | ClickStamp => stampBtn_onclick env
  | TimerFires cb => fire cb
  end.

(** The page after the actions [l], one after the other. *)
Fixpoint after (env : Env) (l : list Action) (p : Page) : Page :=
  match l with
  | [] => p
  | a :: l' => after env l' (snd (handle env a p))
  end.

(** *** Vocabulary of the properties *)

(** A computation that leaves the view [f] of the page as it found it. *)
Definition preserves {A B} (f : Page -> B) (m : M A) : Prop :=
  forall p, f (snd (m p)) = f p.

(** A computation that only adds effects that pass the test [ok]. *)
Definition emits {A} (ok : Event -> bool) (m : M A) : Prop :=
  forall p, exists evs, log (snd (m p)) = log p ++ evs /\ forallb ok evs = true.

(** The fields of the form that the user fills in. *)
Definition typed (p : Page) : jsstring * jsstring * jsstring :=
  (email_value p, password_value p, crop_value p).

(** The fields of the form that get a default. *)
Definition defaulted (p : Page) : jsstring * jsstring * jsstring :=
  (date_value p, start_value p, end_value p).

(** The selection and its summary. *)
Definition selection (p : Page) : option (list File) * jsstring :=
  (fileInput_files p, fileList_textContent p).

(** The summary on the page is the one of the selection on the page. *)
Definition summary_current (p : Page) : Prop :=
  is_summary (fileInput_files p) (fileList_textContent p).

(** The six addresses the script calls, each with its method: no method,
    that is a GET, for the status, POST for the rest. *)
Definition known_call (r : Request) : bool :=
  match opt_method (req_opts r) with
  | None => eqb (req_url r) (lit "/auth/status")
  | Some m =>
      eqb m (lit "POST") &&
      (eqb (req_url r) (lit "/auth/login") || eqb (req_url r) (lit "/auth/signup")
       || eqb (req_url r) (lit "/auth/logout") || eqb (req_url r) (lit "/auth/topup_demo")
       || eqb (req_url r) (lit "/api/stamp"))
  end.

(** An effect the script is expected to have: a request is one of the known
    calls and carries the credentials, a timer is one of the two the script
    sets, an anchor has the file name of the archive. *)
Definition expected (ev : Event) : bool :=
  match ev with
  | Fetch r => eqb (req_credentials r) (lit "include") && known_call r
  | SetTimeout HideToast ms => ms =? 3000
  | SetTimeout HideProgress ms => ms =? 500
  | AppendChild a | Click a | Remove a => eqb (download a) (lit "stamped_images.zip")
  | _ => true
  end.

(** A computation that returns normally from every page. *)
Definition settles {A} (m : M A) : Prop :=
  forall p, exists a, fst (m p) = Resolved a.

(** The four buttons of the session: the call each makes from the page
    [p], the notice it shows when the call succeeds, and whether it then
    asks for the status. *)
Definition session_call (a : Action) (p : Page) : option (Request * jsstring * bool) :=
  match a with
  | ClickLogin =>
      Some (request (lit "/auth/login") (json_post (posted p)), lit "Logged in", true)
  | ClickSignup =>
      Some (request (lit "/auth/signup") (json_post (posted p)),
            lit "Account created. You can login now.", false)
  | ClickLogout => Some (request (lit "/auth/logout") post, lit "Logged out", true)
  | ClickTopup =>
      Some (request (lit "/auth/topup_demo") post, lit "Added 5 demo credits", true)
  | _ => None
  end.

(** The effects of a notice. *)
Definition notice (msg : jsstring) (good : bool) : list Event :=
  [SetTextContent toastEl msg; RemoveHidden toastEl;
   SetBorderColor toastEl (if good then lit "#1f5ec3" else lit "#743232");
   SetTimeout HideToast 3000].

(** What a status display shows for the property [v] of the answer, [d]
    being its placeholder: the placeholder when the property is absent or
    null, the text of a number, the string itself. *)
Definition displays (v : option Json.value) (d t : jsstring) : Prop :=
  ((v = None \/ v = Some Json.JNull) /\ t = d)
  \/ (exists n, v = Some (Json.JNumber n) /\ t = n)
  \/ (exists s, v = Some (Json.JString s) /\ t = s).

(** A printable ASCII unit other than the space. *)
Definition plain (c : N) : bool := (33 <=? c) && (c <=? 126).

(** A two-digit decimal number as the text of its two digits. *)
Definition two_digits (n : N) : jsstring := [48 + n / 10; 48 + n mod 10].

(** The end of a quoted string: the text before the first quote that no
    backslash escapes, and the text after that quote. *)
Fixpoint closing (s : jsstring) : option (jsstring * jsstring) :=
  match s with
  | [] => None
  | c :: r =>
      if c =? 0x22 then Some ([], r)
      else if c =? 0x5C then
        match r with
        | [] => None
        | x :: r' =>
            match closing r' with
            | Some (a, b) => Some (c :: x :: a, b)
            | None => None
            end
        end
      else
        match closing r with
        | Some (a, b) => Some (c :: a, b)
        | None => None
        end
  end.

(** [s] without the prefix [pre], when it starts with it. *)
Definition after_prefix (pre s : jsstring) : option jsstring :=
  if isPrefix pre s then Some (skipn (List.length pre) s) else None.

(** A reader for the body the login and signup handlers post: the email
    and the password of the text {"email":"...","password":"..."}. *)
Definition read_credentials (body : jsstring) : option (jsstring * jsstring) :=
  match after_prefix (lit "{" ++ [0x22] ++ lit "email" ++ [0x22] ++ lit ":" ++ [0x22]) body with
  | None => None
  | Some s1 =>
      match closing s1 with
      | None => None
      | Some (e, s2) =>
          match after_prefix (lit "," ++ [0x22] ++ lit "password" ++ [0x22] ++ lit ":" ++ [0x22])
                  s2 with
          | None => None
          | Some s3 =>
              match closing s3 with
              | None => None
              | Some (pw, s4) =>
                  if eqb s4 (lit "}")
                  then Some (Json.unquoteBody e, Json.unquoteBody pw)
                  else None
              end
          end
      end
  end.

End Session.
Import Session.

(** ** Sample pages and servers *)

Module Sample.

Definition a_png : File := {| file_name := lit "a.png"; file_size := 2048 |}.

Definition b_zip : File := {| file_name := lit "b.zip"; file_size := 1536 |}.

(** A freshly loaded page with the form filled in and nothing selected. *)
Definition blank : Page :=
  {| toast_textContent := []; toast_hidden := true; toast_borderColor := [];
     credits_textContent := lit "0"; price_textContent := lit "20";
     progressBox_hidden := true; progressMsg_textContent := [];
     fileList_textContent := []; fileInput_files := Some [];
     email_value := lit " ann@example.org "; password_value := lit "s3cret ";
     date_value := lit " 01/01/2024"; crop_value := lit "100 ";
     start_value := lit "09:00:00"; end_value := lit "09:05:00";
     log := [] |}.

Definition selected : Page := with_files (Some [a_png; b_zip]) blank.

(** The blank page with the password typed without its final space. *)
Definition retyped : Page :=
  {| toast_textContent := []; toast_hidden := true; toast_borderColor := [];
     credits_textContent := lit "0"; price_textContent := lit "20";
     progressBox_hidden := true; progressMsg_textContent := [];
     fileList_textContent := []; fileInput_files := Some [];
     email_value := lit " ann@example.org "; password_value := lit "s3cret";
     date_value := lit " 01/01/2024"; crop_value := lit "100 ";
     start_value := lit "09:00:00"; end_value := lit "09:05:00";
     log := [] |}.

Definition zip : Blob := {| blob_bytes := [80; 75; 5; 6]; blob_type := lit "application/zip" |}.

Definition failed_read {A} : outcome A :=
  Rejected {| exn_name := lit "TypeError"; message := lit "body stream already read" |}.

Definition zip_response : Response :=
  {| status := 200; statusText := lit "OK";
     content_type := Some (lit "application/zip");
     res_text := failed_read; res_json := failed_read; res_blob := Resolved zip |}.

Definition status_response : Response :=
  {| status := 200; statusText := lit "OK";
     content_type := Some (lit "application/json");
     res_text := failed_read;
     res_json := Resolved (Json.JObject [(lit "credits", Json.JNumber (lit "4"));
                                         (lit "credit_cost_gbp", Json.JNumber (lit "20"))]);
     res_blob := failed_read |}.

(** A stamp answer that declares JSON although its body is the archive. *)
Definition mislabelled_response : Response :=
  {| status := 200; statusText := lit "OK";
     content_type := Some (lit "application/json");
     res_text := failed_read;
     res_json := Resolved (Json.JObject []);
     res_blob := Resolved zip |}.

Definition no_credits_response : Response :=
  {| status := 402; statusText := lit "Payment Required";
     content_type := Some (lit "text/plain");
     res_text := Resolved (lit "Insufficient credits");
     res_json := failed_read; res_blob := failed_read |}.

Definition not_found_response : Response :=
  {| status := 404; statusText := lit "Not Found";
     content_type := None;
     res_text := Resolved [];
     res_json := failed_read; res_blob := failed_read |}.

Definition browser (net : list Request -> Request -> outcome Response) : Env :=
  {| network := net;
     objectURL := fun _ => lit "blob:null/0";
     engine_message := fun k =>
       match k with
       | PropertyOfNull => lit "Cannot read properties of null"
       | NotAFunction => lit "res.blob is not a function"
       | NoPrimitiveValue => lit "Cannot convert object to primitive value"
       end |}.

(** A server in working order, with four credits on the session. *)
Definition healthy : Env :=
  browser (fun _ r =>
    if eqb (req_url r) (lit "/api/stamp") then Resolved zip_response
    else Resolved status_response).

(** The same server declaring JSON on the stamp endpoint. *)
Definition mislabelling : Env :=
  browser (fun _ r =>
    if eqb (req_url r) (lit "/api/stamp") then Resolved mislabelled_response
    else Resolved status_response).

(** A session out of credits: every call is refused with a body. *)
Definition refusing : Env := browser (fun _ _ => Resolved no_credits_response).

(** A deployment without the endpoints: empty 404 answers. *)
Definition absent : Env := browser (fun _ _ => Resolved not_found_response).

(** A server whose status answer has an object for a price that no
    conversion to a string accepts. *)
Definition unpriced : Env :=
  browser (fun _ _ =>
    Resolved
      {| status := 200; statusText := lit "OK";
         content_type := Some (lit "application/json; charset=utf-8");
         res_text := failed_read;
         res_json :=
           Resolved (Json.JObject
                       [(lit "credits", Json.JNumber (lit "3"));
                        (lit "credit_cost_gbp",
                         Json.JObject [(lit "toString", Json.JNumber (lit "1"))])]);
         res_blob := failed_read |}).

(** No connection. *)
Definition offline : Env :=
  browser (fun _ _ =>
    Rejected {| exn_name := lit "TypeError"; message := lit "Failed to fetch" |}).

End Sample.

(** ** More sample pages and servers *)

Module Cases.

(** The first of January 2024. *)
Definition new_year : Date := {| getDate := 1; getMonth := 0; getFullYear := 2024%Z |}.

(** The thirtieth of November 987. *)
Definition long_ago : Date := {| getDate := 30; getMonth := 10; getFullYear := 987%Z |}.

Definition unauthorized_response : Response :=
  {| status := 401; statusText := lit "Unauthorized";
     content_type := Some (lit "text/plain");
     res_text := Resolved (lit "Invalid credentials");
     res_json := Sample.failed_read; res_blob := Sample.failed_read |}.

(** A server that refuses every call with a body. *)
Definition denying : Env := Sample.browser (fun _ _ => Resolved unauthorized_response).

Definition empty_ok_response : Response :=
  {| status := 200; statusText := lit "OK"; content_type := None;
     res_text := Resolved []; res_json := Sample.failed_read;
     res_blob := Resolved {| blob_bytes := []; blob_type := [] |} |}.

(** A server that answers every call 200 with an empty body and no
    content type. *)
Definition terse : Env := Sample.browser (fun _ _ => Resolved empty_ok_response).

(** An answer 200 that declares JSON and has an empty body, which no
    parser accepts. *)
Definition garbled_response : Response :=
  {| status := 200; statusText := lit "OK";
     content_type := Some (lit "application/json");
     res_text := Resolved [];
     res_json := Rejected {| exn_name := lit "SyntaxError";
                             message := lit "Unexpected end of JSON input" |};
     res_blob := Resolved {| blob_bytes := []; blob_type := lit "application/json" |} |}.

(** A server that answers every call with it. *)
Definition garbling : Env := Sample.browser (fun _ _ => Resolved garbled_response).

(** The blank page after a price of 5 has been shown. *)
Definition discounted : Page := with_textContent priceEl (lit "5") Sample.blank.

End Cases.

(** * Properties *)

(** ** Strings *)

Lemma trimStart_split (s : jsstring) :
  exists l, s = l ++ trimStart s /\ forallb isWhiteSpace l = true.
Proof.
  induction s as [|c r [l [E W]]]; simpl.
  - exists []. split; reflexivity.
  - destruct (isWhiteSpace c) eqn:C.
    + exists (c :: l). simpl. rewrite C, W. split; [f_equal; exact E | reflexivity].
    + exists []. split; reflexivity.
Qed.

Lemma trimStart_head (s : jsstring) : startsWithWhiteSpace (trimStart s) = false.
Proof.
  induction s as [|c r IH]; simpl; [reflexivity|].
  destruct (isWhiteSpace c) eqn:C; [exact IH | simpl; exact C].
Qed.

Lemma forallb_rev {A} (f : A -> bool) (l : list A) :
  forallb f l = true -> forallb f (rev l) = true.
Proof.
  intros H. apply forallb_forall. intros x Hx.
  apply (proj1 (forallb_forall f l) H). apply in_rev. exact Hx.
Qed.

Lemma trimEnd_split (s : jsstring) :
  exists r, s = trimEnd s ++ r /\ forallb isWhiteSpace r = true.
Proof.
  unfold trimEnd. destruct (trimStart_split (rev s)) as [l [E W]].
  exists (rev l). split; [|apply forallb_rev; exact W].
  rewrite <- rev_app_distr, <- E, rev_involutive. reflexivity.
Qed.

Lemma trimEnd_last (s : jsstring) : startsWithWhiteSpace (rev (trimEnd s)) = false.
Proof. unfold trimEnd. rewrite rev_involutive. apply trimStart_head. Qed.

(** [trim] meets its description. *)
Lemma trim_is_trim_of (v : jsstring) : is_trim_of v (trim v).
Proof.
  unfold trim.
  destruct (trimStart_split v) as [l [El Wl]].
  destruct (trimEnd_split (trimStart v)) as [r [Er Wr]].
  exists l, r. repeat split; auto.
  - rewrite <- Er. exact El.
  - pose proof (trimStart_head v) as H. rewrite Er in H.
    destruct (trimEnd (trimStart v)); [reflexivity | exact H].
  - apply trimEnd_last.
Qed.

Lemma trimStart_after_white (l s : jsstring) :
  forallb isWhiteSpace l = true -> trimStart (l ++ s) = trimStart s.
Proof.
  induction l as [|c l IH]; [reflexivity|]. cbn [forallb app trimStart]. intros H.
  apply andb_true_iff in H. destruct H as [C W]. rewrite C. exact (IH W).
Qed.

Lemma trimStart_fixed (t : jsstring) :
  startsWithWhiteSpace t = false -> trimStart t = t.
Proof. destruct t as [|c t]; [reflexivity|]. cbn. intros ->. reflexivity. Qed.

(** The description determines the result: nothing but [trim v] is [v]
    trimmed. *)
Lemma is_trim_of_unique (v t : jsstring) : is_trim_of v t -> t = trim v.
Proof.
  intros (l & r & E & Wl & Wr & Hs & He). subst v. unfold trim.
  rewrite (trimStart_after_white l _ Wl).
  destruct t as [|c t].
  - cbn [app]. replace (trimStart r) with (@nil N); [reflexivity|].
    rewrite <- (app_nil_r r), (trimStart_after_white r [] Wr). reflexivity.
  - rewrite (trimStart_fixed ((c :: t) ++ r)) by exact Hs.
    unfold trimEnd. rewrite rev_app_distr.
    rewrite (trimStart_after_white (rev r) _ (forallb_rev _ _ Wr)).
    rewrite (trimStart_fixed _ He). symmetry. apply rev_involutive.
Qed.

(** ** JSON text *)

Lemma hexValue_hexDigit (d : N) : d < 16 -> Json.hexValue (Json.hexDigit d) = d.
Proof.
  intros H. unfold Json.hexValue, Json.hexDigit.
  destruct (d <? 10) eqn:D.
  - apply N.ltb_lt in D.
    replace (48 + d <? 58) with true by (symmetry; apply N.ltb_lt; lia). lia.
  - apply N.ltb_ge in D.
    replace (87 + d <? 58) with false by (symmetry; apply N.ltb_ge; lia). lia.
Qed.

Lemma hex_digits_value (c : N) :
  c < 65536 ->
  (c / 4096 mod 16) * 4096 + (c / 256 mod 16) * 256 + (c / 16 mod 16) * 16 + c mod 16 = c.
Proof.
  intros H.
  pose proof (N.div_mod c 16 ltac:(lia)) as E0.
  pose proof (N.div_mod (c / 16) 16 ltac:(lia)) as E1.
  pose proof (N.div_mod (c / 16 / 16) 16 ltac:(lia)) as E2.
  pose proof (N.div_mod (c / 16 / 16 / 16) 16 ltac:(lia)) as E3.
  assert (D2 : c / 256 = c / 16 / 16) by (rewrite N.Div0.div_div; reflexivity).
  assert (D3 : c / 4096 = c / 16 / 16 / 16) by (rewrite !N.Div0.div_div; reflexivity).
  assert (Z : c / 16 / 16 / 16 / 16 = 0).
  { rewrite !N.Div0.div_div. apply N.div_small. exact H. }
  rewrite D2, D3. rewrite Z in E3. lia.
Qed.

Lemma unquote_UnicodeEscape (c : N) (rest : jsstring) :
  c < 65536 ->
  Json.unquoteBody (Json.UnicodeEscape c ++ rest) = c :: Json.unquoteBody rest.
Proof.
  intros H. unfold Json.UnicodeEscape. cbn [app Json.unquoteBody].
  change (0x5C =? 0x5C) with true. change (0x75 =? 0x75) with true. cbv iota.
  f_equal.
  rewrite !hexValue_hexDigit by (apply N.mod_lt; lia).
  apply hex_digits_value. exact H.
Qed.

Lemma surrogate_not_backslash (c : N) :
  Json.isLeadingSurrogate c || Json.isTrailingSurrogate c = true -> (c =? 0x5C) = false.
Proof.
  unfold Json.isLeadingSurrogate, Json.isTrailingSurrogate. intros H.
  apply N.eqb_neq. intros ->. discriminate H.
Qed.

Lemma unquote_plain (c : N) (rest : jsstring) :
  (c =? 0x5C) = false -> Json.unquoteBody (c :: rest) = c :: Json.unquoteBody rest.
Proof. intros H. cbn [Json.unquoteBody]. rewrite H. reflexivity. Qed.

Lemma unquote_quoteUnit (c : N) (rest : jsstring) :
  Json.unquoteBody (Json.quoteUnit c ++ rest) = c :: Json.unquoteBody rest.
Proof.
  unfold Json.quoteUnit.
  repeat match goal with
  | |- context [if ?x =? ?k then _ else _] =>
      let E := fresh "E" in
      destruct (x =? k) eqn:E; [apply N.eqb_eq in E; subst x; reflexivity|]
  end.
  destruct ((c <? 0x20) || Json.isLeadingSurrogate c || Json.isTrailingSurrogate c) eqn:U.
  - apply unquote_UnicodeEscape.
    unfold Json.isLeadingSurrogate, Json.isTrailingSurrogate in U.
    repeat (apply orb_true_iff in U; destruct U as [U|U]).
    + apply N.ltb_lt in U. lia.
    + apply andb_true_iff in U. destruct U as [_ U]. apply N.leb_le in U. lia.
    + apply andb_true_iff in U. destruct U as [_ U]. apply N.leb_le in U. lia.
  - apply unquote_plain. assumption.
Qed.

Lemma quoteBody_cons (c : N) (r : jsstring) :
  Json.quoteBody (c :: r) =
  match r with
  | d :: r' =>
      if Json.isLeadingSurrogate c && Json.isTrailingSurrogate d
      then c :: d :: Json.quoteBody r'
      else Json.quoteUnit c ++ Json.quoteBody r
  | [] => Json.quoteUnit c ++ Json.quoteBody r
  end.
Proof. destruct r; reflexivity. Qed.

Lemma unquote_quoteBody_bounded (n : nat) :
  forall s : jsstring, (List.length s <= n)%nat -> Json.unquoteBody (Json.quoteBody s) = s.
Proof.
  induction n as [|n IH]; intros s L.
  - destruct s; [reflexivity | simpl in L; lia].
  - destruct s as [|c [|d r]]; [reflexivity | |].
    + rewrite quoteBody_cons. rewrite unquote_quoteUnit. reflexivity.
    + rewrite quoteBody_cons.
      destruct (Json.isLeadingSurrogate c && Json.isTrailingSurrogate d) eqn:P.
      * apply andb_true_iff in P. destruct P as [Pc Pd].
        assert (Hc : (c =? 0x5C) = false)
          by (apply surrogate_not_backslash; rewrite Pc; reflexivity).
        assert (Hd : (d =? 0x5C) = false)
          by (apply surrogate_not_backslash; rewrite Pd; apply orb_true_r).
        rewrite (unquote_plain c), (unquote_plain d) by assumption.
        cbn [List.length] in L.
        rewrite (IH r) by lia. reflexivity.
      * cbn [List.length] in L.
        rewrite unquote_quoteUnit. rewrite (IH (d :: r)) by (cbn [List.length]; lia).
        reflexivity.
Qed.

(** Reading back a quoted string gives the string: quoting is faithful. *)
Lemma unquote_quoteBody (s : jsstring) : Json.unquoteBody (Json.quoteBody s) = s.
Proof. apply (unquote_quoteBody_bounded (List.length s)). apply le_n. Qed.

Lemma QuoteJSONString_inj (s t : jsstring) :
  Json.QuoteJSONString s = Json.QuoteJSONString t -> s = t.
Proof.
  unfold Json.QuoteJSONString. intros H.
  apply app_inv_head, app_inv_tail in H.
  rewrite <- (unquote_quoteBody s), <- (unquote_quoteBody t), H. reflexivity.
Qed.

(** The text of {email, password} determines the password. *)
Lemma stringify_password_inj (e p1 p2 : jsstring) :
  Json.stringify [(lit "email", e); (lit "password", p1)]
  = Json.stringify [(lit "email", e); (lit "password", p2)] ->
  p1 = p2.
Proof.
  unfold Json.stringify, Json.property. cbn [map join fst snd]. intros H.
  apply app_inv_head in H. apply app_inv_tail in H.
  rewrite <- !app_assoc in H.
  repeat apply app_inv_head in H.
  apply QuoteJSONString_inj. unfold Json.QuoteJSONString. rewrite H. reflexivity.
Qed.

(** ** The log of effects *)

Lemma requests_app (l1 l2 : list Event) : requests (l1 ++ l2) = requests l1 ++ requests l2.
Proof.
  induction l1 as [|ev l1 IH]; [reflexivity|].
  destruct ev; cbn; rewrite ?IH; reflexivity.
Qed.

Lemma grows_ret {A} (a : A) : grows (ret a).
Proof. intros p. exists []. cbn. symmetry. apply app_nil_r. Qed.

Lemma grows_throw {A} (e : exn) : grows (@throw A e).
Proof. intros p. exists []. cbn. symmetry. apply app_nil_r. Qed.

Lemma grows_await {A} (o : outcome A) : grows (await o).
Proof. intros p. exists []. cbn. symmetry. apply app_nil_r. Qed.

Lemma grows_read {A} (f : Page -> A) : grows (read f).
Proof. intros p. exists []. cbn. symmetry. apply app_nil_r. Qed.

Lemma grows_emit (ev : Event) : grows (emit ev).
Proof. intros p. exists [ev]. reflexivity. Qed.

Lemma grows_modify (f : Page -> Page) :
  (forall p, log (f p) = log p) -> grows (modify f).
Proof. intros H p. exists []. cbn. rewrite H. symmetry. apply app_nil_r. Qed.

Lemma grows_bind {A B} (m : M A) (k : A -> M B) :
  grows m -> (forall a, grows (k a)) -> grows (bind m k).
Proof.
  intros Hm Hk p. unfold bind. destruct (Hm p) as [e1 E1].
  destruct (m p) as [[a|e] p1]; cbn in E1.
  - destruct (Hk a p1) as [e2 E2]. exists (e1 ++ e2).
    rewrite E2, E1. symmetry. apply app_assoc.
  - exists e1. exact E1.
Qed.

Lemma grows_try_catch {A} (m : M A) (h : exn -> M A) :
  grows m -> (forall e, grows (h e)) -> grows (try_catch m h).
Proof.
  intros Hm Hh p. unfold try_catch. destruct (Hm p) as [e1 E1].
  destruct (m p) as [[a|e] p1]; cbn in E1.
  - exists e1. exact E1.
  - destruct (Hh e p1) as [e2 E2]. exists (e1 ++ e2).
    rewrite E2, E1. symmetry. apply app_assoc.
Qed.

Lemma grows_detached (m : M unit) : grows m -> grows (detached m).
Proof. intros Hm p. exact (Hm p). Qed.

Create HintDb grows.
#[local] Hint Resolve grows_ret grows_throw grows_await grows_read grows_emit
  grows_bind grows_try_catch grows_detached : grows.

(** Splits sequences and handlers, then looks the pieces up. *)
Ltac grows_steps :=
  cbv beta;
  first
    [ solve [auto with grows]
    | solve [apply grows_modify; reflexivity]
    | match goal with |- forall _, _ => intro; grows_steps end
    | apply grows_bind; grows_steps
    | apply grows_try_catch; grows_steps
    | apply grows_detached; grows_steps ].

Lemma grows_setTextContent (el : Elem) (s : jsstring) : grows (setTextContent el s).
Proof. unfold setTextContent. grows_steps. Qed.

Lemma grows_classList_add_hidden (el : Elem) : grows (classList_add_hidden el).
Proof. unfold classList_add_hidden. grows_steps. Qed.

Lemma grows_classList_remove_hidden (el : Elem) : grows (classList_remove_hidden el).
Proof. unfold classList_remove_hidden. grows_steps. Qed.

Lemma grows_setTimeout (cb : Callback) (ms : N) : grows (setTimeout cb ms).
Proof. unfold setTimeout. auto with grows. Qed.

#[local] Hint Resolve grows_setTextContent grows_classList_add_hidden
  grows_classList_remove_hidden grows_setTimeout : grows.

Lemma grows_toast (msg : jsstring) (good : bool) : grows (toast msg good).
Proof. unfold toast. grows_steps. Qed.

Lemma grows_fetch (env : Env) (url : jsstring) (opts : Opts) : grows (fetch env url opts).
Proof. intros p. eexists. reflexivity. Qed.

Lemma grows_api (env : Env) (url : jsstring) (opts : Opts) : grows (api env url opts).
Proof.
  unfold api. apply grows_bind; [apply grows_fetch|]. intros res.
  destruct (negb (ok res)); [grows_steps|].
  destruct (includes _ _); grows_steps.
Qed.

Lemma grows_get_property (env : Env) (d : ApiResult) (k : jsstring) :
  grows (get_property env d k).
Proof. destruct d as [[]|]; cbn; auto with grows. Qed.

Lemma grows_setTextContent_or (env : Env) (el : Elem) (v : option Json.value) (d : jsstring) :
  grows (setTextContent_or env el v d).
Proof.
  destruct v as [x|]; [|cbn; auto with grows].
  unfold setTextContent_or.
  destruct x; try destruct (Json.toString _); auto with grows.
Qed.

#[local] Hint Resolve grows_toast grows_api grows_get_property
  grows_setTextContent_or : grows.

Lemma grows_refreshStatus (env : Env) : grows (refreshStatus env).
Proof.
  unfold refreshStatus, refreshStatus_try. grows_steps.
Qed.

Lemma grows_call_blob (env : Env) (r : ApiResult) : grows (call_blob env r).
Proof. destruct r as [[]|]; cbn; auto with grows. Qed.

Lemma grows_save_blob (env : Env) (b : Blob) : grows (save_blob env b).
Proof. unfold save_blob. cbv zeta. grows_steps. Qed.

#[local] Hint Resolve grows_refreshStatus grows_call_blob grows_save_blob : grows.

(** ** Runs of the shared helpers *)

Section Runs.

Variable env : Env.

Lemma bind_run {A B} (m : M A) (k : A -> M B) (p : Page) (a : A) (p' : Page) :
  m p = (Resolved a, p') -> bind m k p = k a p'.
Proof. intros H. unfold bind. rewrite H. reflexivity. Qed.

Lemma bind_throws {A B} (m : M A) (k : A -> M B) (p : Page) (e : exn) (p' : Page) :
  m p = (Rejected e, p') -> bind m k p = (Rejected e, p').
Proof. intros H. unfold bind. rewrite H. reflexivity. Qed.

Lemma try_catch_ext {A} (m m' : M A) (h : exn -> M A) (p p' : Page) :
  m p = m' p' -> try_catch m h p = try_catch m' h p'.
Proof. intros H. unfold try_catch. rewrite H. reflexivity. Qed.

(** [api] leaves one trace on the page: the request it sent. *)
Lemma api_page (url : jsstring) (opts : Opts) (p : Page) :
  snd (api env url opts p) = with_log (log p ++ [Fetch (request url opts)]) p.
Proof.
  unfold api, bind, fetch, await, throw, ret. cbn.
  destruct (network env (requests (log p)) (request url opts)) as [res|e]; [|reflexivity].
  destruct (negb (ok res)).
  - destruct (res_text res); reflexivity.
  - destruct (includes _ _); [destruct (res_json res)|]; reflexivity.
Qed.

Lemma api_network_failure (url : jsstring) (opts : Opts) (p : Page) (e : exn) :
  network env (requests (log p)) (request url opts) = Rejected e ->
  fst (api env url opts p) = Rejected e.
Proof. intros H. unfold api, bind, fetch. cbn. rewrite H. reflexivity. Qed.

Lemma api_not_ok (url : jsstring) (opts : Opts) (p : Page) (res : Response) :
  network env (requests (log p)) (request url opts) = Resolved res ->
  ok res = false ->
  fst (api env url opts p) =
  match res_text res with
  | Resolved txt => Rejected (Error (or_else txt (statusText res)))
  | Rejected e => Rejected e
  end.
Proof.
  intros H K. unfold api, bind, fetch, await, throw. cbn. rewrite H, K. cbn.
  destruct (res_text res); reflexivity.
Qed.

Lemma api_raw (url : jsstring) (opts : Opts) (p : Page) (res : Response) :
  network env (requests (log p)) (request url opts) = Resolved res ->
  ok res = true ->
  includes (header_or_empty (content_type res)) (lit "application/json") = false ->
  fst (api env url opts p) = Resolved (Raw res).
Proof.
  intros H K J. unfold api, bind, fetch, ret. cbn -[includes lit].
  rewrite H, K. cbn -[includes lit]. rewrite J. reflexivity.
Qed.

Lemma api_json (url : jsstring) (opts : Opts) (p : Page) (res : Response) :
  network env (requests (log p)) (request url opts) = Resolved res ->
  ok res = true ->
  includes (header_or_empty (content_type res)) (lit "application/json") = true ->
  fst (api env url opts p) =
  match res_json res with
  | Resolved v => Resolved (Parsed v)
  | Rejected e => Rejected e
  end.
Proof.
  intros H K J. unfold api, bind, fetch, await, ret. cbn -[includes lit].
  rewrite H, K. cbn -[includes lit]. rewrite J. destruct (res_json res); reflexivity.
Qed.

(** A run of [api] from its two halves. *)
Lemma api_run (url : jsstring) (opts : Opts) (p : Page) :
  api env url opts p =
  (fst (api env url opts p), with_log (log p ++ [Fetch (request url opts)]) p).
Proof. rewrite <- api_page. apply surjective_pairing. Qed.

Lemma api_gives (url : jsstring) (opts : Opts) (p : Page) (o : outcome ApiResult) :
  fst (api env url opts p) = o ->
  api env url opts p = (o, with_log (log p ++ [Fetch (request url opts)]) p).
Proof. intros H. rewrite api_run, H. reflexivity. Qed.

(** What [toast] does to the page. *)
Lemma toast_run (msg : jsstring) (good : bool) (p : Page) :
  toast msg good p =
  (Resolved tt,
   with_log (log p ++ [SetTextContent toastEl msg; RemoveHidden toastEl;
                       SetBorderColor toastEl (if good then lit "#1f5ec3" else lit "#743232");
                       SetTimeout HideToast 3000])
     (with_borderColor (if good then lit "#1f5ec3" else lit "#743232")
        (with_hidden toastEl false (with_textContent toastEl msg p)))).
Proof.
  unfold toast, setTextContent, classList_remove_hidden, setTimeout, emit, modify, bind.
  cbn. rewrite <- !app_assoc. reflexivity.
Qed.

Lemma fold_append {A} (g : A -> FormEntry) (l : list A) (fd : FormData) :
  fold_left (fun fd x => FormData_append fd (g x)) l fd = fd ++ map g l.
Proof.
  revert fd. induction l as [|x l IH]; intros fd; cbn.
  - symmetry. apply app_nil_r.
  - rewrite IH. unfold FormData_append. rewrite <- app_assoc. reflexivity.
Qed.

(** The form data: one entry per file in order, then the four fields. *)
Lemma stamp_form_run (fs : list File) (p : Page) :
  stamp_form fs p =
  (Resolved (map (fun f => FileEntry (lit "files") f (file_name f)) fs ++
             [FieldEntry (lit "date") (trim (date_value p));
              FieldEntry (lit "start_time") (trim (start_value p));
              FieldEntry (lit "end_time") (trim (end_value p));
              FieldEntry (lit "crop_height") (trim (crop_value p))]), p).
Proof.
  unfold stamp_form, bind, read, ret. cbv zeta. rewrite fold_append.
  unfold FormData_append. cbn [app]. rewrite <- !app_assoc. reflexivity.
Qed.

(** With files selected the handler is the request and what follows it, run
    on the page that shows the progress box. *)
Lemma stampBtn_onclick_selected (p : Page) (f : File) (fs : list File) :
  fileInput_files p = Some (f :: fs) ->
  stampBtn_onclick env p =
  try_catch
    (res <- api env (req_url (submitted p (f :: fs))) (req_opts (submitted p (f :: fs))) ;;
     stamp_download env res)
    (fun e => classList_add_hidden progressBox ;; toast (message e) false)
    (processing_page p).
Proof.
  intros H. unfold stampBtn_onclick. apply try_catch_ext.
  rewrite (bind_run (read fileInput_files) _ p (fileInput_files p) p eq_refl). rewrite H.
  rewrite (bind_run _ _ _ _ _ (stamp_form_run _ p)).
  erewrite bind_run by reflexivity.
  erewrite bind_run by reflexivity.
  f_equal. unfold processing_page. cbn -[processing]. rewrite <- app_assoc. reflexivity.
Qed.

End Runs.

(** ** The status query *)

Section Status.

Variable env : Env.

(** When [api] fails, the handler of refreshStatus writes the placeholder
    and nothing else. *)
Lemma refreshStatus_api_fails (p : Page) (e : exn) :
  fst (api env (lit "/auth/status") no_opts p) = Rejected e ->
  refreshStatus env p =
  (Resolved tt,
   with_log (log p ++ [Fetch status_query; SetTextContent creditsEl (lit "?")])
     (with_textContent creditsEl (lit "?") p)).
Proof.
  intros H. unfold refreshStatus, try_catch, refreshStatus_try.
  rewrite (bind_throws _ _ p e _ (api_gives env _ _ p _ H)).
  unfold setTextContent, emit, modify, bind. cbn -[lit].
  rewrite <- app_assoc. reflexivity.
Qed.

Lemma setTextContent_run (el : Elem) (t : jsstring) (p : Page) :
  setTextContent el t p =
  (Resolved tt, with_log (log p ++ [SetTextContent el t]) (with_textContent el t p)).
Proof. reflexivity. Qed.

(** An assignment with a default either writes some text or throws and
    writes nothing. *)
Lemma setTextContent_or_cases (el : Elem) (v : option Json.value) (d : jsstring) (p : Page) :
  (exists t, setTextContent_or env el v d p =
             (Resolved tt, with_log (log p ++ [SetTextContent el t]) (with_textContent el t p)))
  \/ setTextContent_or env el v d p = (Rejected (TypeError env NoPrimitiveValue), p).
Proof.
  unfold setTextContent_or.
  destruct v as [x|]; [|left; exists d; reflexivity].
  destruct x; try (destruct (Json.toString _); [left; eexists; reflexivity | right; reflexivity]).
  left. exists d. reflexivity.
Qed.

(** A property read either answers or throws, and writes nothing. *)
Lemma get_property_cases (data : ApiResult) (k : jsstring) (p : Page) :
  (exists v, get_property env data k p = (Resolved v, p))
  \/ get_property env data k p = (Rejected (TypeError env PropertyOfNull), p).
Proof.
  destruct data as [[]|]; cbn; try (left; eexists; reflexivity). right. reflexivity.
Qed.

(** Whatever the answer, refreshStatus returns normally, sends the query
    first, then only writes the two status displays, and leaves everything
    else on the page as it was. *)
Lemma refreshStatus_shape (p : Page) :
  exists c pr evs,
    refreshStatus env p =
    (Resolved tt,
     with_log (log p ++ Fetch status_query :: evs)
       (with_textContent priceEl pr (with_textContent creditsEl c p)))
    /\ forallb is_status_text evs = true.
Proof.
  destruct (fst (api env (lit "/auth/status") no_opts p)) as [data|e] eqn:A.
  2:{ exists (lit "?"), (price_textContent p), [SetTextContent creditsEl (lit "?")].
      split; [|reflexivity]. rewrite (refreshStatus_api_fails p e A). reflexivity. }
  unfold refreshStatus, try_catch, refreshStatus_try.
  rewrite (bind_run _ _ p data _ (api_gives env _ _ p _ A)).
  set (q := with_log (log p ++ [Fetch (request (lit "/auth/status") no_opts)]) p).
  destruct (get_property_cases data (lit "credits") q) as [[cv G1]|G1].
  2:{ rewrite (bind_throws _ _ _ _ _ G1), setTextContent_run.
      exists (lit "?"), (price_textContent p), [SetTextContent creditsEl (lit "?")].
      split; [|reflexivity]. unfold q. cbn -[lit]. rewrite <- app_assoc. reflexivity. }
  rewrite (bind_run _ _ _ _ _ G1).
  destruct (setTextContent_or_cases creditsEl cv (lit "?") q) as [[c S1]|S1].
  2:{ rewrite (bind_throws _ _ _ _ _ S1), setTextContent_run.
      exists (lit "?"), (price_textContent p), [SetTextContent creditsEl (lit "?")].
      split; [|reflexivity]. unfold q. cbn -[lit]. rewrite <- app_assoc. reflexivity. }
  rewrite (bind_run _ _ _ _ _ S1).
  set (q1 := with_log (log q ++ [SetTextContent creditsEl c]) (with_textContent creditsEl c q)).
  destruct (get_property_cases data (lit "credit_cost_gbp") q1) as [[pv G2]|G2].
  2:{ rewrite (bind_throws _ _ _ _ _ G2), setTextContent_run.
      exists (lit "?"), (price_textContent p),
             [SetTextContent creditsEl c; SetTextContent creditsEl (lit "?")].
      split; [|reflexivity]. unfold q1, q. cbn -[lit]. rewrite <- !app_assoc. reflexivity. }
  rewrite (bind_run _ _ _ _ _ G2).
  destruct (setTextContent_or_cases priceEl pv (lit "20") q1) as [[pr S2]|S2]; rewrite S2.
  - exists c, pr, [SetTextContent creditsEl c; SetTextContent priceEl pr].
    split; [|reflexivity]. unfold q1, q. cbn -[lit]. rewrite <- !app_assoc. reflexivity.
  - rewrite setTextContent_run.
    exists (lit "?"), (price_textContent p),
           [SetTextContent creditsEl c; SetTextContent creditsEl (lit "?")].
    split; [|reflexivity]. unfold q1, q. cbn -[lit]. rewrite <- !app_assoc. reflexivity.
Qed.

End Status.

Lemma effects_of_log {A} (m : M A) (p : Page) (evs : list Event) :
  log (snd (m p)) = log p ++ evs -> effects m p = evs.
Proof.
  intros H. unfold effects. rewrite H.
  rewrite skipn_app, skipn_all, Nat.sub_diag. reflexivity.
Qed.

Lemma sent_of_log {A} (m : M A) (p : Page) (evs : list Event) :
  log (snd (m p)) = log p ++ evs -> sent m p = requests evs.
Proof.
  intros H. unfold sent. rewrite H, requests_app.
  rewrite skipn_app, skipn_all, Nat.sub_diag. reflexivity.
Qed.

(** ** The shared helper *)


(** ** The demo top-up *)

(** C5. When the top-up call fails, with whatever error, the handler shows
    the fixed notice "Demo top-up not enabled" as a failure and nothing of
    the error: its effects are the request and that notice. *)
Theorem topup_failure_notice (env : Env) (p : Page) (e : exn) :
  fst (api env (lit "/auth/topup_demo") post p) = Rejected e ->
  let p' := snd (topupBtn_onclick env p) in
  effects (topupBtn_onclick env) p =
    [Fetch (request (lit "/auth/topup_demo") post);
     SetTextContent toastEl (lit "Demo top-up not enabled");
     RemoveHidden toastEl;
     SetBorderColor toastEl (lit "#743232");
     SetTimeout HideToast 3000]
  /\ toast_textContent p' = lit "Demo top-up not enabled"
  /\ toast_hidden p' = false.
Proof.
  intros H.
  assert (E : topupBtn_onclick env p =
              toast (lit "Demo top-up not enabled") false
                (with_log (log p ++ [Fetch (request (lit "/auth/topup_demo") post)]) p)).
  { unfold topupBtn_onclick, try_catch.
    rewrite (bind_throws _ _ p e _ (api_gives env _ _ p _ H)).
    reflexivity. }
  cbv zeta. split.
  - apply effects_of_log. rewrite E, toast_run. cbn -[lit].
    rewrite <- app_assoc. reflexivity.
  - rewrite E, toast_run. split; reflexivity.
Qed.

(** ** The status display *)

(** C6. When the status query cannot reach the server or is answered
    outside 2xx, refreshStatus returns normally, writes the placeholder "?"
    to the credits display and raises no notice: its effects are the request
    and that one write, and the notice element is untouched. *)
Theorem status_failure_is_silent (env : Env) (p : Page) :
  query_fails env p status_query ->
  let p' := snd (refreshStatus env p) in
  fst (refreshStatus env p) = Resolved tt
  /\ credits_textContent p' = lit "?"
  /\ effects (refreshStatus env) p = [Fetch status_query; SetTextContent creditsEl (lit "?")]
  /\ existsb is_notice (effects (refreshStatus env) p) = false
  /\ toast_textContent p' = toast_textContent p
  /\ toast_hidden p' = toast_hidden p.
Proof.
  intros F.
  assert (A : exists e, fst (api env (lit "/auth/status") no_opts p) = Rejected e).
  { destruct F as [[e N] | [res [N K]]].
    - exists e. apply api_network_failure. exact N.
    - pose proof (api_not_ok env _ _ p res N K) as R.
      destruct (res_text res); eexists; exact R. }
  destruct A as [e A]. cbv zeta.
  assert (L : effects (refreshStatus env) p =
              [Fetch status_query; SetTextContent creditsEl (lit "?")]).
  { apply effects_of_log. rewrite (refreshStatus_api_fails env p e A). reflexivity. }
  rewrite L. rewrite (refreshStatus_api_fails env p e A).
  repeat split; reflexivity.
Qed.

(** C9. Whenever the try block of refreshStatus fails, the page afterwards
    is the page before with "?" in the credits display and a longer log:
    the price display, like every other element, holds what it held. *)
Theorem status_failure_keeps_price (env : Env) (p : Page) (e : exn) :
  fst (refreshStatus_try env p) = Rejected e ->
  let p' := snd (refreshStatus env p) in
  price_textContent p' = price_textContent p
  /\ credits_textContent p' = lit "?"
  /\ p' = with_log (log p') (with_textContent creditsEl (lit "?") p).
Proof.
  intros H. cbv zeta.
  destruct (fst (api env (lit "/auth/status") no_opts p)) as [data|e0] eqn:A.
  2:{ rewrite (refreshStatus_api_fails env p e0 A). repeat split; reflexivity. }
  unfold refreshStatus, try_catch. unfold refreshStatus_try in *.
  rewrite (bind_run _ _ p data _ (api_gives env _ _ p _ A)) in H |- *.
  set (q := with_log (log p ++ [Fetch (request (lit "/auth/status") no_opts)]) p) in *.
  destruct (get_property_cases env data (lit "credits") q) as [[cv G1]|G1].
  2:{ rewrite (bind_throws _ _ _ _ _ G1). repeat split; reflexivity. }
  rewrite (bind_run _ _ _ _ _ G1) in H |- *.
  destruct (setTextContent_or_cases env creditsEl cv (lit "?") q) as [[c S1]|S1].
  2:{ rewrite (bind_throws _ _ _ _ _ S1). repeat split; reflexivity. }
  rewrite (bind_run _ _ _ _ _ S1) in H |- *.
  set (q1 := with_log (log q ++ [SetTextContent creditsEl c])
               (with_textContent creditsEl c q)) in *.
  destruct (get_property_cases env data (lit "credit_cost_gbp") q1) as [[pv G2]|G2].
  2:{ rewrite (bind_throws _ _ _ _ _ G2). repeat split; reflexivity. }
  rewrite (bind_run _ _ _ _ _ G2) in H |- *.
  destruct (setTextContent_or_cases env priceEl pv (lit "20") q1) as [[pr S2]|S2];
    rewrite S2 in H |- *.
  - discriminate H.
  - repeat split; reflexivity.
Qed.

(** ** The stamp submission *)

Section Stamp.

Variable env : Env.

Lemma failure_notice_run (msg : jsstring) (p : Page) :
  (classList_add_hidden progressBox ;; toast msg false) p = (Resolved tt, failed_page msg p).
Proof.
  unfold classList_add_hidden, emit, modify, bind. cbn -[toast lit].
  rewrite toast_run. unfold failed_page. cbn -[lit].
  rewrite <- app_assoc. reflexivity.
Qed.

Lemma requests_processing_page (p : Page) :
  requests (log (processing_page p)) = requests (log p).
Proof. unfold processing_page. cbn -[processing]. rewrite requests_app. apply app_nil_r. Qed.

(** After a response that is a readable blob: the download, the end of the
    progress display, and the status query on the page so reached. *)
Lemma stamp_download_raw (res : Response) (b : Blob) (p : Page) :
  res_blob res = Resolved b ->
  stamp_download env (Raw res) p = (Resolved tt, snd (refreshStatus env (downloaded_page env b p))).
Proof.
  intros H. unfold stamp_download, call_blob.
  rewrite (bind_run (await (res_blob res)) _ p b p) by (unfold await; rewrite H; reflexivity).
  unfold save_blob, setTextContent, setTimeout, emit, modify, bind, detached.
  cbn -[lit refreshStatus]. unfold downloaded_page. cbn -[lit refreshStatus].
  rewrite <- !app_assoc. reflexivity.
Qed.

Lemma stamp_download_parsed (v : Json.value) (p : Page) :
  stamp_download env (Parsed v) p = (Rejected (no_blob env v), p).
Proof. destruct v; reflexivity. Qed.

Lemma stamp_download_unreadable (res : Response) (e : exn) (p : Page) :
  res_blob res = Rejected e -> stamp_download env (Raw res) p = (Rejected e, p).
Proof.
  intros H. unfold stamp_download, call_blob, bind, await. rewrite H. reflexivity.
Qed.

(** The run of a submission with files selected, by what [api] gives. *)
Lemma stampBtn_onclick_run (p : Page) (f : File) (fs : list File) :
  fileInput_files p = Some (f :: fs) ->
  let r := submitted p (f :: fs) in
  let sent_page := with_log (log (processing_page p) ++ [Fetch r]) (processing_page p) in
  stampBtn_onclick env p =
  match fst (api env (req_url r) (req_opts r) (processing_page p)) with
  | Rejected e => (Resolved tt, failed_page (message e) sent_page)
  | Resolved (Parsed v) => (Resolved tt, failed_page (message (no_blob env v)) sent_page)
  | Resolved (Raw res) =>
      match res_blob res with
      | Resolved b => (Resolved tt, snd (refreshStatus env (downloaded_page env b sent_page)))
      | Rejected e => (Resolved tt, failed_page (message e) sent_page)
      end
  end.
Proof.
  intros H. cbv zeta. rewrite (stampBtn_onclick_selected env p f fs H).
  unfold try_catch.
  destruct (fst (api env _ _ (processing_page p))) as [[v|res]|e] eqn:A.
  - rewrite (bind_run _ _ _ _ _ (api_gives env _ _ _ _ A)).
    rewrite stamp_download_parsed. apply failure_notice_run.
  - rewrite (bind_run _ _ _ _ _ (api_gives env _ _ _ _ A)).
    destruct (res_blob res) as [b|e] eqn:B.
    + rewrite (stamp_download_raw res b _ B). reflexivity.
    + rewrite (stamp_download_unreadable res e _ B). apply failure_notice_run.
  - rewrite (bind_throws _ _ _ _ _ (api_gives env _ _ _ _ A)).
    apply failure_notice_run.
Qed.

End Stamp.

(** C1. With no file selected (an empty list, or no list at all) the stamp
    handler shows the local message "Please add images or a .zip" as a
    failure notice and sends nothing: its only effects are hiding the
    progress box and the notice. This holds whatever the form holds. *)
Theorem empty_selection_fails_locally (env : Env) (p : Page) :
  fileInput_files p = None \/ fileInput_files p = Some [] ->
  let p' := snd (stampBtn_onclick env p) in
  effects (stampBtn_onclick env) p =
    [AddHidden progressBox;
     SetTextContent toastEl (lit "Please add images or a .zip");
     RemoveHidden toastEl;
     SetBorderColor toastEl (lit "#743232");
     SetTimeout HideToast 3000]
  /\ sent (stampBtn_onclick env) p = []
  /\ toast_textContent p' = lit "Please add images or a .zip"
  /\ toast_hidden p' = false
  /\ progressBox_hidden p' = true.
Proof.
  intros H.
  assert (E : stampBtn_onclick env p =
              (Resolved tt, failed_page (lit "Please add images or a .zip") p)).
  { rewrite <- failure_notice_run.
    unfold stampBtn_onclick, try_catch.
    rewrite (bind_run (read fileInput_files) _ p (fileInput_files p) p eq_refl).
    destruct H as [H|H]; rewrite H; reflexivity. }
  cbv zeta.
  assert (L : log (snd (stampBtn_onclick env p)) =
              log p ++ [AddHidden progressBox;
                        SetTextContent toastEl (lit "Please add images or a .zip");
                        RemoveHidden toastEl; SetBorderColor toastEl (lit "#743232");
                        SetTimeout HideToast 3000])
    by (rewrite E; reflexivity).
  rewrite (effects_of_log _ _ _ L), (sent_of_log _ _ _ L), E.
  repeat split; reflexivity.
Qed.

(** C2. With the files [F] selected, [F] not empty, the first request of
    the handler goes to /api/stamp as a POST, with the credentials and no
    header of the script's own, and its body is the form data the script
    has built, written here by the arguments of its append calls: one entry
    per file of [F], in the order of [F], each under the name "files" with
    the file's own name, followed by the four fields date, start_time,
    end_time and crop_height in this order, each holding the form value
    without the white space at its two ends. *)
Theorem stamp_request_body (env : Env) (p : Page) (F : list File) :
  F <> [] ->
  fileInput_files p = Some F ->
  exists d s e c,
    hd_error (sent (stampBtn_onclick env) p) =
      Some {| req_url := lit "/api/stamp";
              req_credentials := lit "include";
              req_opts :=
                {| opt_method := Some (lit "POST");
                   opt_headers := [];
                   opt_body :=
                     Some (FormBody
                             (map (fun f => FileEntry (lit "files") f (file_name f)) F ++
                              [FieldEntry (lit "date") d;
                               FieldEntry (lit "start_time") s;
                               FieldEntry (lit "end_time") e;
                               FieldEntry (lit "crop_height") c])) |} |}
    /\ is_trim_of (date_value p) d
    /\ is_trim_of (start_value p) s
    /\ is_trim_of (end_value p) e
    /\ is_trim_of (crop_value p) c.
Proof.
  intros NE H. destruct F as [|f fs]; [contradiction|].
  exists (trim (date_value p)), (trim (start_value p)),
         (trim (end_value p)), (trim (crop_value p)).
  split; [|repeat split; apply trim_is_trim_of].
  assert (L : exists evs,
             log (snd (stampBtn_onclick env p)) =
             log p ++ [RemoveHidden progressBox; SetTextContent progressMsg processing;
                       Fetch (submitted p (f :: fs))] ++ evs).
  { rewrite (stampBtn_onclick_run env p f fs H).
    set (r := submitted p (f :: fs)).
    set (q := with_log (log (processing_page p) ++ [Fetch r]) (processing_page p)).
    assert (Q : log q = log p ++ [RemoveHidden progressBox;
                                  SetTextContent progressMsg processing; Fetch r])
      by (unfold q, processing_page; cbn -[processing]; rewrite <- app_assoc; reflexivity).
    assert (Fl : forall msg, exists evs,
               log (failed_page msg q) =
               log p ++ [RemoveHidden progressBox; SetTextContent progressMsg processing;
                         Fetch r] ++ evs).
    { intros msg. eexists. unfold failed_page. cbn -[lit processing q].
      rewrite Q, <- app_assoc. reflexivity. }
    destruct (fst (api env _ _ (processing_page p))) as [[v|res]|e0]; try apply Fl.
    destruct (res_blob res) as [b|e0]; try apply Fl.
    destruct (grows_refreshStatus env (downloaded_page env b q)) as [evs E].
    eexists. cbn [snd]. rewrite E. unfold downloaded_page. cbn -[lit processing q].
    rewrite Q, <- !app_assoc. reflexivity. }
  destruct L as [evs L]. rewrite (sent_of_log _ _ _ L). reflexivity.
Qed.

Lemma stamp_api_outcome (env : Env) (p : Page) (F : list File) (res : Response) :
  network env (requests (log p)) (submitted p F) = Resolved res ->
  ok res = true ->
  fst (api env (req_url (submitted p F)) (req_opts (submitted p F)) (processing_page p)) =
  if declares_json res
  then match res_json res with
       | Resolved v => Resolved (Parsed v)
       | Rejected e => Rejected e
       end
  else Resolved (Raw res).
Proof.
  intros N K. rewrite <- requests_processing_page in N.
  unfold declares_json. destruct (includes _ _) eqn:J.
  - apply api_json; assumption.
  - apply api_raw; assumption.
Qed.

(** Every run of a submission that fails after the request went out has
    these effects and no other. *)
Lemma failed_submission_effects (env : Env) (p : Page) (F : list File) (msg : jsstring) :
  snd (stampBtn_onclick env p) =
    failed_page msg
      (with_log (log (processing_page p) ++ [Fetch (submitted p F)]) (processing_page p)) ->
  effects (stampBtn_onclick env) p =
    [RemoveHidden progressBox; SetTextContent progressMsg processing;
     Fetch (submitted p F);
     AddHidden progressBox; SetTextContent toastEl msg; RemoveHidden toastEl;
     SetBorderColor toastEl (lit "#743232"); SetTimeout HideToast 3000].
Proof.
  intros E. apply effects_of_log. rewrite E.
  unfold failed_page, processing_page. cbn -[lit processing].
  rewrite <- !app_assoc. reflexivity.
Qed.

(** C3, as the code has it. For a 2xx answer to the submission: when its
    declared content type does not contain application/json, the body is
    read as a blob and that blob is offered as a download, whatever else
    the content type says or when there is none; when it does contain
    application/json, the shared helper parses the body instead and the
    handler downloads nothing. *)
Theorem binary_unless_declared_json (env : Env) (p : Page) (F : list File) (res : Response) :
  F <> [] ->
  fileInput_files p = Some F ->
  network env (requests (log p)) (submitted p F) = Resolved res ->
  ok res = true ->
  (declares_json res = false ->
   forall b, res_blob res = Resolved b ->
     In (CreateObjectURL b (objectURL env b)) (effects (stampBtn_onclick env) p) /\
     In (Click {| href := objectURL env b; download := lit "stamped_images.zip" |})
        (effects (stampBtn_onclick env) p))
  /\
  (declares_json res = true ->
   existsb is_download (effects (stampBtn_onclick env) p) = false).
Proof.
  intros NE H N K. destruct F as [|f fs]; [contradiction|].
  pose proof (stampBtn_onclick_run env p f fs H) as R. cbv zeta in R.
  rewrite (stamp_api_outcome env p (f :: fs) res N K) in R.
  split; intros J; rewrite J in R.
  - intros b B. rewrite B in R.
    destruct (grows_refreshStatus env
                (downloaded_page env b
                   (with_log (log (processing_page p) ++ [Fetch (submitted p (f :: fs))])
                      (processing_page p)))) as [evs E].
    assert (L : exists pre post,
               effects (stampBtn_onclick env) p =
               pre ++ [CreateObjectURL b (objectURL env b);
                       AppendChild {| href := objectURL env b;
                                      download := lit "stamped_images.zip" |};
                       Click {| href := objectURL env b;
                                download := lit "stamped_images.zip" |}] ++ post).
    { exists [RemoveHidden progressBox; SetTextContent progressMsg processing;
              Fetch (submitted p (f :: fs))].
      exists ([Remove {| href := objectURL env b; download := lit "stamped_images.zip" |};
               RevokeObjectURL (objectURL env b);
               SetTextContent progressMsg (lit "Done");
               SetTimeout HideProgress 500] ++ evs).
      apply effects_of_log. rewrite R. cbn [snd]. rewrite E.
      unfold downloaded_page, processing_page. cbn -[lit processing].
      rewrite <- !app_assoc. reflexivity. }
    destruct L as [pre [post L]]. rewrite L.
    split; apply in_or_app; right; cbn; auto.
  - assert (exists msg, effects (stampBtn_onclick env) p =
              [RemoveHidden progressBox; SetTextContent progressMsg processing;
               Fetch (submitted p (f :: fs));
               AddHidden progressBox; SetTextContent toastEl msg; RemoveHidden toastEl;
               SetBorderColor toastEl (lit "#743232"); SetTimeout HideToast 3000])
      as [msg L].
    { destruct (res_json res) as [v|e]; eexists;
        apply failed_submission_effects; rewrite R; reflexivity. }
    rewrite L. reflexivity.
Qed.


(** C3, as it is stated, fails: the sample server answers the submission
    200 with the archive as body and application/json as declared type;
    the handler downloads nothing and reports the engine's TypeError. *)
Lemma declared_json_is_not_downloaded :
  let run := stampBtn_onclick Sample.mislabelling in
  fileInput_files Sample.selected = Some [Sample.a_png; Sample.b_zip]
  /\ network Sample.mislabelling (requests (log Sample.selected))
       (submitted Sample.selected [Sample.a_png; Sample.b_zip])
     = Resolved Sample.mislabelled_response
  /\ ok Sample.mislabelled_response = true
  /\ content_type Sample.mislabelled_response = Some (lit "application/json")
  /\ res_blob Sample.mislabelled_response = Resolved Sample.zip
  /\ existsb is_download (effects run Sample.selected) = false
  /\ toast_textContent (snd (run Sample.selected)) = lit "res.blob is not a function"
  /\ progressBox_hidden (snd (run Sample.selected)) = true.
Proof. cbv zeta. repeat split; vm_compute; reflexivity. Qed.

(** ** The file summary *)

Lemma round_kb_nearest (size : N) :
  1024 * round_kb size <= size + 512 /\ size < 1024 * round_kb size + 512.
Proof.
  unfold round_kb.
  pose proof (N.div_mod (size + 512) 1024 ltac:(lia)) as D.
  pose proof (N.mod_lt (size + 512) 1024 ltac:(lia)) as M.
  remember ((size + 512) / 1024) as q eqn:Eq.
  remember ((size + 512) mod 1024) as r eqn:Er.
  clear Eq Er. lia.
Qed.

Lemma renderFiles_text (l : option (list File)) (p : Page) :
  fileList_textContent (snd (renderFiles l p)) =
  match l with
  | None | Some [] => []
  | Some fs => join bullet (map file_label fs)
  end.
Proof. destruct l as [[|f fs]|]; reflexivity. Qed.

Lemma digits_value_acc (d : Decimal.uint) (acc : positive) :
  digits_value (Npos acc) (lit (DecimalString.NilEmpty.string_of_uint d))
  = Some (Npos (Pos.of_uint_acc d acc)).
Proof.
  unfold lit. revert acc. induction d; intros acc;
    cbn [DecimalString.NilEmpty.string_of_uint list_ascii_of_string map digits_value
         Pos.of_uint_acc];
    try reflexivity;
    match goal with
    | |- context [N_of_ascii ?c] =>
        let v := eval vm_compute in (N_of_ascii c) in change (N_of_ascii c) with v
    end;
    cbn [N.leb N.compare Pos.compare Pos.compare_cont andb];
    match goal with
    | |- digits_value ?x _ = Some (N.pos (Pos.of_uint_acc _ ?y)) =>
        replace x with (N.pos y) by lia
    end;
    apply IHd.
Qed.

Lemma digits_value_zero (d : Decimal.uint) :
  digits_value 0 (lit (DecimalString.NilEmpty.string_of_uint d)) = Some (Pos.of_uint d).
Proof.
  induction d; try reflexivity; try exact IHd;
    unfold lit;
    cbn [DecimalString.NilEmpty.string_of_uint list_ascii_of_string map digits_value
         Pos.of_uint];
    match goal with
    | |- context [N_of_ascii ?c] =>
        let v := eval vm_compute in (N_of_ascii c) in change (N_of_ascii c) with v
    end;
    cbn [N.leb N.compare Pos.compare Pos.compare_cont andb];
    match goal with
    | |- digits_value ?x _ = Some (N.pos (Pos.of_uint_acc _ ?y)) =>
        replace x with (N.pos y) by lia
    end;
    apply (digits_value_acc d).
Qed.

Lemma nzhead_no_zero (d r : Decimal.uint) : Decimal.nzhead d <> Decimal.D0 r.
Proof. induction d; cbn; try discriminate. exact IHd. Qed.

(** A number that [unorm] leaves alone has a zero in front only when it is
    the single zero. *)
Lemma unorm_fixed_zero (d r : Decimal.uint) :
  Decimal.unorm d = d -> d = Decimal.D0 r -> r = Decimal.Nil.
Proof.
  intros U ->. unfold Decimal.unorm in U. cbn [Decimal.nzhead] in U.
  destruct (Decimal.nzhead r) eqn:H; try (injection U as <-; reflexivity);
    exfalso; apply (nzhead_no_zero r r); congruence.
Qed.

Lemma to_uint_fixed (n : N) : Decimal.unorm (N.to_uint n) = N.to_uint n.
Proof.
  rewrite <- (DecimalN.Unsigned.of_to n) at 2. symmetry. apply DecimalN.Unsigned.to_of.
Qed.

Lemma to_uint_not_nil (n : N) : N.to_uint n <> Decimal.Nil.
Proof.
  destruct n as [|q]; [discriminate|]. apply DecimalPos.Unsigned.to_uint_nonnil.
Qed.

Lemma string_of_uint_not_nil (d : Decimal.uint) :
  d <> Decimal.Nil ->
  DecimalString.NilZero.string_of_uint d = DecimalString.NilEmpty.string_of_uint d.
Proof. destruct d; [contradiction | reflexivity ..]. Qed.

Lemma digit_string_zero (d : Decimal.uint) (r : jsstring) :
  lit (DecimalString.NilEmpty.string_of_uint d) = 48 :: r ->
  exists d', d = Decimal.D0 d' /\ r = lit (DecimalString.NilEmpty.string_of_uint d').
Proof.
  destruct d; intros H; try discriminate H.
  injection H as <-. eexists. split; reflexivity.
Qed.

(** The rendering of a number is that number written in decimal. *)
Lemma ofNat_is_decimal (n : N) : is_decimal_of n (ofNat n).
Proof.
  unfold ofNat. rewrite (string_of_uint_not_nil _ (to_uint_not_nil n)).
  split; [|split].
  - pose proof (to_uint_not_nil n) as H. destruct (N.to_uint n); [contradiction | discriminate ..].
  - rewrite digits_value_zero. f_equal. apply (DecimalN.Unsigned.of_to n).
  - intros r H. destruct (digit_string_zero _ _ H) as (d' & E & ->).
    rewrite (unorm_fixed_zero _ d' (to_uint_fixed n) E). reflexivity.
Qed.

Lemma digit_cases (c : N) :
  (48 <=? c) && (c <=? 57) = true ->
  c = 48 \/ c = 49 \/ c = 50 \/ c = 51 \/ c = 52 \/ c = 53 \/ c = 54 \/ c = 55
  \/ c = 56 \/ c = 57.
Proof.
  intros H. apply andb_true_iff in H. destruct H as [A B].
  apply N.leb_le in A. apply N.leb_le in B. lia.
Qed.

(** A text of digits is the rendering of a decimal number of the library. *)
Lemma digits_have_uint (ds : jsstring) (acc n : N) :
  digits_value acc ds = Some n ->
  exists d, lit (DecimalString.NilEmpty.string_of_uint d) = ds.
Proof.
  revert acc n. induction ds as [|c ds IH]; intros acc n H.
  - exists Decimal.Nil. reflexivity.
  - cbn [digits_value] in H.
    destruct ((48 <=? c) && (c <=? 57)) eqn:T; [|discriminate H].
    destruct (IH _ _ H) as [d E]. subst ds.
    destruct (digit_cases _ T) as [->|[->|[->|[->|[->|[->|[->|[->|[->| ->]]]]]]]]].
    + exists (Decimal.D0 d). reflexivity.
    + exists (Decimal.D1 d). reflexivity.
    + exists (Decimal.D2 d). reflexivity.
    + exists (Decimal.D3 d). reflexivity.
    + exists (Decimal.D4 d). reflexivity.
    + exists (Decimal.D5 d). reflexivity.
    + exists (Decimal.D6 d). reflexivity.
    + exists (Decimal.D7 d). reflexivity.
    + exists (Decimal.D8 d). reflexivity.
    + exists (Decimal.D9 d). reflexivity.
Qed.

Lemma digit_string_empty (d : Decimal.uint) :
  lit (DecimalString.NilEmpty.string_of_uint d) = [] -> d = Decimal.Nil.
Proof. destruct d; intros H; [reflexivity | discriminate H ..]. Qed.

(** A number has one decimal text: the one the script renders. *)
Lemma is_decimal_of_ofNat (n : N) (ds : jsstring) : is_decimal_of n ds -> ds = ofNat n.
Proof.
  intros (NE & V & Z). destruct (digits_have_uint _ _ _ V) as [d E]. subst ds.
  rewrite digits_value_zero in V. injection V as V.
  assert (U : Decimal.unorm d = d).
  { destruct d; try reflexivity.
    - exfalso. apply NE. reflexivity.
    - rewrite (digit_string_empty d (Z _ eq_refl)). reflexivity. }
  assert (D : N.to_uint n = d).
  { rewrite <- V. change (Pos.of_uint d) with (N.of_uint d).
    rewrite DecimalN.Unsigned.to_of. exact U. }
  unfold ofNat. rewrite D. rewrite string_of_uint_not_nil; [reflexivity|].
  intros ->. apply NE. reflexivity.
Qed.

(** A file has one entry: the one the script renders. *)
Lemma is_label_file_label (f : File) (t : jsstring) : is_label f t -> t = file_label f.
Proof.
  intros (k & ds & -> & D & L & U).
  destruct (round_kb_nearest (file_size f)) as [L' U'].
  assert (K : k = round_kb (file_size f)) by (remember (round_kb (file_size f)); lia).
  subst k. rewrite (is_decimal_of_ofNat _ _ D). reflexivity.
Qed.

Lemma is_labels_file_labels (fs : list File) (rest : list jsstring) :
  Forall2 is_label fs rest -> rest = map file_label fs.
Proof.
  induction 1 as [|f t fs rest L _ IH]; [reflexivity|].
  cbn [map]. rewrite (is_label_file_label f t L), IH. reflexivity.
Qed.

Lemma file_label_is_label (f : File) : is_label f (file_label f).
Proof.
  exists (round_kb (file_size f)), (ofNat (round_kb (file_size f))).
  split; [reflexivity|]. split; [apply ofNat_is_decimal|]. apply round_kb_nearest.
Qed.

Lemma join_bullet (x : jsstring) (rest : list jsstring) :
  join bullet (x :: rest) = x ++ List.concat (map (fun t => [32; 32; 0x2022; 32; 32] ++ t) rest).
Proof.
  revert x. induction rest as [|y rest IH]; intros x.
  - cbn. symmetry. apply app_nil_r.
  - change (join bullet (x :: y :: rest)) with (x ++ bullet ++ join bullet (y :: rest)).
    rewrite IH. reflexivity.
Qed.

(** A list has one summary: the text the script joins. *)
Lemma is_summary_iff (l : option (list File)) (t : jsstring) :
  is_summary l t <->
  t = match l with
      | None | Some [] => []
      | Some fs => join bullet (map file_label fs)
      end.
Proof.
  destruct l as [[|f fs]|]; try (split; intros H; exact H).
  cbn [is_summary map]. rewrite join_bullet. split.
  - intros (first & rest & L & R & ->).
    rewrite (is_label_file_label f first L), (is_labels_file_labels fs rest R). reflexivity.
  - intros ->. exists (file_label f), (map file_label fs).
    split; [apply file_label_is_label|]. split; [|reflexivity].
    induction fs as [|g fs IH]; constructor; [apply file_label_is_label | exact IH].
Qed.

(** What renderFiles writes is the summary of the list, and nothing else is. *)
Lemma renderFiles_is_summary (l : option (list File)) (p : Page) (t : jsstring) :
  is_summary l t <-> t = fileList_textContent (snd (renderFiles l p)).
Proof. rewrite renderFiles_text. apply is_summary_iff. Qed.

(** C7. Rendering a list a second time leaves the summary text as the first
    rendering made it. What is written is the summary of the list: for a
    list that is not empty, the entries of its files in order with two
    spaces, U+2022 and two spaces between them, an entry being the name, a
    space and in round brackets the size in KB and " KB"; the size in KB is
    the whole number nearest to size/1024 (a half goes up), written in
    decimal digits with no zero in front; the text written is the only one
    of that form. An empty or absent list gives the empty text. A file of 2048 bytes named a.png followed by one of 1536
    bytes named b.zip gives a.png (2 KB), the separator and b.zip (2 KB). *)
Theorem renderFiles_summary :
  (forall l p,
     fileList_textContent (snd (renderFiles l (snd (renderFiles l p))))
     = fileList_textContent (snd (renderFiles l p)))
  /\ (forall l p t,
        is_summary l t <-> t = fileList_textContent (snd (renderFiles l p)))
  /\ (forall p,
        fileList_textContent (snd (renderFiles None p)) = []
        /\ fileList_textContent (snd (renderFiles (Some []) p)) = [])
  /\ (forall p,
        fileList_textContent
          (snd (renderFiles (Some [ {| file_name := [97; 46; 112; 110; 103];
                                       file_size := 2048 |};
                                    {| file_name := [98; 46; 122; 105; 112];
                                       file_size := 1536 |} ]) p))
        = [97; 46; 112; 110; 103; 32; 40; 50; 32; 75; 66; 41;
           32; 32; 0x2022; 32; 32;
           98; 46; 122; 105; 112; 32; 40; 50; 32; 75; 66; 41]).
Proof.
  split; [|split; [|split]].
  - intros l p. rewrite !renderFiles_text. reflexivity.
  - apply renderFiles_is_summary.
  - intros p. split; reflexivity.
  - intros p. reflexivity.
Qed.

(** The scenario of the one file a.png of 2048 bytes. *)
Example render_a_png :
  fileList_textContent (snd (renderFiles (Some [Sample.a_png]) Sample.blank))
  = lit "a.png (2 KB)".
Proof. reflexivity. Qed.

(** ** Login and signup *)

Section Credentials.

Variable env : Env.

(** A handler that starts with a call of [api] has that request as its
    first effect. *)
Lemma first_effect_is_request {A} (url : jsstring) (opts : Opts)
    (k : ApiResult -> M A) (h : exn -> M A) (p : Page) :
  (forall a, grows (k a)) -> (forall e, grows (h e)) ->
  exists evs,
    log (snd (try_catch (a <- api env url opts ;; k a) h p))
    = log p ++ [Fetch (request url opts)] ++ evs.
Proof.
  intros Hk Hh. unfold try_catch.
  set (q := with_log (log p ++ [Fetch (request url opts)]) p).
  assert (Q : log q = log p ++ [Fetch (request url opts)]) by reflexivity.
  destruct (fst (api env url opts p)) as [a|e] eqn:E.
  - rewrite (bind_run _ _ _ _ _ (api_gives env _ _ _ _ E)). fold q.
    destruct (Hk a q) as [evs Ek].
    destruct (k a q) as [[u|e] q'] eqn:K; cbn [snd] in Ek.
    + exists evs. cbn [snd]. rewrite Ek, Q, <- app_assoc. reflexivity.
    + destruct (Hh e q') as [evs' Eh]. exists (evs ++ evs').
      rewrite Eh, Ek, Q, <- !app_assoc. reflexivity.
  - rewrite (bind_throws _ _ _ _ _ (api_gives env _ _ _ _ E)). fold q.
    destruct (Hh e q) as [evs Eh]. exists evs.
    rewrite Eh, Q, <- app_assoc. reflexivity.
Qed.

Lemma login_sent (p : Page) :
  hd_error (sent (loginBtn_onclick env) p)
  = Some (request (lit "/auth/login") (json_post (posted p))).
Proof.
  destruct (first_effect_is_request (lit "/auth/login") (json_post (posted p))
              (fun _ => toast (lit "Logged in") true ;; detached (refreshStatus env))
              (fun e => toast (message e) false) p) as [evs L];
    [intros; grows_steps | intros; grows_steps |].
  assert (E : loginBtn_onclick env p =
              try_catch (a <- api env (lit "/auth/login") (json_post (posted p)) ;;
                         toast (lit "Logged in") true ;; detached (refreshStatus env))
                (fun e => toast (message e) false) p).
  { unfold loginBtn_onclick. apply try_catch_ext.
    rewrite (bind_run credentials_body _ p (posted p) p eq_refl). reflexivity. }
  rewrite <- E in L. rewrite (sent_of_log _ _ _ L). reflexivity.
Qed.

Lemma signup_sent (p : Page) :
  hd_error (sent (signupBtn_onclick env) p)
  = Some (request (lit "/auth/signup") (json_post (posted p))).
Proof.
  destruct (first_effect_is_request (lit "/auth/signup") (json_post (posted p))
              (fun _ => toast (lit "Account created. You can login now.") true)
              (fun e => toast (message e) false) p) as [evs L];
    [intros; grows_steps | intros; grows_steps |].
  assert (E : signupBtn_onclick env p =
              try_catch (a <- api env (lit "/auth/signup") (json_post (posted p)) ;;
                         toast (lit "Account created. You can login now.") true)
                (fun e => toast (message e) false) p).
  { unfold signupBtn_onclick. apply try_catch_ext.
    rewrite (bind_run credentials_body _ p (posted p) p eq_refl). reflexivity. }
  rewrite <- E in L. rewrite (sent_of_log _ _ _ L). reflexivity.
Qed.

Lemma posted_inj (p q : Page) :
  email_value p = email_value q -> posted p = posted q ->
  password_value p = password_value q.
Proof.
  unfold posted. intros E H. rewrite E in H.
  apply (stringify_password_inj (trim (email_value q))). congruence.
Qed.

End Credentials.

(** C10. The first request of the login handler is a POST to /auth/login,
    that of the signup handler a POST to /auth/signup; both carry as JSON
    text the object whose email is the email field without the white space
    at its two ends and whose password is the password field as it is. Two
    pages with the same email field and different password fields send
    different requests, so white space at an end of a password counts. *)
Theorem credentials_as_sent (env : Env) :
  (forall p, exists t,
     is_trim_of (email_value p) t
     /\ hd_error (sent (loginBtn_onclick env) p) =
          Some (request (lit "/auth/login")
                  (json_post (TextBody (Json.stringify
                                          [(lit "email", t);
                                           (lit "password", password_value p)]))))
     /\ hd_error (sent (signupBtn_onclick env) p) =
          Some (request (lit "/auth/signup")
                  (json_post (TextBody (Json.stringify
                                          [(lit "email", t);
                                           (lit "password", password_value p)])))))
  /\ (forall p q,
        email_value p = email_value q ->
        password_value p <> password_value q ->
        hd_error (sent (loginBtn_onclick env) p) <> hd_error (sent (loginBtn_onclick env) q)
        /\ hd_error (sent (signupBtn_onclick env) p)
           <> hd_error (sent (signupBtn_onclick env) q)).
Proof.
  split.
  - intros p. exists (trim (email_value p)).
    split; [apply trim_is_trim_of|]. split; [apply login_sent | apply signup_sent].
  - intros p q E NE. rewrite !login_sent, !signup_sent.
    split; intros H; apply NE; apply (posted_inj p q E);
      unfold request, json_post in H; congruence.
Qed.

(** * The properties on the sample pages *)

Import Sample.

Lemma empty_selection_fails_locally_witness :
  fileInput_files blank = Some []
  /\ sent (stampBtn_onclick healthy) blank = []
  /\ toast_textContent (snd (stampBtn_onclick healthy blank))
     = lit "Please add images or a .zip".
Proof.
  split; [reflexivity|].
  pose proof (empty_selection_fails_locally healthy blank (or_intror eq_refl)) as H.
  cbv zeta in H. destruct H as (_ & S & T & _). split; assumption.
Defined.

Lemma stamp_request_body_witness :
  fileInput_files selected = Some [a_png; b_zip]
  /\ exists d s e c,
       hd_error (sent (stampBtn_onclick healthy) selected) =
         Some {| req_url := lit "/api/stamp";
                 req_credentials := lit "include";
                 req_opts :=
                   {| opt_method := Some (lit "POST");
                      opt_headers := [];
                      opt_body :=
                        Some (FormBody
                                [FileEntry (lit "files") a_png (lit "a.png");
                                 FileEntry (lit "files") b_zip (lit "b.zip");
                                 FieldEntry (lit "date") d;
                                 FieldEntry (lit "start_time") s;
                                 FieldEntry (lit "end_time") e;
                                 FieldEntry (lit "crop_height") c]) |} |}
       /\ is_trim_of (lit " 01/01/2024") d /\ is_trim_of (lit "09:00:00") s
       /\ is_trim_of (lit "09:05:00") e /\ is_trim_of (lit "100 ") c.
Proof.
  split; [reflexivity|].
  apply (stamp_request_body healthy selected [a_png; b_zip]).
  - discriminate.
  - reflexivity.
Defined.

Lemma binary_unless_declared_json_witness :
  In (Click {| href := lit "blob:null/0"; download := lit "stamped_images.zip" |})
     (effects (stampBtn_onclick healthy) selected)
  /\ existsb is_download (effects (stampBtn_onclick mislabelling) selected) = false.
Proof.
  split.
  - apply (proj1 (binary_unless_declared_json healthy selected [a_png; b_zip] zip_response
                    ltac:(discriminate) eq_refl eq_refl eq_refl) eq_refl zip eq_refl).
  - apply (proj2 (binary_unless_declared_json mislabelling selected [a_png; b_zip]
                    mislabelled_response ltac:(discriminate) eq_refl eq_refl eq_refl) eq_refl).
Defined.


Lemma topup_failure_notice_witness :
  fst (api absent (lit "/auth/topup_demo") post blank) = Rejected (Error (lit "Not Found"))
  /\ toast_textContent (snd (topupBtn_onclick absent blank)) = lit "Demo top-up not enabled".
Proof.
  split; [reflexivity|].
  apply (proj1 (proj2 (topup_failure_notice absent blank (Error (lit "Not Found")) eq_refl))).
Defined.

Lemma status_failure_is_silent_witness :
  query_fails offline blank status_query
  /\ credits_textContent (snd (refreshStatus offline blank)) = lit "?"
  /\ existsb is_notice (effects (refreshStatus offline) blank) = false.
Proof.
  assert (F : query_fails offline blank status_query)
    by (left; eexists; reflexivity).
  split; [exact F|].
  pose proof (status_failure_is_silent offline blank F) as H.
  cbv zeta in H. destruct H as (_ & C & _ & T & _). split; assumption.
Defined.


Lemma status_failure_keeps_price_witness :
  fst (refreshStatus_try offline blank)
    = Rejected {| exn_name := lit "TypeError"; message := lit "Failed to fetch" |}
  /\ price_textContent (snd (refreshStatus offline blank)) = lit "20".
Proof.
  split; [reflexivity|].
  apply (proj1 (status_failure_keeps_price offline blank _ eq_refl)).
Defined.

Lemma credentials_as_sent_witness :
  email_value blank = email_value retyped
  /\ password_value blank <> password_value retyped
  /\ hd_error (sent (loginBtn_onclick healthy) blank)
     <> hd_error (sent (loginBtn_onclick healthy) retyped).
Proof.
  assert (NE : password_value blank <> password_value retyped) by discriminate.
  split; [reflexivity|]. split; [exact NE|].
  apply (proj1 (proj2 (credentials_as_sent healthy) blank retyped eq_refl NE)).
Defined.

(** The scenario of the session out of credits: the body of the 402 is the
    notice, the progress box is hidden at once, nothing is downloaded. *)
Example insufficient_credits :
  let p' := snd (stampBtn_onclick refusing selected) in
  toast_textContent p' = lit "Insufficient credits"
  /\ progressBox_hidden p' = true
  /\ existsb is_download (effects (stampBtn_onclick refusing) selected) = false.
Proof. cbv zeta. repeat split; vm_compute; reflexivity. Qed.

(** The scenario of the healthy server: the status shows the balance. *)
Example status_shows_balance :
  let p' := snd (refreshStatus healthy blank) in
  credits_textContent p' = lit "4" /\ price_textContent p' = lit "20".
Proof. cbv zeta. split; vm_compute; reflexivity. Qed.

(** What the login handler posts from the blank page. *)
Example login_body :
  posted blank =
  TextBody (lit "{" ++ [0x22] ++ lit "email" ++ [0x22] ++ lit ":"
            ++ [0x22] ++ lit "ann@example.org" ++ [0x22] ++ lit ","
            ++ [0x22] ++ lit "password" ++ [0x22] ++ lit ":"
            ++ [0x22] ++ lit "s3cret " ++ [0x22] ++ lit "}").
Proof. reflexivity. Qed.

(** A status answer that fails at the price: the balance was written, the
    handler replaces it by the placeholder, the price stays. *)
Example status_fails_at_price :
  effects (refreshStatus unpriced) blank =
    [Fetch status_query; SetTextContent creditsEl (lit "3");
     SetTextContent creditsEl (lit "?")]
  /\ credits_textContent (snd (refreshStatus unpriced blank)) = lit "?"
  /\ price_textContent (snd (refreshStatus unpriced blank)) = lit "20".
Proof. repeat split; vm_compute; reflexivity. Qed.

(** * Further properties of the script *)

(** ** What a computation leaves alone *)

Section Preserves.

Context {B : Type} (f : Page -> B).

Lemma preserves_ret {A} (a : A) : preserves f (ret a).
Proof. intros p. reflexivity. Qed.

Lemma preserves_throw {A} (e : exn) : preserves f (@throw A e).
Proof. intros p. reflexivity. Qed.

Lemma preserves_await {A} (o : outcome A) : preserves f (await o).
Proof. intros p. reflexivity. Qed.

Lemma preserves_read {A} (g : Page -> A) : preserves f (read g).
Proof. intros p. reflexivity. Qed.

Lemma preserves_bind {A C} (m : M A) (k : A -> M C) :
  preserves f m -> (forall a, preserves f (k a)) -> preserves f (bind m k).
Proof.
  intros Hm Hk p. unfold bind. specialize (Hm p).
  destruct (m p) as [[a|e] q]; cbn [snd] in *; [rewrite (Hk a q)|]; exact Hm.
Qed.

Lemma preserves_try_catch {A} (m : M A) (h : exn -> M A) :
  preserves f m -> (forall e, preserves f (h e)) -> preserves f (try_catch m h).
Proof.
  intros Hm Hh p. unfold try_catch. specialize (Hm p).
  destruct (m p) as [[a|e] q]; cbn [snd] in *; [|rewrite (Hh e q)]; exact Hm.
Qed.

Lemma preserves_detached (m : M unit) : preserves f m -> preserves f (detached m).
Proof. intros Hm p. exact (Hm p). Qed.

End Preserves.

Lemma preserves_modify {A : Type} (f : Page -> A) (g : Page -> Page) :
  (forall p, f (g p) = f p) -> preserves f (modify g).
Proof. intros H p. apply H. Qed.

Create HintDb preserves.
#[local] Hint Resolve preserves_ret preserves_throw preserves_await preserves_read : preserves.

(** Splits a computation into its steps and looks each one up. *)
Ltac preserves_steps :=
  cbv beta zeta;
  first
    [ solve [auto with preserves]
    | match goal with |- forall _, _ => intro; preserves_steps end
    | match goal with
      | |- preserves _ (if ?b then _ else _) => destruct b; preserves_steps
      | |- preserves _ (match ?x with _ => _ end) => destruct x; preserves_steps
      end
    | apply preserves_bind; preserves_steps
    | apply preserves_try_catch; preserves_steps
    | apply preserves_detached; preserves_steps ].

(** A view of the page that the log, the class lists, the border of the
    notice and the texts of the notice, the two status displays and the
    progress message do not enter is left alone by every listener but those
    of the file input and the drop zone. *)
Section Views.

Context {B : Type} (f : Page -> B) (env : Env).

Hypothesis f_log : forall l p, f (with_log l p) = f p.
Hypothesis f_hidden : forall el h p, f (with_hidden el h p) = f p.
Hypothesis f_border : forall c p, f (with_borderColor c p) = f p.
Hypothesis f_toast : forall s p, f (with_textContent toastEl s p) = f p.
Hypothesis f_credits : forall s p, f (with_textContent creditsEl s p) = f p.
Hypothesis f_price : forall s p, f (with_textContent priceEl s p) = f p.
Hypothesis f_message : forall s p, f (with_textContent progressMsg s p) = f p.

Lemma preserves_emit (ev : Event) : preserves f (emit ev).
Proof. intros p. apply f_log. Qed.

Lemma preserves_api (url : jsstring) (opts : Opts) : preserves f (api env url opts).
Proof. intros p. rewrite api_page. apply f_log. Qed.

Lemma preserves_hidden (el : Elem) (h : bool) : preserves f (modify (with_hidden el h)).
Proof. apply preserves_modify. apply f_hidden. Qed.

Lemma preserves_border (c : jsstring) : preserves f (modify (with_borderColor c)).
Proof. apply preserves_modify. apply f_border. Qed.

#[local] Hint Resolve preserves_emit preserves_api preserves_hidden preserves_border
  : preserves.

Lemma preserves_text_toast (s : jsstring) : preserves f (setTextContent toastEl s).
Proof.
  unfold setTextContent. apply preserves_bind; [apply preserves_modify, f_toast|].
  preserves_steps.
Qed.

Lemma preserves_text_credits (s : jsstring) : preserves f (setTextContent creditsEl s).
Proof.
  unfold setTextContent. apply preserves_bind; [apply preserves_modify, f_credits|].
  preserves_steps.
Qed.

Lemma preserves_text_price (s : jsstring) : preserves f (setTextContent priceEl s).
Proof.
  unfold setTextContent. apply preserves_bind; [apply preserves_modify, f_price|].
  preserves_steps.
Qed.

Lemma preserves_text_message (s : jsstring) : preserves f (setTextContent progressMsg s).
Proof.
  unfold setTextContent. apply preserves_bind; [apply preserves_modify, f_message|].
  preserves_steps.
Qed.

Lemma preserves_classList_add (el : Elem) : preserves f (classList_add_hidden el).
Proof. unfold classList_add_hidden. preserves_steps. Qed.

Lemma preserves_classList_remove (el : Elem) : preserves f (classList_remove_hidden el).
Proof. unfold classList_remove_hidden. preserves_steps. Qed.

Lemma preserves_setTimeout (cb : Callback) (ms : N) : preserves f (setTimeout cb ms).
Proof. unfold setTimeout. preserves_steps. Qed.

#[local] Hint Resolve preserves_text_toast preserves_text_credits preserves_text_price
  preserves_text_message preserves_classList_add preserves_classList_remove
  preserves_setTimeout : preserves.

Lemma preserves_toast (msg : jsstring) (good : bool) : preserves f (toast msg good).
Proof. unfold toast. preserves_steps. Qed.

Lemma preserves_get_property (data : ApiResult) (k : jsstring) :
  preserves f (get_property env data k).
Proof. unfold get_property. preserves_steps. Qed.

Lemma preserves_credits_or (v : option Json.value) (d : jsstring) :
  preserves f (setTextContent_or env creditsEl v d).
Proof. unfold setTextContent_or. preserves_steps. Qed.

Lemma preserves_price_or (v : option Json.value) (d : jsstring) :
  preserves f (setTextContent_or env priceEl v d).
Proof. unfold setTextContent_or. preserves_steps. Qed.

#[local] Hint Resolve preserves_toast preserves_get_property preserves_credits_or
  preserves_price_or : preserves.

Lemma preserves_refreshStatus : preserves f (refreshStatus env).
Proof. unfold refreshStatus, refreshStatus_try. preserves_steps. Qed.

Lemma preserves_credentials_body : preserves f credentials_body.
Proof. unfold credentials_body. preserves_steps. Qed.

Lemma preserves_stamp_form (fs : list File) : preserves f (stamp_form fs).
Proof. unfold stamp_form. preserves_steps. Qed.

Lemma preserves_call_blob (res : ApiResult) : preserves f (call_blob env res).
Proof. unfold call_blob. preserves_steps. Qed.

Lemma preserves_save_blob (b : Blob) : preserves f (save_blob env b).
Proof. unfold save_blob. preserves_steps. Qed.

#[local] Hint Resolve preserves_refreshStatus preserves_credentials_body
  preserves_stamp_form preserves_call_blob preserves_save_blob : preserves.

Lemma preserves_stamp_download (res : ApiResult) : preserves f (stamp_download env res).
Proof. unfold stamp_download. preserves_steps. Qed.

#[local] Hint Resolve preserves_stamp_download : preserves.

(** The listeners that are not about the selection. *)
Lemma preserves_other_handlers (a : Action) :
  match a with
  | ChangeFiles _ | DropFiles _ => True
  | _ => preserves f (handle env a)
  end.
Proof.
  destruct a; cbn [handle]; try exact I.
  - unfold loginBtn_onclick. preserves_steps.
  - unfold signupBtn_onclick. preserves_steps.
  - unfold logoutBtn_onclick. preserves_steps.
  - unfold topupBtn_onclick. preserves_steps.
  - unfold chooseBtn_onclick. preserves_steps.
  - unfold stampBtn_onclick. preserves_steps.
  - unfold fire. preserves_steps.
Qed.

(** The two that are, for a view that the selection does not enter
    either. *)
Hypothesis f_summary : forall s p, f (with_textContent fileList s p) = f p.
Hypothesis f_files : forall fs p, f (with_files fs p) = f p.

Lemma preserves_renderFiles (l : option (list File)) : preserves f (renderFiles l).
Proof.
  assert (T : forall s, preserves f (setTextContent fileList s)).
  { intros s. unfold setTextContent.
    apply preserves_bind; [apply preserves_modify, f_summary|]. preserves_steps. }
  unfold renderFiles. destruct l as [[|x l]|]; apply T.
Qed.

Lemma preserves_files (fs : option (list File)) : preserves f (modify (with_files fs)).
Proof. apply preserves_modify. apply f_files. Qed.

#[local] Hint Resolve preserves_renderFiles preserves_files : preserves.

Lemma preserves_handle (a : Action) : preserves f (handle env a).
Proof.
  pose proof (preserves_other_handlers a) as H.
  destruct a; try exact H; cbn [handle].
  - unfold fileInput_onchange. preserves_steps.
  - unfold dropzone_ondrop. preserves_steps.
Qed.

End Views.

(** ** What a computation adds to the log *)

Section Emits.

Variable good : Event -> bool.

Lemma emits_ret {A} (a : A) : emits good (ret a).
Proof. intros p. exists []. split; [symmetry; apply app_nil_r | reflexivity]. Qed.

Lemma emits_throw {A} (e : exn) : emits good (@throw A e).
Proof. intros p. exists []. split; [symmetry; apply app_nil_r | reflexivity]. Qed.

Lemma emits_await {A} (o : outcome A) : emits good (await o).
Proof. intros p. exists []. split; [symmetry; apply app_nil_r | reflexivity]. Qed.

Lemma emits_read {A} (g : Page -> A) : emits good (read g).
Proof. intros p. exists []. split; [symmetry; apply app_nil_r | reflexivity]. Qed.

Lemma emits_modify (g : Page -> Page) :
  (forall p, log (g p) = log p) -> emits good (modify g).
Proof.
  intros H p. exists []. split; [cbn; rewrite H; symmetry; apply app_nil_r | reflexivity].
Qed.

Lemma emits_emit (ev : Event) : good ev = true -> emits good (emit ev).
Proof. intros H p. exists [ev]. split; [reflexivity | cbn; rewrite H; reflexivity]. Qed.

Lemma emits_fetch (env : Env) (url : jsstring) (opts : Opts) :
  good (Fetch (request url opts)) = true -> emits good (fetch env url opts).
Proof. intros H p. exists [Fetch (request url opts)]. split; [reflexivity | cbn; rewrite H; reflexivity]. Qed.

Lemma emits_bind {A C} (m : M A) (k : A -> M C) :
  emits good m -> (forall a, emits good (k a)) -> emits good (bind m k).
Proof.
  intros Hm Hk p. unfold bind. destruct (Hm p) as [e1 [E1 G1]].
  destruct (m p) as [[a|e] q]; cbn [snd] in E1.
  - destruct (Hk a q) as [e2 [E2 G2]]. exists (e1 ++ e2). split.
    + rewrite E2, E1. symmetry. apply app_assoc.
    + rewrite forallb_app, G1, G2. reflexivity.
  - exists e1. split; assumption.
Qed.

Lemma emits_try_catch {A} (m : M A) (h : exn -> M A) :
  emits good m -> (forall e, emits good (h e)) -> emits good (try_catch m h).
Proof.
  intros Hm Hh p. unfold try_catch. destruct (Hm p) as [e1 [E1 G1]].
  destruct (m p) as [[a|e] q]; cbn [snd] in E1.
  - exists e1. split; assumption.
  - destruct (Hh e q) as [e2 [E2 G2]]. exists (e1 ++ e2). split.
    + rewrite E2, E1. symmetry. apply app_assoc.
    + rewrite forallb_app, G1, G2. reflexivity.
Qed.

Lemma emits_detached (m : M unit) : emits good m -> emits good (detached m).
Proof. intros Hm p. exact (Hm p). Qed.

Lemma emits_effects {A} (m : M A) (p : Page) :
  emits good m -> forallb good (effects m p) = true.
Proof. intros H. destruct (H p) as [evs [E G]]. rewrite (effects_of_log _ _ _ E). exact G. Qed.

End Emits.

(** Opens the functions of the script down to the steps they are made of. *)
Ltac open_script :=
  unfold loginBtn_onclick, signupBtn_onclick, logoutBtn_onclick, topupBtn_onclick,
    chooseBtn_onclick, fileInput_onchange, dropzone_ondrop, stampBtn_onclick, fire,
    stamp_download, refreshStatus, refreshStatus_try, credentials_body, stamp_form,
    toast, renderFiles, save_blob, call_blob, api, get_property, setTextContent_or,
    setTextContent, classList_add_hidden, classList_remove_hidden, setTimeout.

(** Splits an opened computation into its steps and tests each effect. *)
Ltac emits_steps :=
  cbv beta zeta;
  lazymatch goal with
  | |- forall _, _ => intro; emits_steps
  | |- emits _ (ret _) => apply emits_ret
  | |- emits _ (throw _) => apply emits_throw
  | |- emits _ (await _) => apply emits_await
  | |- emits _ (read _) => apply emits_read
  | |- emits _ (emit _) => apply emits_emit; reflexivity
  | |- emits _ (fetch _ _ _) => apply emits_fetch; reflexivity
  | |- emits _ (modify _) => apply emits_modify; reflexivity
  | |- emits _ (bind _ _) => apply emits_bind; emits_steps
  | |- emits _ (try_catch _ _) => apply emits_try_catch; emits_steps
  | |- emits _ (detached _) => apply emits_detached; emits_steps
  | |- emits _ (if ?b then _ else _) => destruct b; emits_steps
  | |- emits _ (match ?x with _ => _ end) => destruct x; emits_steps
  end.

(** ** Returning normally *)

Lemma settles_ret {A} (a : A) : settles (ret a).
Proof. intros p. exists a. reflexivity. Qed.

Lemma settles_read {A} (g : Page -> A) : settles (read g).
Proof. intros p. eexists. reflexivity. Qed.

Lemma settles_modify (g : Page -> Page) : settles (modify g).
Proof. intros p. exists tt. reflexivity. Qed.

Lemma settles_emit (ev : Event) : settles (emit ev).
Proof. intros p. exists tt. reflexivity. Qed.

Lemma settles_detached (m : M unit) : settles (detached m).
Proof. intros p. exists tt. reflexivity. Qed.

Lemma settles_bind {A C} (m : M A) (k : A -> M C) :
  settles m -> (forall a, settles (k a)) -> settles (bind m k).
Proof.
  intros Hm Hk p. unfold bind. destruct (Hm p) as [a E].
  destruct (m p) as [[a'|e] q]; cbn [fst] in E; [|discriminate]. apply Hk.
Qed.

(** A handler that returns normally makes up for whatever its block throws. *)
Lemma settles_try_catch {A} (m : M A) (h : exn -> M A) :
  (forall e, settles (h e)) -> settles (try_catch m h).
Proof.
  intros Hh p. unfold try_catch. destruct (m p) as [[a|e] q]; [exists a; reflexivity|].
  apply Hh.
Qed.

(** Splits an opened computation into its steps; the block of a try is not
    looked at. *)
Ltac settles_steps :=
  cbv beta zeta;
  lazymatch goal with
  | |- forall _, _ => intro; settles_steps
  | |- settles (ret _) => apply settles_ret
  | |- settles (read _) => apply settles_read
  | |- settles (emit _) => apply settles_emit
  | |- settles (modify _) => apply settles_modify
  | |- settles (detached _) => apply settles_detached
  | |- settles (bind _ _) => apply settles_bind; settles_steps
  | |- settles (try_catch _ _) => apply settles_try_catch; settles_steps
  | |- settles (if ?b then _ else _) => destruct b; settles_steps
  | |- settles (match ?x with _ => _ end) => destruct x; settles_steps
  end.

(** Every listener catches what it throws: whatever the page, the server
    and the engine do, no click, change, drop or timer ends in an error
    that nobody handles. *)
Theorem handlers_never_reject (env : Env) (a : Action) (p : Page) :
  fst (handle env a p) = Resolved tt.
Proof.
  assert (S : settles (handle env a)).
  { destruct a; cbn [handle]; open_script; settles_steps. }
  destruct (S p) as [[] E]. exact E.
Qed.

(** ** What the script sends, sets and offers *)

Lemma emits_handle (env : Env) (a : Action) : emits expected (handle env a).
Proof. destruct a; cbn [handle]; open_script; emits_steps. Qed.

(** Whatever happens on the page and however often, every request the
    script sends carries the credentials and is the GET of /auth/status or
    a POST to /auth/login, /auth/signup, /auth/logout, /auth/topup_demo or
    /api/stamp; every timer it sets hides the notice after 3000 ms or the
    progress box after 500 ms; every anchor it makes is a download named
    stamped_images.zip. *)
Theorem only_expected_effects (env : Env) (l : list Action) (p : Page) :
  exists evs, log (after env l p) = log p ++ evs /\ forallb expected evs = true.
Proof.
  revert p. induction l as [|a l IH]; intros p.
  - exists []. split; [symmetry; apply app_nil_r | reflexivity].
  - cbn [after]. destruct (emits_handle env a p) as [e1 [E1 G1]].
    destruct (IH (snd (handle env a p))) as [e2 [E2 G2]].
    exists (e1 ++ e2). split.
    + rewrite E2, E1. symmetry. apply app_assoc.
    + rewrite forallb_app, G1, G2. reflexivity.
Qed.

(** ** The fields of the form *)

(** No listener writes a field of the form: the email, the password and the
    crop height stay as typed and the date and the two times stay as set,
    whatever is clicked, dropped or answered, and however many times. *)
Theorem handlers_keep_the_form (env : Env) (l : list Action) (p : Page) :
  typed (after env l p) = typed p /\ defaulted (after env l p) = defaulted p.
Proof.
  revert p. induction l as [|a l IH]; intros p; [split; reflexivity|].
  cbn [after]. destruct (IH (snd (handle env a p))) as [T D]. rewrite T, D. split.
  - apply (preserves_handle typed env); reflexivity.
  - apply (preserves_handle defaulted env); reflexivity.
Qed.

(** ** The selection and its summary *)

Lemma summary_current_iff (p : Page) :
  summary_current p <->
  fileList_textContent p =
  match fileInput_files p with
  | None | Some [] => []
  | Some fs => join bullet (map file_label fs)
  end.
Proof. apply is_summary_iff. Qed.

Lemma summary_current_by_selection (p q : Page) :
  selection q = selection p -> summary_current p -> summary_current q.
Proof.
  unfold selection. intros E H. injection E as F T.
  apply summary_current_iff. apply summary_current_iff in H. rewrite F, T. exact H.
Qed.

Lemma picked_is_current (env : Env) (picked : list File) (p : Page) :
  let q := snd (handle env (ChangeFiles picked) p) in
  fileInput_files q = Some picked /\ summary_current q.
Proof.
  cbv zeta. split; [destruct picked; reflexivity|].
  apply summary_current_iff. destruct picked; reflexivity.
Qed.

Lemma dropped_is_current (env : Env) (files : list File) (p : Page) :
  let q := snd (handle env (DropFiles (Some files)) p) in
  fileInput_files q = Some files /\ summary_current q.
Proof.
  cbv zeta. split; [destruct files; reflexivity|].
  apply summary_current_iff. destruct files; reflexivity.
Qed.

Lemma handle_keeps_summary_current (env : Env) (a : Action) (p : Page) :
  summary_current p -> summary_current (snd (handle env a p)).
Proof.
  intros H.
  pose proof (preserves_other_handlers selection env
                ltac:(reflexivity) ltac:(reflexivity) ltac:(reflexivity)
                ltac:(reflexivity) ltac:(reflexivity) ltac:(reflexivity)
                ltac:(reflexivity) a) as K.
  destruct a as [| | | | | picked | [files|] | |];
    try (apply (summary_current_by_selection p); [apply K | exact H]).
  - apply picked_is_current.
  - apply dropped_is_current.
  - exact H.
Qed.

(** The summary on the page is always the one of the selection on the page.
    A change of the file input and a drop with files put the new files in
    the input, in place of what was there, and write their summary; a drop
    without dataTransfer changes nothing; and once the summary is current
    it stays so whatever happens next, since nothing else writes the
    selection or the summary. *)
Theorem summary_follows_selection (env : Env) :
  (forall picked p,
     let q := snd (handle env (ChangeFiles picked) p) in
     fileInput_files q = Some picked /\ summary_current q)
  /\ (forall files p,
        let q := snd (handle env (DropFiles (Some files)) p) in
        fileInput_files q = Some files /\ summary_current q)
  /\ (forall p, snd (handle env (DropFiles None) p) = p)
  /\ (forall l p, summary_current p -> summary_current (after env l p)).
Proof.
  split; [apply picked_is_current|]. split; [apply dropped_is_current|].
  split; [reflexivity|].
  intros l. induction l as [|a l IH]; intros p H; [exact H|].
  cbn [after]. apply IH. apply handle_keeps_summary_current. exact H.
Qed.

(** ** The notice *)

(** A notice takes the place of the one before: after two calls of toast
    the element shows the second message in the second colour. No timer is
    withdrawn: both are in the log, and the callback of either hides the
    notice that is showing, with its text left in place. *)
Theorem notices_overwrite (a b : jsstring) (ga gb : bool) (p : Page) :
  let both := toast a ga ;; toast b gb in
  let q := snd (both p) in
  effects both p =
    [SetTextContent toastEl a; RemoveHidden toastEl;
     SetBorderColor toastEl (if ga then lit "#1f5ec3" else lit "#743232");
     SetTimeout HideToast 3000;
     SetTextContent toastEl b; RemoveHidden toastEl;
     SetBorderColor toastEl (if gb then lit "#1f5ec3" else lit "#743232");
     SetTimeout HideToast 3000]
  /\ toast_textContent q = b
  /\ toast_borderColor q = (if gb then lit "#1f5ec3" else lit "#743232")
  /\ toast_hidden q = false
  /\ toast_hidden (snd (fire HideToast q)) = true
  /\ toast_textContent (snd (fire HideToast q)) = b.
Proof.
  cbv zeta.
  assert (E : (toast a ga ;; toast b gb) p = toast b gb (snd (toast a ga p))).
  { unfold bind at 1. rewrite toast_run. reflexivity. }
  split.
  - apply effects_of_log. rewrite E, !toast_run. cbn -[lit].
    rewrite <- app_assoc. reflexivity.
  - rewrite E, !toast_run. repeat split; reflexivity.
Qed.

(** ** The defaults of the form *)

Lemma eqb_eq (a b : jsstring) : eqb a b = true -> a = b.
Proof.
  revert b. induction a as [|x a IH]; intros [|y b] H; try discriminate; [reflexivity|].
  cbn in H. apply andb_true_iff in H. destruct H as [X R].
  apply N.eqb_eq in X. subst y. rewrite (IH b R). reflexivity.
Qed.

(** A test that holds of the numbers 0 to 99 holds of every number below 100. *)
Lemma below_100 (test : N -> bool) (n : N) :
  forallb (fun k => test (N.of_nat k)) (seq 0 100) = true -> n < 100 -> test n = true.
Proof.
  intros H L. rewrite forallb_forall in H.
  rewrite <- (N2Nat.id n). apply H. apply in_seq. lia.
Qed.

Lemma pad_two_digits (n : N) :
  n < 100 -> padStart 2 (lit "0") (ofNat n) = two_digits n.
Proof.
  intros L. apply eqb_eq.
  apply (below_100 (fun n => eqb (padStart 2 (lit "0") (ofNat n)) (two_digits n)));
    [vm_compute; reflexivity | exact L].
Qed.

Lemma two_digits_plain (n : N) : n < 100 -> forallb plain (two_digits n) = true.
Proof.
  intros L. apply (below_100 (fun n => forallb plain (two_digits n)));
    [vm_compute; reflexivity | exact L].
Qed.

Lemma digits_plain (d : Decimal.uint) :
  forallb plain (lit (DecimalString.NilEmpty.string_of_uint d)) = true.
Proof. unfold lit. induction d; cbn; try rewrite IHd; reflexivity. Qed.

Lemma number_plain (d : Decimal.uint) :
  forallb plain (lit (DecimalString.NilZero.string_of_uint d)) = true.
Proof. destruct d; [reflexivity | apply digits_plain ..]. Qed.

Lemma ofInt_plain (z : Z) : forallb plain (ofInt z) = true.
Proof.
  unfold ofInt. destruct (Z.to_int z) as [d|d].
  - apply number_plain.
  - exact (number_plain d).
Qed.

Lemma plain_not_white (c : N) : plain c = true -> isWhiteSpace c = false.
Proof.
  unfold plain. intros H. apply andb_true_iff in H. destruct H as [L U].
  apply N.leb_le in L. apply N.leb_le in U. unfold isWhiteSpace.
  repeat match goal with
  | |- context [c =? ?k] => replace (c =? k) with false by (symmetry; apply N.eqb_neq; lia)
  end.
  replace (c <=? 0x200A) with true by (symmetry; apply N.leb_le; lia).
  replace (0x2000 <=? c) with false by (symmetry; apply N.leb_gt; lia).
  reflexivity.
Qed.

Lemma plain_head (t : jsstring) : forallb plain t = true -> startsWithWhiteSpace t = false.
Proof.
  destruct t as [|c t]; [reflexivity|]. cbn. intros H.
  apply andb_true_iff in H. apply plain_not_white. apply H.
Qed.

(** Text made of printable units has nothing to trim. *)
Lemma trim_plain (t : jsstring) : forallb plain t = true -> trim t = t.
Proof.
  intros H. symmetry. apply is_trim_of_unique. exists [], []. cbn [app].
  rewrite app_nil_r. repeat split; try reflexivity.
  - apply plain_head. exact H.
  - apply plain_head. apply forallb_rev. exact H.
Qed.

Lemma four_digit_year (y : Z) :
  (1000 <= y <= 9999)%Z -> List.length (ofInt y) = 4%nat.
Proof.
  intros B.
  assert (H : forallb (fun k => Nat.eqb (List.length (ofInt (Z.of_nat k))) 4)
                      (seq (10 * 100) (90 * 100))
              = true) by (vm_compute; reflexivity).
  rewrite forallb_forall in H. rewrite <- (Z2Nat.id y) by lia.
  apply Nat.eqb_eq. apply H. apply in_seq. lia.
Qed.

Lemma setDefaults_run (d : Date) (p : Page) :
  setDefaults d p =
  (Resolved tt,
   with_end_value (lit "09:05:00")
     (with_start_value (lit "09:00:00")
        (with_date_value
           (padStart 2 (lit "0") (ofNat (getDate d)) ++ lit "/"
            ++ padStart 2 (lit "0") (ofNat (getMonth d + 1)) ++ lit "/"
            ++ ofInt (getFullYear d)) p))).
Proof. reflexivity. Qed.

Lemma triple_eq {A B C} (a a' : A) (b b' : B) (c c' : C) :
  (a, b, c) = (a', b', c') -> a = a' /\ b = b' /\ c = c'.
Proof. intros H. injection H as -> -> ->. repeat split. Qed.

Lemma setDefaults_values (d : Date) (p : Page) :
  getDate d <= 31 ->
  getMonth d <= 11 ->
  defaulted (snd (setDefaults d p)) =
  (two_digits (getDate d) ++ lit "/" ++ two_digits (getMonth d + 1) ++ lit "/"
   ++ ofInt (getFullYear d),
   lit "09:00:00", lit "09:05:00").
Proof.
  intros D Mo. rewrite setDefaults_run. unfold defaulted.
  cbn [snd date_value start_value end_value with_end_value with_start_value with_date_value].
  rewrite !pad_two_digits by lia. reflexivity.
Qed.

(** With [d] for the present day, of a month of at most 31 days and a year
    of twelve months, setDefaults puts in the date field the day in two
    digits, a slash, the month counted from one in two digits, a slash and
    the year; in the start field 09:00:00 and in the end field 09:05:00; it
    writes nothing else, sends nothing and logs nothing. A year of four
    digits makes a date of ten units. *)
Theorem default_date_format (d : Date) (p : Page) :
  getDate d <= 31 ->
  getMonth d <= 11 ->
  let q := snd (setDefaults d p) in
  date_value q =
    two_digits (getDate d) ++ lit "/" ++ two_digits (getMonth d + 1) ++ lit "/"
    ++ ofInt (getFullYear d)
  /\ start_value q = lit "09:00:00"
  /\ end_value q = lit "09:05:00"
  /\ typed q = typed p /\ selection q = selection p /\ log q = log p
  /\ ((1000 <= getFullYear d <= 9999)%Z -> List.length (date_value q) = 10%nat).
Proof.
  intros D Mo. cbv zeta.
  pose proof (setDefaults_values d p D Mo) as V. unfold defaulted in V.
  apply triple_eq in V. destruct V as (Vd & Vs & Ve). rewrite Vd, Vs, Ve.
  repeat split; try reflexivity.
  intros Y. rewrite !length_app, (four_digit_year _ Y). reflexivity.
Qed.

(** With files selected, the first request of the stamp handler is the
    submission of these files with the form as it stands. *)
Lemma stamp_first_request (env : Env) (p : Page) (f : File) (fs : list File) :
  fileInput_files p = Some (f :: fs) ->
  hd_error (sent (stampBtn_onclick env) p) = Some (submitted p (f :: fs)).
Proof.
  intros H. unfold sent.
  rewrite (stampBtn_onclick_selected env p f fs H).
  destruct (first_effect_is_request env (req_url (submitted p (f :: fs)))
              (req_opts (submitted p (f :: fs))) (stamp_download env)
              (fun e => classList_add_hidden progressBox ;; toast (message e) false)
              (processing_page p)) as [evs L].
  - intros a. unfold stamp_download. grows_steps.
  - intros e. grows_steps.
  - rewrite L, requests_app, requests_processing_page.
    rewrite skipn_app, skipn_all, Nat.sub_diag. reflexivity.
Qed.

Lemma stampBtn_onclick_empty (env : Env) (p : Page) :
  fileInput_files p = None \/ fileInput_files p = Some [] ->
  stampBtn_onclick env p = (Resolved tt, failed_page (lit "Please add images or a .zip") p).
Proof.
  intros H. rewrite <- failure_notice_run.
  unfold stampBtn_onclick, try_catch.
  rewrite (bind_run (read fileInput_files) _ p (fileInput_files p) p eq_refl).
  destruct H as [H|H]; rewrite H; reflexivity.
Qed.

Lemma main_run (env : Env) (now : Date) (p : Page) :
  main env now p = (Resolved tt, snd (refreshStatus env (snd (setDefaults now p)))).
Proof. unfold main. rewrite (bind_run _ _ _ _ _ (setDefaults_run now p)). reflexivity. Qed.

Lemma view_after_status {B} (f : Page -> B) (env : Env) (p : Page) :
  (forall l q, f (with_log l q) = f q) ->
  (forall s q, f (with_textContent creditsEl s q) = f q) ->
  (forall s q, f (with_textContent priceEl s q) = f q) ->
  f (snd (refreshStatus env p)) = f p.
Proof.
  intros Hl Hc Hp. destruct (refreshStatus_shape env p) as (c & pr & evs & E & _).
  rewrite E. cbn [snd]. rewrite Hl, Hp, Hc. reflexivity.
Qed.

Lemma default_date_plain (d : Date) :
  getDate d <= 31 ->
  getMonth d <= 11 ->
  forallb plain (two_digits (getDate d) ++ lit "/" ++ two_digits (getMonth d + 1) ++ lit "/"
                 ++ ofInt (getFullYear d)) = true.
Proof.
  intros D Mo. rewrite !forallb_app, !two_digits_plain, ofInt_plain by lia. reflexivity.
Qed.

(** From the load of the script to the first submission: when the script
    has run its start on the day [now], files are dropped and the stamp
    button is clicked, the request carries the dropped files, the date of
    [now] as dd/mm/yyyy, the times 09:00:00 and 09:05:00, and the crop
    height of the form without the white space at its ends; the defaults
    pass the trimming unchanged. *)
Theorem loaded_defaults_are_sent (env : Env) (now : Date) (p : Page) (F : list File) :
  getDate now <= 31 ->
  getMonth now <= 11 ->
  F <> [] ->
  let q := after env [DropFiles (Some F)] (snd (main env now p)) in
  exists c,
    hd_error (sent (stampBtn_onclick env) q) =
    Some {| req_url := lit "/api/stamp";
            req_credentials := lit "include";
            req_opts :=
              {| opt_method := Some (lit "POST");
                 opt_headers := [];
                 opt_body :=
                   Some (FormBody
                           (map (fun f => FileEntry (lit "files") f (file_name f)) F ++
                            [FieldEntry (lit "date")
                               (two_digits (getDate now) ++ lit "/"
                                ++ two_digits (getMonth now + 1) ++ lit "/"
                                ++ ofInt (getFullYear now));
                             FieldEntry (lit "start_time") (lit "09:00:00");
                             FieldEntry (lit "end_time") (lit "09:05:00");
                             FieldEntry (lit "crop_height") c])) |} |}
    /\ is_trim_of (crop_value p) c.
Proof.
  intros D Mo NE. destruct F as [|f fs]; [contradiction|]. cbv zeta. cbn [after].
  set (p1 := snd (main env now p)).
  set (q := snd (handle env (DropFiles (Some (f :: fs))) p1)).
  assert (Fq : fileInput_files q = Some (f :: fs)) by apply dropped_is_current.
  rewrite (stamp_first_request env q f fs Fq).
  assert (Dq : defaulted q = defaulted (snd (setDefaults now p))).
  { unfold q. rewrite (preserves_handle defaulted env) by reflexivity.
    unfold p1. rewrite main_run. cbn [snd].
    apply view_after_status; reflexivity. }
  assert (Tq : typed q = typed p).
  { unfold q. rewrite (preserves_handle typed env) by reflexivity.
    unfold p1. rewrite main_run. cbn [snd].
    rewrite view_after_status by reflexivity. reflexivity. }
  rewrite (setDefaults_values now p D Mo) in Dq.
  unfold defaulted in Dq. apply triple_eq in Dq. destruct Dq as (Vd & Vs & Ve).
  unfold typed in Tq. apply triple_eq in Tq. destruct Tq as (_ & _ & Vc).
  unfold submitted. rewrite Vd, Vs, Ve, Vc.
  rewrite (trim_plain _ (default_date_plain now D Mo)).
  exists (trim (crop_value p)). split; [reflexivity | apply trim_is_trim_of].
Qed.

(** A drop takes the place of the selection, it does not add to it: after
    a drop of [F] and then of [G], the summary is that of [G] alone and a
    submission sends the files of [G] alone; when [G] is empty the summary
    is empty and the submission fails with the local message, nothing
    being sent. *)
Theorem drop_replaces_selection (env : Env) (p : Page) (F G : list File) :
  let q := after env [DropFiles (Some F); DropFiles (Some G)] p in
  fileInput_files q = Some G
  /\ (G <> [] ->
      is_summary (Some G) (fileList_textContent q)
      /\ exists d s e c,
           hd_error (sent (stampBtn_onclick env) q) =
           Some {| req_url := lit "/api/stamp";
                   req_credentials := lit "include";
                   req_opts :=
                     {| opt_method := Some (lit "POST");
                        opt_headers := [];
                        opt_body :=
                          Some (FormBody
                                  (map (fun f => FileEntry (lit "files") f (file_name f)) G
                                   ++ [FieldEntry (lit "date") d;
                                       FieldEntry (lit "start_time") s;
                                       FieldEntry (lit "end_time") e;
                                       FieldEntry (lit "crop_height") c])) |} |}
           /\ is_trim_of (date_value p) d /\ is_trim_of (start_value p) s
           /\ is_trim_of (end_value p) e /\ is_trim_of (crop_value p) c)
  /\ (G = [] ->
      fileList_textContent q = []
      /\ sent (stampBtn_onclick env) q = []
      /\ toast_textContent (snd (stampBtn_onclick env q)) = lit "Please add images or a .zip").
Proof.
  cbv zeta. cbn [after].
  set (p1 := snd (handle env (DropFiles (Some F)) p)).
  set (q := snd (handle env (DropFiles (Some G)) p1)).
  assert (Fq : fileInput_files q = Some G) by apply dropped_is_current.
  assert (Vq : typed q = typed p /\ defaulted q = defaulted p).
  { unfold q, p1. rewrite !(preserves_handle typed env), !(preserves_handle defaulted env)
      by reflexivity. split; reflexivity. }
  split; [exact Fq|]. split.
  - intros NE. destruct G as [|g gs]; [contradiction|]. split.
    { assert (S : summary_current q) by apply dropped_is_current.
      unfold summary_current in S. rewrite Fq in S. exact S. }
    rewrite (stamp_first_request env q g gs Fq).
    destruct Vq as [T D]. unfold typed in T. unfold defaulted in D.
    apply triple_eq in T. destruct T as (_ & _ & Vc).
    apply triple_eq in D. destruct D as (Vd & Vs & Ve).
    unfold submitted. rewrite Vd, Vs, Ve, Vc.
    exists (trim (date_value p)), (trim (start_value p)), (trim (end_value p)),
      (trim (crop_value p)).
    split; [reflexivity|]. repeat split; apply trim_is_trim_of.
  - intros ->. split; [reflexivity|].
    pose proof (stampBtn_onclick_empty env q (or_intror Fq)) as E.
    split.
    + apply (sent_of_log _ _ [AddHidden progressBox;
                              SetTextContent toastEl (lit "Please add images or a .zip");
                              RemoveHidden toastEl; SetBorderColor toastEl (lit "#743232");
                              SetTimeout HideToast 3000]).
      rewrite E. reflexivity.
    + rewrite E. reflexivity.
Qed.

(** ** The shared helper on answers in 2xx *)

Lemma isPrefix_iff (pre s : jsstring) :
  isPrefix pre s = true <-> exists post, s = pre ++ post.
Proof.
  revert s. induction pre as [|a pre IH]; intros s.
  - split; [intros _; exists s; reflexivity | reflexivity].
  - destruct s as [|b s]; cbn.
    + split; [discriminate | intros [post E]; discriminate E].
    + rewrite andb_true_iff, N.eqb_eq, IH. split.
      * intros [-> [post ->]]. exists post. reflexivity.
      * intros [post E]. injection E as -> ->. split; [reflexivity | exists post; reflexivity].
Qed.

(** [includes] is the test for a substring. *)
Lemma includes_iff (s sub : jsstring) :
  includes s sub = true <-> exists pre post, s = pre ++ sub ++ post.
Proof.
  induction s as [|c s IH].
  - cbn. rewrite orb_false_r, isPrefix_iff. split.
    + intros [post E]. exists [], post. exact E.
    + intros [pre [post E]]. destruct pre; [exists post; exact E | discriminate E].
  - cbn [includes]. rewrite orb_true_iff, isPrefix_iff, IH. split.
    + intros [[post E] | [pre [post E]]].
      * exists [], post. exact E.
      * exists (c :: pre), post. rewrite E. reflexivity.
    + intros [pre [post E]]. destruct pre as [|x pre].
      * left. exists post. exact E.
      * right. injection E as _ E. exists pre, post. exact E.
Qed.

Lemma header_or_empty_some (h : option jsstring) (pre post : jsstring) :
  header_or_empty h = pre ++ lit "application/json" ++ post <->
  h = Some (pre ++ lit "application/json" ++ post).
Proof.
  destruct h as [[|c t]|]; cbn -[lit]; split; intros H;
    try (rewrite H; reflexivity);
    try (injection H as H; exact H);
    try discriminate H;
    destruct pre; discriminate H.
Qed.

(** What [api] resolves to on an answer in 2xx: the parsed body exactly
    when the content-type header is there with application/json somewhere
    in it (parameters such as a charset before or after do not matter) and
    the body parses; the response itself exactly when the header is absent
    or has no application/json in it; and when the header declares JSON and
    the body does not parse, [api] fails with the parser's error. *)
Theorem api_on_success (env : Env) (url : jsstring) (opts : Opts) (p : Page) (res : Response) :
  network env (requests (log p)) (request url opts) = Resolved res ->
  200 <= status res <= 299 ->
  let json_declared :=
    exists pre post, content_type res = Some (pre ++ lit "application/json" ++ post) in
  (forall v, fst (api env url opts p) = Resolved (Parsed v)
             <-> json_declared /\ res_json res = Resolved v)
  /\ (forall r, fst (api env url opts p) = Resolved (Raw r) <-> ~ json_declared /\ r = res)
  /\ (forall e, fst (api env url opts p) = Rejected e
                <-> json_declared /\ res_json res = Rejected e).
Proof.
  intros N [L U]. cbv zeta.
  assert (K : ok res = true).
  { unfold ok. apply andb_true_iff. split; apply N.leb_le; assumption. }
  assert (J : includes (header_or_empty (content_type res)) (lit "application/json") = true
              <-> exists pre post,
                    content_type res = Some (pre ++ lit "application/json" ++ post)).
  { rewrite includes_iff. split; intros [pre [post E]]; exists pre, post;
      apply header_or_empty_some; exact E. }
  destruct (includes (header_or_empty (content_type res)) (lit "application/json")) eqn:I.
  - rewrite (api_json env url opts p res N K I).
    assert (D : exists pre post,
                  content_type res = Some (pre ++ lit "application/json" ++ post))
      by (apply J; reflexivity).
    destruct (res_json res) as [v0|e0]; (split; [|split]); intros x; split; intros H;
      intuition (try congruence).
  - rewrite (api_raw env url opts p res N K I).
    assert (D : ~ exists pre post,
                    content_type res = Some (pre ++ lit "application/json" ++ post)).
    { intros H. apply J in H. discriminate H. }
    (split; [|split]); intros x; split; intros H; intuition (try congruence).
Qed.

(** ** The buttons of the session *)

Section Session_buttons.

Variable env : Env.

(** A handler that is one call and what follows it. *)
Lemma call_handler_run (url : jsstring) (opts : Opts) (k : M unit) (h : exn -> M unit)
    (p : Page) :
  try_catch (_ <- api env url opts ;; k) h p =
  match fst (api env url opts p) with
  | Resolved _ => try_catch k h (with_log (log p ++ [Fetch (request url opts)]) p)
  | Rejected e => h e (with_log (log p ++ [Fetch (request url opts)]) p)
  end.
Proof.
  unfold try_catch at 1. destruct (fst (api env url opts p)) as [a|e] eqn:A.
  - rewrite (bind_run _ _ _ _ _ (api_gives env _ _ _ _ A)). reflexivity.
  - rewrite (bind_throws _ _ _ _ _ (api_gives env _ _ _ _ A)). reflexivity.
Qed.

Lemma notice_then_status (msg : jsstring) (h : exn -> M unit) (q : Page) :
  try_catch (toast msg true ;; detached (refreshStatus env)) h q =
  (Resolved tt, snd (refreshStatus env (snd (toast msg true q)))).
Proof. unfold try_catch, bind. rewrite toast_run. reflexivity. Qed.

Lemma notice_alone (msg : jsstring) (h : exn -> M unit) (q : Page) :
  try_catch (toast msg true) h q = toast msg true q.
Proof. unfold try_catch. rewrite toast_run. reflexivity. Qed.

(** Each of the four handlers from what its call gives. *)
Lemma session_handler_run (a : Action) (p : Page) (r : Request) (msg : jsstring)
    (refresh : bool) :
  session_call a p = Some (r, msg, refresh) ->
  let q := with_log (log p ++ [Fetch r]) p in
  handle env a p =
  match fst (api env (req_url r) (req_opts r) p) with
  | Resolved _ =>
      if refresh then (Resolved tt, snd (refreshStatus env (snd (toast msg true q))))
      else toast msg true q
  | Rejected e =>
      match a with
      | ClickTopup => toast (lit "Demo top-up not enabled") false q
      | _ => toast (message e) false q
      end
  end.
Proof.
  intros S. cbv zeta.
  destruct a; cbn [session_call] in S; try discriminate S;
    injection S as <- <- <-; cbn [handle req_url req_opts request].
  - unfold loginBtn_onclick.
    rewrite (try_catch_ext _ (_ <- api env (lit "/auth/login") (json_post (posted p)) ;;
                              toast (lit "Logged in") true ;; detached (refreshStatus env))
               _ p p)
      by (rewrite (bind_run credentials_body _ p (posted p) p eq_refl); reflexivity).
    rewrite call_handler_run.
    destruct (fst (api env _ _ p)); [apply notice_then_status | reflexivity].
  - unfold signupBtn_onclick.
    rewrite (try_catch_ext _ (_ <- api env (lit "/auth/signup") (json_post (posted p)) ;;
                              toast (lit "Account created. You can login now.") true)
               _ p p)
      by (rewrite (bind_run credentials_body _ p (posted p) p eq_refl); reflexivity).
    rewrite call_handler_run.
    destruct (fst (api env _ _ p)); [apply notice_alone | reflexivity].
  - unfold logoutBtn_onclick. rewrite call_handler_run.
    destruct (fst (api env _ _ p)); [apply notice_then_status | reflexivity].
  - unfold topupBtn_onclick. rewrite call_handler_run.
    destruct (fst (api env _ _ p)); [apply notice_then_status | reflexivity].
Qed.

End Session_buttons.

(** What a handler of the session does once its call has resolved. *)
Lemma session_after_call (env : Env) (a : Action) (p : Page)
    (r : Request) (msg : jsstring) (refresh : bool) (data : ApiResult) :
  session_call a p = Some (r, msg, refresh) ->
  fst (api env (req_url r) (req_opts r) p) = Resolved data ->
  exists evs,
    effects (handle env a) p =
      Fetch r :: notice msg true ++ (if refresh then Fetch status_query :: evs else [])
    /\ forallb is_status_text evs = true
    /\ toast_textContent (snd (handle env a p)) = msg.
Proof.
  intros S A. pose proof (session_handler_run env a p r msg refresh S) as R.
  cbv zeta in R. rewrite A in R.
  set (q := with_log (log p ++ [Fetch r]) p) in R.
  destruct refresh.
  - destruct (refreshStatus_shape env (snd (toast msg true q))) as (c & pr & evs & E & G).
    exists evs. rewrite R, E, toast_run. cbn [snd]. split; [|split; [exact G | reflexivity]].
    apply effects_of_log. rewrite R, E, toast_run. unfold q, notice. cbn -[lit].
    rewrite <- !app_assoc. reflexivity.
  - exists []. rewrite R, toast_run. split; [|split; reflexivity].
    apply effects_of_log. rewrite R, toast_run. unfold q, notice. cbn -[lit].
    rewrite <- !app_assoc. reflexivity.
Qed.

(** What a handler of the session does once its call has failed. *)
Lemma session_after_failure (env : Env) (a : Action) (p : Page)
    (r : Request) (msg : jsstring) (refresh : bool) (e : exn) :
  session_call a p = Some (r, msg, refresh) ->
  fst (api env (req_url r) (req_opts r) p) = Rejected e ->
  effects (handle env a) p =
  Fetch r :: notice (match a with
                     | ClickTopup => lit "Demo top-up not enabled"
                     | _ => message e
                     end) false.
Proof.
  intros S A. pose proof (session_handler_run env a p r msg refresh S) as R.
  cbv zeta in R. rewrite A in R.
  apply effects_of_log. rewrite R.
  destruct a; cbn [session_call] in S; try discriminate S;
    rewrite toast_run; unfold notice; cbn -[lit]; rewrite <- !app_assoc; reflexivity.
Qed.

Lemma session_call_request (a : Action) (p : Page)
    (r : Request) (msg : jsstring) (refresh : bool) :
  session_call a p = Some (r, msg, refresh) -> request (req_url r) (req_opts r) = r.
Proof.
  destruct a; cbn [session_call]; intros S; try discriminate S;
    injection S as <- _ _; reflexivity.
Qed.

Lemma declares_json_iff (res : Response) :
  includes (header_or_empty (content_type res)) (lit "application/json") = true
  <-> exists pre post, content_type res = Some (pre ++ lit "application/json" ++ post).
Proof.
  rewrite includes_iff. split; intros [pre [post E]]; exists pre, post;
    apply header_or_empty_some; exact E.
Qed.

(** When the server answers the call of login, signup, logout or top-up
    with a status from 200 to 299, and the answer either does not declare
    JSON in its content type or has a body that parses, the handler shows
    its own notice in the colour of success, whatever the body says; login,
    logout and top-up then send the status query and write the status
    displays, signup does nothing more: it sends one request only and
    leaves the displays alone. When such an answer declares JSON and its
    body does not parse, the handler shows a notice of failure instead, the
    parser's message or for top-up the fixed one, and sends no status
    query. *)
Theorem session_success (env : Env) (a : Action) (p : Page)
    (r : Request) (msg : jsstring) (refresh : bool) (res : Response) :
  session_call a p = Some (r, msg, refresh) ->
  network env (requests (log p)) r = Resolved res ->
  200 <= status res <= 299 ->
  let json_declared :=
    exists pre post, content_type res = Some (pre ++ lit "application/json" ++ post) in
  (~ json_declared \/ (exists v, res_json res = Resolved v) ->
   exists evs,
     effects (handle env a) p =
       Fetch r :: [SetTextContent toastEl msg; RemoveHidden toastEl;
                   SetBorderColor toastEl (lit "#1f5ec3"); SetTimeout HideToast 3000]
       ++ (if refresh
           then Fetch {| req_url := lit "/auth/status"; req_credentials := lit "include";
                         req_opts := {| opt_method := None; opt_headers := [];
                                        opt_body := None |} |} :: evs
           else [])
     /\ forallb is_status_text evs = true
     /\ toast_textContent (snd (handle env a p)) = msg)
  /\ (forall e,
        json_declared -> res_json res = Rejected e ->
        effects (handle env a) p =
        Fetch r :: [SetTextContent toastEl
                      (match a with
                       | ClickTopup => lit "Demo top-up not enabled"
                       | _ => message e
                       end);
                    RemoveHidden toastEl;
                    SetBorderColor toastEl (lit "#743232"); SetTimeout HideToast 3000]).
Proof.
  intros S N [L U]. cbv zeta.
  assert (K : ok res = true).
  { unfold ok. apply andb_true_iff. split; apply N.leb_le; assumption. }
  rewrite <- (session_call_request a p r msg refresh S) in N.
  pose proof (declares_json_iff res) as J.
  split.
  - intros H.
    destruct (includes (header_or_empty (content_type res)) (lit "application/json")) eqn:I.
    + destruct H as [ND | [v V]]; [exfalso; apply ND, J; reflexivity|].
      apply (session_after_call env a p r msg refresh (Parsed v) S).
      rewrite (api_json env _ _ p res N K I), V. reflexivity.
    + apply (session_after_call env a p r msg refresh (Raw res) S).
      apply (api_raw env _ _ p res N K I).
  - intros e JD V. apply J in JD.
    apply (session_after_failure env a p r msg refresh e S).
    rewrite (api_json env _ _ p res N K JD), V. reflexivity.
Qed.

(** When the call of login, signup or logout fails, for whatever reason, the
    handler shows the message of the error in the colour of failure and
    does nothing else: one request, no status query, the status displays
    as they were. *)
Theorem session_failure (env : Env) (a : Action) (p : Page)
    (r : Request) (msg : jsstring) (refresh : bool) (e : exn) :
  session_call a p = Some (r, msg, refresh) ->
  a <> ClickTopup ->
  fst (api env (req_url r) (req_opts r) p) = Rejected e ->
  let q := snd (handle env a p) in
  effects (handle env a) p = Fetch r :: notice (message e) false
  /\ toast_textContent q = message e
  /\ credits_textContent q = credits_textContent p
  /\ price_textContent q = price_textContent p.
Proof.
  intros S NT A. pose proof (session_handler_run env a p r msg refresh S) as R.
  cbv zeta in R. rewrite A in R.
  assert (E : handle env a p = toast (message e) false (with_log (log p ++ [Fetch r]) p))
    by (destruct a; try exact R; contradiction).
  cbv zeta. split; [|rewrite E, toast_run; repeat split; reflexivity].
  apply effects_of_log. rewrite E, toast_run. unfold notice. cbn -[lit].
  rewrite <- !app_assoc. reflexivity.
Qed.

(** ** The status query, whatever the answer *)

Lemma status_texts_are_quiet (evs : list Event) :
  forallb is_status_text evs = true ->
  requests evs = [] /\ existsb is_notice evs = false.
Proof.
  induction evs as [|ev evs IH]; [split; reflexivity|].
  cbn [forallb]. intros H. apply andb_true_iff in H. destruct H as [H T].
  destruct (IH T) as [R N].
  destruct ev as [[] ? | | | | | | | | | | | |]; try discriminate H;
    cbn; rewrite ?R, ?N; split; reflexivity.
Qed.

(** Whatever the server answers or fails to answer, refreshStatus returns
    normally, sends the status query and nothing else, raises no notice,
    and leaves the page as it was but for the two status displays and the
    log. *)
Theorem status_refresh_is_quiet (env : Env) (p : Page) :
  let q := snd (refreshStatus env p) in
  fst (refreshStatus env p) = Resolved tt
  /\ sent (refreshStatus env) p = [status_query]
  /\ existsb is_notice (effects (refreshStatus env) p) = false
  /\ q = with_log (log q)
           (with_textContent priceEl (price_textContent q)
              (with_textContent creditsEl (credits_textContent q) p)).
Proof.
  cbv zeta. destruct (refreshStatus_shape env p) as (c & pr & evs & E & G).
  destruct (status_texts_are_quiet evs G) as [R N].
  assert (L : log (snd (refreshStatus env p)) = log p ++ Fetch status_query :: evs)
    by (rewrite E; reflexivity).
  rewrite (sent_of_log _ _ _ L), (effects_of_log _ _ _ L). cbn. rewrite R, N, E.
  repeat split.
Qed.

(** When the answer to the status query is a JSON object, each display
    shows what the object holds for it: the credits display the property
    credits, the price display the property credit_cost_gbp, a number by
    its text (a balance of zero as 0) and a string by itself; a property
    that is absent or null gives the placeholder, "?" for the credits and
    "20" for the price. *)
Theorem status_display (env : Env) (p : Page) (props : list (jsstring * Json.value))
    (c pr : jsstring) :
  fst (api env (lit "/auth/status") no_opts p) = Resolved (Parsed (Json.JObject props)) ->
  displays (Json.lookup (lit "credits") props) (lit "?") c ->
  displays (Json.lookup (lit "credit_cost_gbp") props) (lit "20") pr ->
  let q := snd (refreshStatus env p) in
  credits_textContent q = c
  /\ price_textContent q = pr
  /\ effects (refreshStatus env) p =
       [Fetch status_query; SetTextContent creditsEl c; SetTextContent priceEl pr].
Proof.
  intros A Dc Dp. cbv zeta.
  assert (E : refreshStatus env p =
              (Resolved tt,
               with_log (log p ++ [Fetch status_query; SetTextContent creditsEl c;
                                   SetTextContent priceEl pr])
                 (with_textContent priceEl pr (with_textContent creditsEl c p)))).
  { unfold refreshStatus, try_catch, refreshStatus_try.
    rewrite (bind_run _ _ p _ _ (api_gives env _ _ p _ A)).
    unfold get_property, setTextContent_or, setTextContent, emit, modify, bind, ret.
    destruct Dc as [[[Hc | Hc] ->] | [[n [Hc ->]] | [t [Hc ->]]]]; rewrite Hc;
      destruct Dp as [[[Hp | Hp] ->] | [[m [Hp ->]] | [u [Hp ->]]]]; rewrite Hp;
      cbn -[lit]; rewrite <- !app_assoc; reflexivity. }
  split; [rewrite E; reflexivity|]. split; [rewrite E; reflexivity|].
  apply effects_of_log. rewrite E. reflexivity.
Qed.

(** When the answer to the status query is in 2xx and is not a JSON object
    (a body that is not declared as JSON, or JSON that is an array, a
    string, a number or a boolean), the credits display shows "?" and the
    price display is set to "20", whatever it showed; when the answer is
    the JSON null, reading its property throws, the credits display shows
    "?" and the price display keeps what it showed. *)
Theorem status_without_object (env : Env) (p : Page) (data : ApiResult) :
  fst (api env (lit "/auth/status") no_opts p) = Resolved data ->
  (forall props, data <> Parsed (Json.JObject props)) ->
  let q := snd (refreshStatus env p) in
  credits_textContent q = lit "?"
  /\ price_textContent q =
     match data with
     | Parsed Json.JNull => price_textContent p
     | _ => lit "20"
     end.
Proof.
  intros A NO. cbv zeta.
  unfold refreshStatus, try_catch, refreshStatus_try.
  rewrite (bind_run _ _ p _ _ (api_gives env _ _ p _ A)).
  unfold get_property, setTextContent_or, setTextContent, emit, modify, bind, throw, ret.
  destruct data as [[| b | n | t | items | props]|res]; cbn -[lit];
    try (split; reflexivity).
  exfalso. apply (NO props). reflexivity.
Qed.

(** ** Submissions that fail, and downloads *)

Lemma api_raw_inv (env : Env) (url : jsstring) (opts : Opts) (p : Page) (res : Response) :
  fst (api env url opts p) = Resolved (Raw res) ->
  network env (requests (log p)) (request url opts) = Resolved res
  /\ ok res = true /\ declares_json res = false.
Proof.
  unfold api, bind, fetch, await, throw, ret, declares_json. cbn -[includes lit].
  destruct (network env (requests (log p)) (request url opts)) as [r|e]; [|discriminate].
  destruct (ok r) eqn:K; cbn -[includes lit].
  - destruct (includes (header_or_empty (content_type r)) (lit "application/json")) eqn:J.
    + destruct (res_json r); discriminate.
    + intros H. injection H as <-. repeat split; assumption.
  - destruct (res_text r); discriminate.
Qed.

(** When the server cannot be reached, or refuses the submission with a
    body that can be read, the handler hides the progress box at once and
    shows as a failure the message of the error: the text of the body, or
    the status phrase when the body is empty, or what the network error
    says. One request has gone out; no status query follows and nothing is
    downloaded. *)
Theorem submission_failure_notice (env : Env) (p : Page) (F : list File) (msg : jsstring) :
  F <> [] ->
  fileInput_files p = Some F ->
  (exists e, network env (requests (log p)) (submitted p F) = Rejected e /\ msg = message e)
  \/ (exists res txt,
        network env (requests (log p)) (submitted p F) = Resolved res
        /\ ok res = false /\ res_text res = Resolved txt
        /\ msg = match txt with [] => statusText res | _ :: _ => txt end) ->
  let q := snd (stampBtn_onclick env p) in
  effects (stampBtn_onclick env) p =
    [RemoveHidden progressBox; SetTextContent progressMsg (lit "Processing" ++ [0x2026]);
     Fetch (submitted p F); AddHidden progressBox] ++ notice msg false
  /\ sent (stampBtn_onclick env) p = [submitted p F]
  /\ progressBox_hidden q = true
  /\ toast_textContent q = msg.
Proof.
  intros NE H C. destruct F as [|f fs]; [contradiction|]. cbv zeta.
  pose proof (stampBtn_onclick_run env p f fs H) as R. cbv zeta in R.
  assert (A : exists e, fst (api env (req_url (submitted p (f :: fs)))
                               (req_opts (submitted p (f :: fs))) (processing_page p))
                        = Rejected e /\ message e = msg).
  { destruct C as [[e [N ->]] | [res [txt [N [K [T ->]]]]]].
    - exists e. split; [|reflexivity]. apply api_network_failure.
      rewrite requests_processing_page. exact N.
    - eexists. split.
      + rewrite (api_not_ok env _ _ (processing_page p) res); [rewrite T; reflexivity| |exact K].
        rewrite requests_processing_page. exact N.
      + destruct txt; reflexivity. }
  destruct A as [e [A M]]. rewrite A, M in R.
  assert (L : log (snd (stampBtn_onclick env p)) =
              log p ++ [RemoveHidden progressBox; SetTextContent progressMsg processing;
                        Fetch (submitted p (f :: fs));
                        AddHidden progressBox; SetTextContent toastEl msg;
                        RemoveHidden toastEl; SetBorderColor toastEl (lit "#743232");
                        SetTimeout HideToast 3000]).
  { rewrite R. unfold failed_page, processing_page. cbn -[lit processing].
    rewrite <- !app_assoc. reflexivity. }
  rewrite (effects_of_log _ _ _ L), (sent_of_log _ _ _ L), R.
  repeat split.
Qed.

(** A download is offered only for an answer in 2xx that is not declared as
    JSON and whose body can be read as a blob, to a submission with files:
    never for an empty selection, an unreachable server, a refusal, a JSON
    answer or a body that cannot be read. *)
Theorem download_needs_success (env : Env) (p : Page) :
  existsb is_download (effects (stampBtn_onclick env) p) = true ->
  exists F res b,
    F <> []
    /\ fileInput_files p = Some F
    /\ network env (requests (log p)) (submitted p F) = Resolved res
    /\ ok res = true
    /\ declares_json res = false
    /\ res_blob res = Resolved b.
Proof.
  intros D.
  assert (Fl : forall F msg,
             snd (stampBtn_onclick env p) =
             failed_page msg
               (with_log (log (processing_page p) ++ [Fetch (submitted p F)])
                  (processing_page p)) -> False).
  { intros F msg E. rewrite (failed_submission_effects env p F msg E) in D. discriminate D. }
  destruct (fileInput_files p) as [[|f fs]|] eqn:H.
  - exfalso. pose proof (stampBtn_onclick_empty env p (or_intror H)) as E.
    rewrite (effects_of_log _ _ [AddHidden progressBox;
                                 SetTextContent toastEl (lit "Please add images or a .zip");
                                 RemoveHidden toastEl; SetBorderColor toastEl (lit "#743232");
                                 SetTimeout HideToast 3000]) in D
      by (rewrite E; reflexivity).
    discriminate D.
  - pose proof (stampBtn_onclick_run env p f fs H) as R. cbv zeta in R.
    destruct (fst (api env (req_url (submitted p (f :: fs)))
                     (req_opts (submitted p (f :: fs))) (processing_page p)))
      as [[v|res]|e] eqn:A.
    + exfalso. apply (Fl (f :: fs) (message (no_blob env v))). rewrite R. reflexivity.
    + destruct (api_raw_inv env _ _ _ res A) as (N & K & J).
      rewrite requests_processing_page in N.
      destruct (res_blob res) as [b|e] eqn:B.
      * exists (f :: fs), res, b. repeat split; try assumption. discriminate.
      * exfalso. apply (Fl (f :: fs) (message e)). rewrite R. reflexivity.
    + exfalso. apply (Fl (f :: fs) (message e)). rewrite R. reflexivity.
  - exfalso. pose proof (stampBtn_onclick_empty env p (or_introl H)) as E.
    rewrite (effects_of_log _ _ [AddHidden progressBox;
                                 SetTextContent toastEl (lit "Please add images or a .zip");
                                 RemoveHidden toastEl; SetBorderColor toastEl (lit "#743232");
                                 SetTimeout HideToast 3000]) in D
      by (rewrite E; reflexivity).
    discriminate D.
Qed.

(** ** Reading the posted credentials back *)

Lemma hexDigit_plain (d : N) :
  (Json.hexDigit d =? 0x22) = false /\ (Json.hexDigit d =? 0x5C) = false.
Proof.
  unfold Json.hexDigit. destruct (d <? 10) eqn:D.
  - apply N.ltb_lt in D. split; apply N.eqb_neq; lia.
  - apply N.ltb_ge in D. split; apply N.eqb_neq; lia.
Qed.

Lemma closing_plain (c : N) (t : jsstring) :
  (c =? 0x22) = false -> (c =? 0x5C) = false ->
  closing (c :: t) =
  match closing t with
  | Some (a, b) => Some (c :: a, b)
  | None => None
  end.
Proof. intros Q S. cbn [closing]. rewrite Q, S. reflexivity. Qed.

Lemma closing_escape (x : N) (t : jsstring) :
  closing (0x5C :: x :: t) =
  match closing t with
  | Some (a, b) => Some (0x5C :: x :: a, b)
  | None => None
  end.
Proof. reflexivity. Qed.

Lemma closing_quoteUnit (c : N) (t : jsstring) :
  closing (Json.quoteUnit c ++ t) =
  match closing t with
  | Some (a, b) => Some (Json.quoteUnit c ++ a, b)
  | None => None
  end.
Proof.
  unfold Json.quoteUnit.
  repeat match goal with
  | |- context [if ?x =? ?k then _ else _] =>
      let E := fresh "E" in
      destruct (x =? k) eqn:E; [cbn [app]; rewrite closing_escape; reflexivity|]
  end.
  destruct ((c <? 0x20) || Json.isLeadingSurrogate c || Json.isTrailingSurrogate c).
  - unfold Json.UnicodeEscape. cbn [app]. rewrite closing_escape.
    rewrite !closing_plain by apply hexDigit_plain.
    destruct (closing t) as [[a b]|]; reflexivity.
  - cbn [app]. apply closing_plain; assumption.
Qed.

Lemma closing_quoteBody_bounded (n : nat) :
  forall s rest, (List.length s <= n)%nat ->
    closing (Json.quoteBody s ++ 0x22 :: rest) = Some (Json.quoteBody s, rest).
Proof.
  induction n as [|n IH]; intros s rest L.
  - destruct s; [reflexivity | cbn in L; lia].
  - destruct s as [|c [|d r]]; [reflexivity | |].
    + rewrite quoteBody_cons, <- app_assoc, closing_quoteUnit. reflexivity.
    + rewrite quoteBody_cons. cbn [List.length] in L.
      destruct (Json.isLeadingSurrogate c && Json.isTrailingSurrogate d) eqn:P.
      * apply andb_true_iff in P. destruct P as [Pc Pd].
        assert (Qc : (c =? 0x22) = false /\ (c =? 0x5C) = false).
        { unfold Json.isLeadingSurrogate in Pc. apply andb_true_iff in Pc.
          destruct Pc as [Pc _]. apply N.leb_le in Pc. split; apply N.eqb_neq; lia. }
        assert (Qd : (d =? 0x22) = false /\ (d =? 0x5C) = false).
        { unfold Json.isTrailingSurrogate in Pd. apply andb_true_iff in Pd.
          destruct Pd as [Pd _]. apply N.leb_le in Pd. split; apply N.eqb_neq; lia. }
        cbn [app]. rewrite !closing_plain by tauto.
        rewrite (IH r rest) by lia. reflexivity.
      * rewrite <- app_assoc, closing_quoteUnit.
        rewrite (IH (d :: r) rest) by (cbn [List.length]; lia). reflexivity.
Qed.

(** The quote that ends a quoted string is the first one not escaped. *)
Lemma closing_quoteBody (s rest : jsstring) :
  closing (Json.quoteBody s ++ 0x22 :: rest) = Some (Json.quoteBody s, rest).
Proof. apply (closing_quoteBody_bounded (List.length s)). apply le_n. Qed.

Lemma after_prefix_app (pre t : jsstring) : after_prefix pre (pre ++ t) = Some t.
Proof.
  unfold after_prefix.
  replace (isPrefix pre (pre ++ t)) with true
    by (symmetry; apply isPrefix_iff; exists t; reflexivity).
  rewrite skipn_app, skipn_all, Nat.sub_diag. reflexivity.
Qed.

Lemma read_stringify (e pw : jsstring) :
  read_credentials (Json.stringify [(lit "email", e); (lit "password", pw)]) = Some (e, pw).
Proof.
  unfold read_credentials.
  set (open_email := lit "{" ++ [0x22] ++ lit "email" ++ [0x22] ++ lit ":" ++ [0x22]).
  set (open_password := lit "," ++ [0x22] ++ lit "password" ++ [0x22] ++ lit ":" ++ [0x22]).
  assert (E : Json.stringify [(lit "email", e); (lit "password", pw)] =
              open_email ++ Json.quoteBody e ++ 0x22 ::
              (open_password ++ Json.quoteBody pw ++ 0x22 :: lit "}")).
  { unfold Json.stringify, Json.property, Json.QuoteJSONString, open_email, open_password.
    cbn [map join fst snd].
    change (Json.quoteBody (lit "email")) with (lit "email").
    change (Json.quoteBody (lit "password")) with (lit "password").
    repeat rewrite <- app_assoc. reflexivity. }
  rewrite E, after_prefix_app, closing_quoteBody, after_prefix_app, closing_quoteBody.
  change (eqb (lit "}") (lit "}")) with true. cbv iota.
  rewrite !unquote_quoteBody. reflexivity.
Qed.

(** What login and signup post can be read back: a reader of the JSON text
    of the first request finds the email without the white space at its
    ends and the password exactly as typed, whatever units they are made
    of, quotes, backslashes, control characters and lone surrogates
    included. *)
Theorem credentials_read_back (env : Env) (p : Page) :
  exists body t,
    hd_error (sent (loginBtn_onclick env) p) =
      Some (request (lit "/auth/login") (json_post (TextBody body)))
    /\ hd_error (sent (signupBtn_onclick env) p) =
         Some (request (lit "/auth/signup") (json_post (TextBody body)))
    /\ read_credentials body = Some (t, password_value p)
    /\ is_trim_of (email_value p) t.
Proof.
  exists (Json.stringify [(lit "email", trim (email_value p));
                          (lit "password", password_value p)]), (trim (email_value p)).
  split; [apply login_sent|]. split; [apply signup_sent|].
  split; [apply read_stringify | apply trim_is_trim_of].
Qed.

(** ** Sizes and summaries *)

(** The size shown for a file of 1024 k + r bytes, r below 1024, is k KB
    when r is below 512 and k + 1 KB from 512 on; so a file shows as 0 KB
    exactly when it has fewer than 512 bytes, and a larger file never shows
    a smaller size. *)
Theorem size_in_kb (k r : N) :
  r < 1024 ->
  round_kb (1024 * k + r) = (if r <? 512 then k else k + 1)
  /\ (round_kb (1024 * k + r) = 0 <-> 1024 * k + r < 512)
  /\ (forall smaller, smaller <= 1024 * k + r -> round_kb smaller <= round_kb (1024 * k + r)).
Proof.
  intros R.
  pose proof (round_kb_nearest (1024 * k + r)) as [L U].
  assert (V : round_kb (1024 * k + r) = (if r <? 512 then k else k + 1)).
  { destruct (r <? 512) eqn:H; [apply N.ltb_lt in H | apply N.ltb_ge in H]; lia. }
  split; [exact V|]. split.
  - rewrite V. destruct (r <? 512) eqn:H; [apply N.ltb_lt in H | apply N.ltb_ge in H]; lia.
  - intros smaller S. pose proof (round_kb_nearest smaller) as [L' U']. lia.
Qed.

Lemma file_label_not_empty (f : File) : file_label f <> [].
Proof.
  unfold file_label. intros H. apply app_eq_nil in H. destruct H as [_ H].
  discriminate H.
Qed.

(** The summary is empty exactly when nothing is selected: a selection with
    a file in it always writes some text. *)
Theorem summary_empty_iff (l : option (list File)) (p : Page) :
  fileList_textContent (snd (renderFiles l p)) = [] <-> l = None \/ l = Some [].
Proof.
  rewrite renderFiles_text. split.
  - destruct l as [[|f fs]|]; [right; reflexivity | | left; reflexivity].
    intros H. exfalso. cbn [map join] in H.
    destruct (map file_label fs); [exact (file_label_not_empty f H)|].
    apply app_eq_nil in H. exact (file_label_not_empty f (proj1 H)).
  - intros [-> | ->]; reflexivity.
Qed.

(** When the stamp handler has run, the progress box is on its way out:
    either it is hidden already (the submission failed, or there was
    nothing to submit), or the message is "Done" and the timer that hides
    the box is set. *)
Theorem progress_box_is_taken_down (env : Env) (p : Page) :
  let q := snd (stampBtn_onclick env p) in
  progressBox_hidden q = true
  \/ (progressMsg_textContent q = lit "Done"
      /\ In (SetTimeout HideProgress 500) (effects (stampBtn_onclick env) p)).
Proof.
  cbv zeta. destruct (fileInput_files p) as [[|f fs]|] eqn:H.
  - left. rewrite (stampBtn_onclick_empty env p (or_intror H)). reflexivity.
  - pose proof (stampBtn_onclick_run env p f fs H) as R. cbv zeta in R.
    destruct (fst (api env (req_url (submitted p (f :: fs)))
                     (req_opts (submitted p (f :: fs))) (processing_page p)))
      as [[v|res]|e]; try (left; rewrite R; reflexivity).
    destruct (res_blob res) as [b|e]; [|left; rewrite R; reflexivity].
    right.
    set (d := downloaded_page env b
                (with_log (log (processing_page p) ++ [Fetch (submitted p (f :: fs))])
                   (processing_page p))) in R.
    destruct (refreshStatus_shape env d) as (c & pr & evs & E & _).
    rewrite E in R. cbn [snd] in R. split; [rewrite R; reflexivity|].
    rewrite (effects_of_log _ _
               ([RemoveHidden progressBox; SetTextContent progressMsg processing;
                 Fetch (submitted p (f :: fs));
                 CreateObjectURL b (objectURL env b);
                 AppendChild {| href := objectURL env b; download := lit "stamped_images.zip" |};
                 Click {| href := objectURL env b; download := lit "stamped_images.zip" |};
                 Remove {| href := objectURL env b; download := lit "stamped_images.zip" |};
                 RevokeObjectURL (objectURL env b);
                 SetTextContent progressMsg (lit "Done")]
                ++ SetTimeout HideProgress 500 :: Fetch status_query :: evs)).
    + apply in_or_app. right. left. reflexivity.
    + rewrite R. unfold d, downloaded_page, processing_page. cbn -[lit processing].
      rewrite <- !app_assoc. reflexivity.
  - left. rewrite (stampBtn_onclick_empty env p (or_introl H)). reflexivity.
Qed.

(** * The further properties on the sample pages *)

Import Cases.

Lemma default_date_format_witness :
  date_value (snd (setDefaults new_year blank)) = lit "01/01/2024"
  /\ date_value (snd (setDefaults long_ago blank)) = lit "30/11/987".
Proof.
  split.
  - exact (proj1 (default_date_format new_year blank ltac:(cbn; lia) ltac:(cbn; lia))).
  - exact (proj1 (default_date_format long_ago blank ltac:(cbn; lia) ltac:(cbn; lia))).
Defined.

Lemma loaded_defaults_are_sent_witness :
  exists c,
    hd_error (sent (stampBtn_onclick healthy)
                (after healthy [DropFiles (Some [a_png])]
                   (snd (main healthy new_year blank))))
    = Some {| req_url := lit "/api/stamp";
              req_credentials := lit "include";
              req_opts :=
                {| opt_method := Some (lit "POST");
                   opt_headers := [];
                   opt_body :=
                     Some (FormBody
                             [FileEntry (lit "files") a_png (lit "a.png");
                              FieldEntry (lit "date") (lit "01/01/2024");
                              FieldEntry (lit "start_time") (lit "09:00:00");
                              FieldEntry (lit "end_time") (lit "09:05:00");
                              FieldEntry (lit "crop_height") c]) |} |}
    /\ is_trim_of (lit "100 ") c.
Proof.
  exact (loaded_defaults_are_sent healthy new_year blank [a_png]
           ltac:(cbn; lia) ltac:(cbn; lia) ltac:(discriminate)).
Defined.

Lemma api_on_success_witness :
  fst (api unpriced (lit "/auth/status") no_opts blank)
  = Resolved (Parsed (Json.JObject
                        [(lit "credits", Json.JNumber (lit "3"));
                         (lit "credit_cost_gbp",
                          Json.JObject [(lit "toString", Json.JNumber (lit "1"))])]))
  /\ fst (api terse (lit "/auth/logout") post blank) = Resolved (Raw empty_ok_response).
Proof.
  split.
  - apply (proj1 (api_on_success unpriced (lit "/auth/status") no_opts blank _
                    eq_refl ltac:(cbn; lia))).
    split; [exists [], (lit "; charset=utf-8"); reflexivity | reflexivity].
  - apply (proj1 (proj2 (api_on_success terse (lit "/auth/logout") post blank
                           empty_ok_response eq_refl ltac:(cbn; lia)))).
    split; [intros (pre & post & H); discriminate H | reflexivity].
Defined.

Lemma session_success_witness :
  toast_textContent (snd (handle healthy ClickLogin blank)) = lit "Logged in"
  /\ effects (handle terse ClickSignup) blank =
     [Fetch (request (lit "/auth/signup") (json_post (posted blank)));
      SetTextContent toastEl (lit "Account created. You can login now.");
      RemoveHidden toastEl; SetBorderColor toastEl (lit "#1f5ec3");
      SetTimeout HideToast 3000]
  /\ effects (handle garbling ClickLogin) blank =
     [Fetch (request (lit "/auth/login") (json_post (posted blank)));
      SetTextContent toastEl (lit "Unexpected end of JSON input");
      RemoveHidden toastEl; SetBorderColor toastEl (lit "#743232");
      SetTimeout HideToast 3000].
Proof.
  split; [|split].
  - destruct (proj1 (session_success healthy ClickLogin blank _ _ _ status_response
                       eq_refl eq_refl ltac:(cbn; lia))
                (or_intror (ex_intro _ _ eq_refl)))
      as (evs & _ & _ & T). exact T.
  - assert (ND : ~ exists pre post,
                     content_type empty_ok_response
                     = Some (pre ++ lit "application/json" ++ post))
      by (intros (pre & post & H); discriminate H).
    destruct (proj1 (session_success terse ClickSignup blank _ _ _ empty_ok_response
                       eq_refl eq_refl ltac:(cbn; lia))
                (or_introl ND))
      as (evs & E & _ & _). exact E.
  - apply (proj2 (session_success garbling ClickLogin blank _ _ _ garbled_response
                    eq_refl eq_refl ltac:(cbn; lia))
             {| exn_name := lit "SyntaxError";
                message := lit "Unexpected end of JSON input" |}).
    + exists [], []. reflexivity.
    + reflexivity.
Defined.

Lemma session_failure_witness :
  toast_textContent (snd (handle denying ClickLogin blank)) = lit "Invalid credentials"
  /\ effects (handle offline ClickLogout) blank =
     Fetch (request (lit "/auth/logout") post) :: notice (lit "Failed to fetch") false.
Proof.
  split.
  - apply (proj1 (proj2 (session_failure denying ClickLogin blank _ _ _
                           (Error (lit "Invalid credentials"))
                           eq_refl ltac:(discriminate) eq_refl))).
  - apply (proj1 (session_failure offline ClickLogout blank _ _ _
                    {| exn_name := lit "TypeError"; message := lit "Failed to fetch" |}
                    eq_refl ltac:(discriminate) eq_refl)).
Defined.

Lemma status_display_witness :
  credits_textContent (snd (refreshStatus healthy blank)) = lit "4"
  /\ price_textContent (snd (refreshStatus healthy blank)) = lit "20".
Proof.
  destruct (status_display healthy blank
              [(lit "credits", Json.JNumber (lit "4"));
               (lit "credit_cost_gbp", Json.JNumber (lit "20"))]
              (lit "4") (lit "20") eq_refl
              (or_intror (or_introl (ex_intro _ (lit "4") (conj eq_refl eq_refl))))
              (or_intror (or_introl (ex_intro _ (lit "20") (conj eq_refl eq_refl)))))
    as (C & P & _).
  split; [exact C | exact P].
Defined.

Lemma status_without_object_witness :
  price_textContent discounted = lit "5"
  /\ credits_textContent (snd (refreshStatus terse discounted)) = lit "?"
  /\ price_textContent (snd (refreshStatus terse discounted)) = lit "20".
Proof.
  split; [reflexivity|].
  apply (status_without_object terse discounted (Raw empty_ok_response) eq_refl).
  intros props H. discriminate H.
Defined.

Lemma submission_failure_notice_witness :
  toast_textContent (snd (stampBtn_onclick refusing selected)) = lit "Insufficient credits"
  /\ sent (stampBtn_onclick refusing) selected = [submitted selected [a_png; b_zip]].
Proof.
  destruct (submission_failure_notice refusing selected [a_png; b_zip]
              (lit "Insufficient credits") ltac:(discriminate) eq_refl
              (or_intror (ex_intro _ no_credits_response
                            (ex_intro _ (lit "Insufficient credits")
                               (conj eq_refl (conj eq_refl (conj eq_refl eq_refl)))))))
    as (_ & S & _ & T).
  split; [exact T | exact S].
Defined.

Lemma download_needs_success_witness :
  exists F res b,
    F <> []
    /\ fileInput_files selected = Some F
    /\ network healthy (requests (log selected)) (submitted selected F) = Resolved res
    /\ ok res = true /\ declares_json res = false /\ res_blob res = Resolved b.
Proof. apply (download_needs_success healthy selected). reflexivity. Defined.

Lemma size_in_kb_witness :
  round_kb 2048 = 2 /\ round_kb 1535 = 1 /\ round_kb 1536 = 2.
Proof.
  split; [|split].
  - exact (proj1 (size_in_kb 2 0 ltac:(lia))).
  - exact (proj1 (size_in_kb 1 511 ltac:(lia))).
  - exact (proj1 (size_in_kb 1 512 ltac:(lia))).
Defined.

Lemma summary_follows_selection_witness :
  summary_current blank
  /\ fileList_textContent
       (after healthy [DropFiles (Some [a_png]); ClickStamp; ClickLogin; TimerFires HideToast]
          blank)
     = lit "a.png (2 KB)".
Proof.
  assert (B : summary_current blank) by reflexivity.
  split; [exact B|].
  pose proof (proj2 (proj2 (proj2 (summary_follows_selection healthy)))
                [DropFiles (Some [a_png]); ClickStamp; ClickLogin; TimerFires HideToast]
                blank B) as S.
  etransitivity; [exact (proj1 (summary_current_iff _) S) | vm_compute; reflexivity].
Defined.

Lemma drop_replaces_selection_witness :
  fileList_textContent (after healthy [DropFiles (Some [a_png]); DropFiles (Some [b_zip])] blank)
  = lit "b.zip (2 KB)"
  /\ hd_error (sent (stampBtn_onclick healthy)
                 (after healthy [DropFiles (Some [a_png]); DropFiles (Some [b_zip])] blank))
     = Some {| req_url := lit "/api/stamp";
               req_credentials := lit "include";
               req_opts :=
                 {| opt_method := Some (lit "POST");
                    opt_headers := [];
                    opt_body :=
                      Some (FormBody
                              [FileEntry (lit "files") b_zip (lit "b.zip");
                               FieldEntry (lit "date") (lit "01/01/2024");
                               FieldEntry (lit "start_time") (lit "09:00:00");
                               FieldEntry (lit "end_time") (lit "09:05:00");
                               FieldEntry (lit "crop_height") (lit "100")]) |} |}
  /\ sent (stampBtn_onclick healthy)
       (after healthy [DropFiles (Some [a_png]); DropFiles (Some [])] blank) = [].
Proof.
  destruct (proj1 (proj2 (drop_replaces_selection healthy blank [a_png] [b_zip]))
              ltac:(discriminate))
    as (S & d & s & e & c & R & Td & Ts & Te & Tc).
  split; [|split].
  - apply (proj1 (is_summary_iff _ _) S).
  - rewrite R.
    rewrite (is_trim_of_unique _ _ Td), (is_trim_of_unique _ _ Ts),
      (is_trim_of_unique _ _ Te), (is_trim_of_unique _ _ Tc).
    reflexivity.
  - apply (proj2 (proj2 (drop_replaces_selection healthy blank [a_png] []))).
    reflexivity.
Defined.
